(** * Cortex: memory policy and synchronous generation engine

    A shallow embedding of [memory_manager.cpp] and of the synchronous
    part of [inference_engine.cpp] (android/app/src/main/cpp), with the
    properties of the design document proved or refuted on it.

    Conventions.
    - [size_t] is the 64-bit unsigned type of the arm64 targets: a [Z] in
      [0, 2^64), every arithmetic operation reduced modulo [2^64].
    - [int] values are [Z]; a conversion from [size_t] to [int] is reduced
      to the 32-bit two's-complement range.  Signed arithmetic itself is
      exact: signed overflow has no defined behaviour in C++, and the
      model describes the executions that do not run into it.
    - The llama.cpp backend is an oracle: a record of functions over an
      abstract context state.
    - A call either returns or gets stuck.  [mutex_] is a flag; a
      [lock_guard] on it while the calling thread already holds it does
      not return.  Dereferencing [ctx_] with no model loaded and a
      [std::length_error] do not return either.
    - Logging, wall-clock timing and the floating-point statistics derived
      from it take no part in control flow and are left out. *)

From Stdlib Require Import ZArith List String Ascii Bool Lia.
Import ListNotations.
Local Open Scope Z_scope.

(* ================================================================== *)
(** ** Machine integers *)

Module Machine.

Definition SIZE_MOD : Z := 2 ^ 64.
Definition SIZE_MAX : Z := SIZE_MOD - 1.

Definition wrap_size (z : Z) : Z := z mod SIZE_MOD.
Definition size_add (a b : Z) : Z := wrap_size (a + b).
Definition size_sub (a b : Z) : Z := wrap_size (a - b).
Definition size_mul (a b : Z) : Z := wrap_size (a * b).

(** The values a [size_t] variable can hold. *)
Definition is_size (z : Z) : Prop := 0 <= z < SIZE_MOD.

Definition INT_MIN : Z := - 2 ^ 31.
Definition INT_MAX : Z := 2 ^ 31 - 1.

(** Conversion of an integer value to [int]. *)
Definition wrap_int (z : Z) : Z := (z + 2 ^ 31) mod 2 ^ 32 - 2 ^ 31.

(** [i += n] for an [int i] and a [size_t n]: the sum is formed in
    [size_t] and converted back. *)
Definition int_add_size (i n : Z) : Z :=
  wrap_int (size_add (wrap_size i) n).

End Machine.

(* ================================================================== *)
(** ** memory_manager.cpp *)

Module MemoryManager.
Import Machine.

Inductive MemoryPressure : Type := Low | Medium | High | Critical.

Definition MemoryPressure_eqb (a b : MemoryPressure) : bool :=
  match a, b with
  | Low, Low | Medium, Medium | High, High | Critical, Critical => true
  | _, _ => false
  end.

(** Position on the ladder, for comparing levels. *)
Definition severity (p : MemoryPressure) : Z :=
  match p with Low => 0 | Medium => 1 | High => 2 | Critical => 3 end.

Definition MB : Z := 1024 * 1024.

Definition MEMORY_LOW_THRESHOLD : Z := 512 * 1024 * 1024.
Definition MEMORY_MEDIUM_THRESHOLD : Z := 256 * 1024 * 1024.
Definition MEMORY_HIGH_THRESHOLD : Z := 128 * 1024 * 1024.
Definition MEMORY_CRITICAL_THRESHOLD : Z := 64 * 1024 * 1024.

Definition ALLOCATION_SAFETY_MARGIN : Z := 100 * 1024 * 1024.
Definition MIN_FREE_AFTER_ALLOC : Z := 500 * 1024 * 1024.
Definition BYTES_PER_TOKEN : Z := 4 * 1024.

(** The host's /proc/meminfo at the time of a call: the number that
    follows a field name, [None] when the file cannot be opened or no
    line starts with the field. *)
Definition MemInfo : Type := string -> option Z.

Definition readMemInfo (host : MemInfo) (field : string) : Z :=
  match host field with
  | Some value => size_mul (wrap_size value) 1024
  | None => 0
  end.

Definition getTotalMemory (host : MemInfo) : Z :=
  readMemInfo host "MemTotal:".

Definition getAvailableMemory (host : MemInfo) : Z :=
  let available := readMemInfo host "MemAvailable:" in
  if 0 <? available then available
  else
    let free := readMemInfo host "MemFree:" in
    let buffers := readMemInfo host "Buffers:" in
    let cached := readMemInfo host "Cached:" in
    size_add (size_add free buffers) cached.

Definition getMemoryPressure (host : MemInfo) : MemoryPressure :=
  let available := getAvailableMemory host in
  if available <? MEMORY_CRITICAL_THRESHOLD then Critical
  else if available <? MEMORY_HIGH_THRESHOLD then High
  else if available <? MEMORY_MEDIUM_THRESHOLD then Medium
  else Low.

(** The two tests of [canAllocate], as the code evaluates them. *)
Definition primary_check (available bytes : Z) : bool :=
  negb (available <? size_add bytes ALLOCATION_SAFETY_MARGIN).

Definition secondary_check (available bytes : Z) : bool :=
  negb (size_sub available bytes <? MIN_FREE_AFTER_ALLOC).

Definition canAllocate (host : MemInfo) (bytes : Z) : bool :=
  let available := getAvailableMemory host in
  let needed := size_add bytes ALLOCATION_SAFETY_MARGIN in
  if available <? needed then false
  else if size_sub available bytes <? MIN_FREE_AFTER_ALLOC then false
  else true.

(** [while (result < max_tokens && result < 32768) result *= 2;]
    [None] when the iteration bound is used up before the loop exits. *)
Fixpoint round_up_loop (bound : nat) (result max_tokens : Z) : option Z :=
  if (result <? max_tokens) && (result <? 32768) then
    match bound with
    | O => None
    | S bound' => round_up_loop bound' (size_mul result 2) max_tokens
    end
  else Some result.

Definition getRecommendedContextSize (host : MemInfo) : option Z :=
  let available := getAvailableMemory host in
  let usable :=
    if available >? ALLOCATION_SAFETY_MARGIN
    then size_sub available ALLOCATION_SAFETY_MARGIN else 0 in
  let max_tokens := usable / BYTES_PER_TOKEN in
  let max_tokens := Z.max max_tokens 512 in
  let max_tokens := Z.min max_tokens 32768 in
  match round_up_loop 64 512 max_tokens with
  | Some result =>
      Some (if result >? max_tokens then result / 2 else result)
  | None => None
  end.

(** The recommendation in the words of the design document. *)
Definition spec_recommendedWindowCapacity (available : Z) : Z :=
  let usable := Z.max 0 (available - ALLOCATION_SAFETY_MARGIN) in
  let tokens := usable / BYTES_PER_TOKEN in
  let clamped := Z.min (Z.max tokens 512) 32768 in
  2 ^ Z.log2 clamped.

(** The clamped token count of the design document, before rounding. *)
Definition spec_clamped (available : Z) : Z :=
  Z.min (Z.max (Z.max 0 (available - ALLOCATION_SAFETY_MARGIN)
                / BYTES_PER_TOKEN) 512) 32768.

(** What a call does to the outside: it evaluates the pressure level
    (a read of /proc/meminfo) and it may invoke the registered
    callback. *)
Inductive Event : Type :=
| EvPressureEvaluated
| EvCallback (callback : nat) (level : MemoryPressure).

(** The object's fields; a [std::function] is an identifier of the
    callable it holds, [None] when empty. *)
Record State : Type := mkState {
  model_memory_ : Z;
  context_memory_ : Z;
  pressure_callback_ : option nat
}.

Definition initial : State := mkState 0 0 None.

Definition setMemoryPressureCallback (callback : option nat) (st : State)
  : State :=
  mkState (model_memory_ st) (context_memory_ st) callback.

Definition checkMemoryPressure (host : MemInfo) (st : State) : list Event :=
  let pressure := getMemoryPressure host in
  EvPressureEvaluated ::
  match pressure_callback_ st with
  | Some callback =>
      if negb (MemoryPressure_eqb pressure Low)
      then [EvCallback callback pressure] else []
  | None => []
  end.

Definition registerModelMemory (host : MemInfo) (bytes : Z) (st : State)
  : State * list Event :=
  let st' := mkState (size_add (model_memory_ st) bytes)
                     (context_memory_ st) (pressure_callback_ st) in
  (st', checkMemoryPressure host st').

Definition unregisterModelMemory (bytes : Z) (st : State)
  : State * list Event :=
  let st' :=
    if bytes >? model_memory_ st
    then mkState 0 (context_memory_ st) (pressure_callback_ st)
    else mkState (size_sub (model_memory_ st) bytes)
                 (context_memory_ st) (pressure_callback_ st) in
  (st', []).

Definition registerContextMemory (host : MemInfo) (bytes : Z) (st : State)
  : State * list Event :=
  let st' := mkState (model_memory_ st)
                     (size_add (context_memory_ st) bytes)
                     (pressure_callback_ st) in
  (st', checkMemoryPressure host st').

Definition unregisterContextMemory (bytes : Z) (st : State)
  : State * list Event :=
  let st' :=
    if bytes >? context_memory_ st
    then mkState (model_memory_ st) 0 (pressure_callback_ st)
    else mkState (model_memory_ st)
                 (size_sub (context_memory_ st) bytes)
                 (pressure_callback_ st) in
  (st', []).

(** A host that reports [kb] kilobytes of MemAvailable. *)
Definition host_available_kb (kb : Z) : MemInfo :=
  fun field => if String.eqb field "MemAvailable:" then Some kb else None.

Definition callback_events (evs : list Event) : list Event :=
  filter (fun e => match e with EvCallback _ _ => true | _ => false end) evs.

End MemoryManager.

(* ================================================================== *)
(** ** inference_engine.cpp: data *)

Module InferenceEngine.
Import Machine.

Definition llama_token : Type := Z.

(** [InferenceConfig]; the float sampling fields (temperature, top_p,
    repeat_penalty) are only handed to the sampler and are left out. *)
Record InferenceConfig : Type := mkConfig {
  context_length : Z;
  batch_size : Z;
  max_tokens : Z;
  threads : Z;
  use_mmap : bool;
  use_mlock : bool;
  top_k : Z;
  repeat_last_n : Z;
  gpu_layers : Z
}.

Definition default_config : InferenceConfig :=
  mkConfig 4096 512 2048 4 true false 40 64 0.

(** [GenerationStats] without its timing fields. *)
Record GenerationStats : Type := mkStats {
  total_tokens : Z;
  prompt_tokens : Z;
  generated_tokens : Z
}.

(** One slot of a [llama_batch] built by [evaluateTokens]; the
    sequence id is always 0. *)
Record BatchEntry : Type := mkEntry {
  entry_token : llama_token;
  entry_pos : Z;
  entry_logits : bool
}.

Inductive llama_batch : Type :=
| batch_get_one (token : llama_token)
| batch_init (entries : list BatchEntry).

(** The llama.cpp calls the engine makes.  [context] stands for the
    [llama_context] together with the sampler chain. *)
Record Backend : Type := mkBackend {
  context : Type;
  (* text, n_tokens_max |-> return value, tokens written to the buffer *)
  llama_tokenize : string -> Z -> Z * list llama_token;
  llama_vocab_is_eog : llama_token -> bool;
  (* token |-> return value, bytes written to the buffer *)
  llama_token_to_piece : llama_token -> Z * string;
  llama_decode : context -> llama_batch -> Z * context;
  llama_sampler_sample : context -> llama_token;
  llama_sampler_accept : context -> llama_token -> context;
  (* whether llama_get_memory returns a non-null handle *)
  llama_get_memory : context -> bool;
  llama_memory_clear : context -> context;
  (* seq_id, p0, p1 |-> success, new state *)
  llama_memory_seq_rm : context -> Z -> Z -> Z -> bool * context;
  (* seq_id, p0, p1, delta *)
  llama_memory_seq_add : context -> Z -> Z -> Z -> Z -> context;
  (* freeSampler followed by the construction of a new chain *)
  sampler_chain_init : InferenceConfig -> context -> context
}.

(** Ways a call can fail to return. *)
Inductive Fault : Type :=
| SelfDeadlock   (* lock_guard on mutex_ while this thread holds it *)
| NullContext    (* ctx_ dereferenced while no model is loaded *)
| LengthError    (* std::length_error from vector::resize / reserve *)
| OutOfFuel.     (* the loop bound of the model is used up *)

Inductive Outcome (A : Type) : Type :=
| Returns (a : A)
| Stuck (f : Fault).
Arguments Returns {A} a.
Arguments Stuck {A} f.

Definition bind {A C : Type} (m : Outcome A) (k : A -> Outcome C)
  : Outcome C :=
  match m with
  | Returns a => k a
  | Stuck f => Stuck f
  end.

Notation "x <- m ;; k" := (bind m (fun x => k))
  (at level 61, m at next level, right associativity).
Notation "' p <- m ;; k" := (bind m (fun p => k))
  (at level 61, p pattern, m at next level, right associativity).

(** [v.resize(n)] for a request [n] computed as an [int]: a negative
    value converts to a [size_t] beyond [max_size()]. *)
Definition vector_resize (n : Z) (v : list llama_token)
  : Outcome (list llama_token) :=
  if n <? 0 then Stuck LengthError
  else
    let k := Z.to_nat n in
    Returns (firstn k v ++ repeat 0 (k - List.length v)).

(** What the buffer holds after the backend wrote [out] from its start. *)
Definition write_buffer (out buf : list llama_token) : list llama_token :=
  firstn (List.length buf) out ++ skipn (List.length out) buf.

(** [tokens_.erase(tokens_.begin(), tokens_.end() - keep)] *)
Definition erase_front (keep : Z) (v : list llama_token)
  : list llama_token :=
  skipn (Z.to_nat (Z.of_nat (List.length v) - keep)) v.

Definition size (v : list llama_token) : Z := Z.of_nat (List.length v).

Definition empty (s : string) : bool :=
  match s with EmptyString => true | _ => false end.

Section Engine.
Variable B : Backend.
(** Bound on the iterations of the batch loop of [evaluateTokens]
    that the model follows. *)
Variable fuel : nat.

Record Engine : Type := mkEngine {
  loaded : bool;            (* model_ != nullptr && ctx_ != nullptr *)
  ctx_ : context B;
  is_generating_ : bool;
  stop_requested_ : bool;
  mutex_ : bool;            (* mutex_ is held *)
  tokens_ : list llama_token;
  current_pos_ : Z;
  n_past_ : Z;
  stats_ : GenerationStats;
  current_config_ : InferenceConfig
}.

Definition set_ctx (c : context B) (e : Engine) : Engine :=
  mkEngine (loaded e) c (is_generating_ e) (stop_requested_ e)
    (mutex_ e) (tokens_ e) (current_pos_ e) (n_past_ e) (stats_ e)
    (current_config_ e).
Definition set_is_generating (b : bool) (e : Engine) : Engine :=
  mkEngine (loaded e) (ctx_ e) b (stop_requested_ e)
    (mutex_ e) (tokens_ e) (current_pos_ e) (n_past_ e) (stats_ e)
    (current_config_ e).
Definition set_stop_requested (b : bool) (e : Engine) : Engine :=
  mkEngine (loaded e) (ctx_ e) (is_generating_ e) b
    (mutex_ e) (tokens_ e) (current_pos_ e) (n_past_ e) (stats_ e)
    (current_config_ e).
Definition set_mutex (b : bool) (e : Engine) : Engine :=
  mkEngine (loaded e) (ctx_ e) (is_generating_ e) (stop_requested_ e)
    b (tokens_ e) (current_pos_ e) (n_past_ e) (stats_ e)
    (current_config_ e).
Definition set_tokens (v : list llama_token) (e : Engine) : Engine :=
  mkEngine (loaded e) (ctx_ e) (is_generating_ e) (stop_requested_ e)
    (mutex_ e) v (current_pos_ e) (n_past_ e) (stats_ e)
    (current_config_ e).
Definition set_current_pos (z : Z) (e : Engine) : Engine :=
  mkEngine (loaded e) (ctx_ e) (is_generating_ e) (stop_requested_ e)
    (mutex_ e) (tokens_ e) z (n_past_ e) (stats_ e)
    (current_config_ e).
Definition set_n_past (z : Z) (e : Engine) : Engine :=
  mkEngine (loaded e) (ctx_ e) (is_generating_ e) (stop_requested_ e)
    (mutex_ e) (tokens_ e) (current_pos_ e) z (stats_ e)
    (current_config_ e).
Definition set_stats (st : GenerationStats) (e : Engine) : Engine :=
  mkEngine (loaded e) (ctx_ e) (is_generating_ e) (stop_requested_ e)
    (mutex_ e) (tokens_ e) (current_pos_ e) (n_past_ e) st
    (current_config_ e).
Definition set_config (c : InferenceConfig) (e : Engine) : Engine :=
  mkEngine (loaded e) (ctx_ e) (is_generating_ e) (stop_requested_ e)
    (mutex_ e) (tokens_ e) (current_pos_ e) (n_past_ e) (stats_ e) c.

(** The engine after a successful [loadModel]. *)
Definition engine_after_load (c : context B) (config : InferenceConfig)
  : Engine :=
  mkEngine true (sampler_chain_init B config c) false false false
    [] 0 0 (mkStats 0 0 0) config.

(** [std::lock_guard<std::mutex> lock(mutex_)] around the rest of a
    function body; the guard releases the mutex on every return. *)
Definition lock_guard {A : Type} (e : Engine)
           (body : Engine -> Outcome (A * Engine))
  : Outcome (A * Engine) :=
  if mutex_ e then Stuck SelfDeadlock
  else
    '(a, e') <- body (set_mutex true e) ;;
    Returns (a, set_mutex false e').

Definition isModelLoaded (e : Engine) : bool := loaded e.
Definition isGenerating (e : Engine) : bool := is_generating_ e.
Definition getCachedTokenCount (e : Engine) : Z := n_past_ e.

Definition stopGeneration (e : Engine) : Engine :=
  set_is_generating false (set_stop_requested true e).

Definition initSampler (config : InferenceConfig) (e : Engine) : Engine :=
  set_ctx (sampler_chain_init B config (ctx_ e)) e.

(** Returns the success flag, the vector, and the buffer sizes of the
    calls made to [llama_tokenize], oldest first. *)
Definition tokenizePrompt (prompt : string) (tokens : list llama_token)
  : Outcome (bool * list llama_token * list Z) :=
  let max_tokens := wrap_int (Z.of_nat (String.length prompt) + 32) in
  tokens <- vector_resize max_tokens tokens ;;
  let '(n_tokens, out) := llama_tokenize B prompt max_tokens in
  let tokens := write_buffer out tokens in
  '(n_tokens, tokens, calls) <-
    (if n_tokens <? 0 then
       tokens <- vector_resize (- n_tokens) tokens ;;
       let '(n_tokens', out') := llama_tokenize B prompt (- n_tokens) in
       Returns (n_tokens', write_buffer out' tokens,
                [max_tokens; - n_tokens])
     else Returns (n_tokens, tokens, [max_tokens])) ;;
  if n_tokens <? 0 then Returns (false, tokens, calls)
  else
    tokens <- vector_resize n_tokens tokens ;;
    Returns (true, tokens, calls).

(** The inner loop of [evaluateTokens]: slots [0 .. n_eval). *)
Definition fill_batch (tokens : list llama_token)
           (n_past n_tokens i n_eval : Z) : list BatchEntry :=
  map (fun j : nat =>
         let j := Z.of_nat j in
         mkEntry (nth (Z.to_nat (i + j)) tokens 0)
                 (n_past + i + j)
                 (i + j =? n_tokens - 1))
      (seq 0 (Z.to_nat n_eval)).

(** [for (int i = 0; i < n_tokens; i += batch_size)] *)
Fixpoint evaluate_batches (bound : nat) (c : context B)
         (tokens : list llama_token) (bsz n_past n_tokens i : Z)
  : Outcome (bool * context B) :=
  if i <? n_tokens then
    match bound with
    | O => Stuck OutOfFuel
    | S bound' =>
        let n_eval := Z.min bsz (n_tokens - i) in
        let batch := batch_init (fill_batch tokens n_past n_tokens i n_eval) in
        let '(rc, c') := llama_decode B c batch in
        if negb (rc =? 0) then Returns (false, c')
        else evaluate_batches bound' c' tokens bsz n_past n_tokens (i + bsz)
    end
  else Returns (true, c).

Definition evaluateTokens (e : Engine) (tokens : list llama_token)
           (n_past n_tokens : Z) : Outcome (bool * Engine) :=
  if n_tokens =? 1 then
    let token := nth 0 tokens 0 in
    let '(rc, c') := llama_decode B (ctx_ e) (batch_get_one token) in
    if negb (rc =? 0) then Returns (false, set_ctx c' e)
    else Returns (true, set_ctx c' e)
  else
    '(ok, c') <- evaluate_batches fuel (ctx_ e) tokens
                   (batch_size (current_config_ e)) n_past n_tokens 0 ;;
    Returns (ok, set_ctx c' e).

Definition sampleNextToken (e : Engine) : llama_token * Engine :=
  let new_token := llama_sampler_sample B (ctx_ e) in
  (new_token, set_ctx (llama_sampler_accept B (ctx_ e) new_token) e).

Definition tokenToString (token : llama_token) : string :=
  let '(n, buf) := llama_token_to_piece B token in
  if n <? 0 then EmptyString
  else String.substring 0 (Z.to_nat n) buf.

(** [llama_get_memory(ctx_)] followed by [llama_memory_clear]. *)
Definition clear_memory (e : Engine) : Engine :=
  if llama_get_memory B (ctx_ e)
  then set_ctx (llama_memory_clear B (ctx_ e)) e
  else e.

Definition shiftContext (e : Engine) (keep_tokens : Z) : Outcome Engine :=
  if n_past_ e <=? keep_tokens then Returns e
  else
    '(_, e') <- lock_guard e (fun e =>
      let shift_amount := n_past_ e - keep_tokens in
      if negb (loaded e) then Stuck NullContext
      else
        let e :=
          if llama_get_memory B (ctx_ e) then
            let '(_, c1) :=
              llama_memory_seq_rm B (ctx_ e) 0 0 shift_amount in
            set_ctx (llama_memory_seq_add B c1 0 shift_amount
                       (n_past_ e) (- shift_amount)) e
          else e in
        let e := set_n_past keep_tokens e in
        let e :=
          if size (tokens_ e) >? wrap_size keep_tokens
          then set_tokens (erase_front keep_tokens (tokens_ e)) e
          else e in
        Returns (tt, set_current_pos (wrap_int (size (tokens_ e))) e)) ;;
    Returns e'.

Definition startInference (e : Engine) (prompt : string)
           (config : InferenceConfig) : Outcome (bool * Engine) :=
  if negb (isModelLoaded e) then Returns (false, e)
  else
    let e :=
      if is_generating_ e
      then set_is_generating false (set_stop_requested true e)
      else e in
    lock_guard e (fun e =>
      let e := set_stop_requested false e in
      let e := set_tokens [] e in
      let e := set_current_pos 0 e in
      let e := set_n_past 0 e in
      let e := set_config config e in
      let e := initSampler config e in
      '(ok, tokens, _) <- tokenizePrompt prompt (tokens_ e) ;;
      let e := set_tokens tokens e in
      if negb ok then Returns (false, e)
      else
        let e := clear_memory e in
        let e := set_stats (mkStats (total_tokens (stats_ e))
                                    (size (tokens_ e)) 0) e in
        '(ok, e) <- evaluateTokens e (tokens_ e) 0
                      (wrap_int (size (tokens_ e))) ;;
        if negb ok then Returns (false, e)
        else
          let e := set_n_past (wrap_int (size (tokens_ e))) e in
          let e := set_current_pos (wrap_int (size (tokens_ e))) e in
          let e := set_is_generating true e in
          Returns (true, e)).

Definition startInferenceIncremental (e : Engine) (prompt : string)
           (config : InferenceConfig) : Outcome (bool * Engine) :=
  if negb (isModelLoaded e) then Returns (false, e)
  else
    let e :=
      if is_generating_ e
      then set_is_generating false (set_stop_requested true e)
      else e in
    lock_guard e (fun e =>
      let e := set_stop_requested false e in
      let e := set_config config e in
      let e := initSampler config e in
      '(ok, new_tokens, _) <- tokenizePrompt prompt [] ;;
      if negb ok then Returns (false, e)
      else
        let available_space :=
          context_length (current_config_ e) - n_past_ e - 32 in
        e <- (if wrap_int (size new_tokens) >? available_space
              then shiftContext e 64 else Returns e) ;;
        let e := set_stats (mkStats (total_tokens (stats_ e))
                                    (size new_tokens) 0) e in
        '(ok, e) <- evaluateTokens e new_tokens (n_past_ e)
                      (wrap_int (size new_tokens)) ;;
        if negb ok then Returns (false, e)
        else
          let e := set_tokens (tokens_ e ++ new_tokens) e in
          let e := set_n_past
                     (int_add_size (n_past_ e) (size new_tokens)) e in
          let e := set_current_pos (wrap_int (size (tokens_ e))) e in
          let e := set_is_generating true e in
          Returns (true, e)).

Definition clearCache (e : Engine) : Outcome Engine :=
  '(_, e') <- lock_guard e (fun e =>
    if negb (loaded e) then Stuck NullContext
    else
      let e := clear_memory e in
      let e := set_tokens [] e in
      let e := set_n_past 0 e in
      Returns (tt, set_current_pos 0 e)) ;;
  Returns e'.

Definition getNextToken (e : Engine) : Outcome (string * Engine) :=
  if negb (is_generating_ e) || stop_requested_ e
  then Returns (EmptyString, set_is_generating false e)
  else
    lock_guard e (fun e =>
      if n_past_ e >=? context_length (current_config_ e) - 1
      then Returns (EmptyString, set_is_generating false e)
      else if generated_tokens (stats_ e)
              >=? max_tokens (current_config_ e)
      then Returns (EmptyString, set_is_generating false e)
      else if negb (loaded e) then Stuck NullContext
      else
        let '(new_token, e) := sampleNextToken e in
        if llama_vocab_is_eog B new_token
        then Returns (EmptyString, set_is_generating false e)
        else
          let token_text := tokenToString new_token in
          let e := set_tokens (tokens_ e ++ [new_token]) e in
          let single_token := [new_token] in
          '(ok, e) <- evaluateTokens e single_token (n_past_ e) 1 ;;
          if negb ok
          then Returns (EmptyString, set_is_generating false e)
          else
            let e := set_n_past (n_past_ e + 1) e in
            let e := set_stats
                       (mkStats (total_tokens (stats_ e))
                                (prompt_tokens (stats_ e))
                                (generated_tokens (stats_ e) + 1)) e in
            let e := set_current_pos (current_pos_ e + 1) e in
            Returns (token_text, e)).

(** [for (int i = 0; i < count && is_generating_ && !stop_requested_; i++)],
    on the iterations that remain. *)
Fixpoint getNextTokens_loop (remaining : nat) (e : Engine)
         (result : list string) : Outcome (list string * Engine) :=
  match remaining with
  | O => Returns (result, e)
  | S remaining' =>
      if is_generating_ e && negb (stop_requested_ e) then
        e <- (if n_past_ e >=? context_length (current_config_ e) - 16
              then shiftContext e 64 else Returns e) ;;
        '(token, e) <- getNextToken e ;;
        if empty token && negb (is_generating_ e)
        then Returns (result, e)
        else getNextTokens_loop remaining' e (result ++ [token])
      else Returns (result, e)
  end.

Definition getNextTokens (e : Engine) (count : Z)
  : Outcome (list string * Engine) :=
  if count <? 0 then Stuck LengthError      (* result.reserve(count) *)
  else getNextTokens_loop (Z.to_nat count) e [].

(** The public operations on the context window. *)
Inductive Call : Type :=
| CallStartInference (prompt : string) (config : InferenceConfig)
| CallStartInferenceIncremental (prompt : string) (config : InferenceConfig)
| CallGetNextToken
| CallGetNextTokens (count : Z)
| CallShiftContext (keep_tokens : Z)
| CallClearCache.

Definition run (c : Call) (e : Engine) : Outcome Engine :=
  match c with
  | CallStartInference prompt config =>
      '(_, e') <- startInference e prompt config ;; Returns e'
  | CallStartInferenceIncremental prompt config =>
      '(_, e') <- startInferenceIncremental e prompt config ;; Returns e'
  | CallGetNextToken =>
      '(_, e') <- getNextToken e ;; Returns e'
  | CallGetNextTokens count =>
      '(_, e') <- getNextTokens e count ;; Returns e'
  | CallShiftContext keep_tokens => shiftContext e keep_tokens
  | CallClearCache => clearCache e
  end.

(** The invariant of the design document:
    committed <= len(history) <= window capacity. *)
Definition window_invariant (e : Engine) : Prop :=
  n_past_ e <= size (tokens_ e) /\
  size (tokens_ e) <= context_length (current_config_ e).

(** Its first half, with the [int] lower bound of [n_past_]. *)
Definition committed_within_history (e : Engine) : Prop :=
  INT_MIN <= n_past_ e /\ n_past_ e <= size (tokens_ e).


(** The arguments of a call are [int] values. *)
Definition int_argument (c : Call) : Prop :=
  match c with
  | CallShiftContext keep_tokens => INT_MIN <= keep_tokens <= INT_MAX
  | CallGetNextTokens count => INT_MIN <= count <= INT_MAX
  | _ => True
  end.

(** A session in its generating phase under [config], with [n]
    tokens committed and [g] tokens generated so far. *)
Definition generating_at (config : InferenceConfig) (n g : Z)
           (e : Engine) : Prop :=
  loaded e = true /\
  mutex_ e = false /\
  is_generating_ e = true /\
  stop_requested_ e = false /\
  current_config_ e = config /\
  n_past_ e = n /\
  size (tokens_ e) = n /\
  generated_tokens (stats_ e) = g.

End Engine.

Arguments loaded {B} e.
Arguments ctx_ {B} e.
Arguments is_generating_ {B} e.
Arguments stop_requested_ {B} e.
Arguments mutex_ {B} e.
Arguments tokens_ {B} e.
Arguments current_pos_ {B} e.
Arguments n_past_ {B} e.
Arguments stats_ {B} e.
Arguments current_config_ {B} e.

End InferenceEngine.

(* ================================================================== *)
(** ** Small backends to run the engine on *)

Module Fixtures.
Import Machine InferenceEngine.

Definition codes (text : string) : list llama_token :=
  map (fun a => Z.of_nat (nat_of_ascii a)) (list_ascii_of_string text).

(** Reports the buffer size it needs, negated, when the buffer is too
    small, as llama_tokenize does. *)
Definition tokenize_with (toks : list llama_token) (n_tokens_max : Z)
  : Z * list llama_token :=
  if size toks <=? n_tokens_max then (size toks, toks)
  else (- size toks, []).

(** A leading marker token, then one token per byte. *)
Definition byte_tokenizer (text : string) (n_tokens_max : Z) :=
  tokenize_with (1 :: codes text) n_tokens_max.

(** A leading marker token, then forty tokens per byte: the first
    buffer of [length + 32] slots is too small for any non-empty text. *)
Definition wide_tokenizer (text : string) (n_tokens_max : Z) :=
  tokenize_with (1 :: flat_map (fun t => repeat t 40) (codes text))
                n_tokens_max.

(** Never satisfied with the buffer it is given. *)
Definition greedy_tokenizer (text : string) (n_tokens_max : Z)
  : Z * list llama_token :=
  (- (n_tokens_max + 1), []).

Definition batch_length (b : llama_batch) : Z :=
  match b with
  | batch_get_one _ => 1
  | batch_init entries => Z.of_nat (List.length entries)
  end.

(** The context is the number of cells the memory holds.  [decode_ok]
    and [rm_ok] choose whether llama_decode accepts a batch and whether
    llama_memory_seq_rm agrees to remove a range. *)
Definition toy (tokenizer : string -> Z -> Z * list llama_token)
           (decode_ok rm_ok : bool) : Backend :=
  mkBackend Z
    tokenizer
    (fun t => t =? 2)
    (fun t => (1, String (ascii_of_nat (Z.to_nat t)) EmptyString))
    (fun c b => if decode_ok then (0, c + batch_length b) else (1, c))
    (fun c => 97 + c mod 26)
    (fun c _ => c)
    (fun _ => true)
    (fun _ => 0)
    (fun c _ p0 p1 => if rm_ok then (true, c - (p1 - p0)) else (false, c))
    (fun c _ _ _ _ => c)
    (fun _ c => c).

Definition plain : Backend := toy byte_tokenizer true true.

(** An engine in the middle of a conversation over [plain]: three
    tokens in history, all three committed. *)
Definition three_committed : Engine plain :=
  mkEngine plain true 3 false false false [5; 6; 7] 3 3
    (mkStats 0 3 0) default_config.

Definition three_committed_on (B : Backend) (c : context B) : Engine B :=
  mkEngine B true c false false false [5; 6; 7] 3 3
    (mkStats 0 3 0) default_config.

Definition small_window : InferenceConfig :=
  mkConfig 8 512 2048 4 true false 40 64 0.

Definition scenario_A_config : InferenceConfig :=
  mkConfig 2048 512 5 4 true false 40 64 0.

End Fixtures.


(* ================================================================== *)
(** ** inference_engine.cpp: model life cycle and callback-driven
       generation *)

Module Lifecycle.
Import Machine InferenceEngine.

(** Arithmetic in [uint32_t]. *)
Definition wrap_u32 (z : Z) : Z := z mod 2 ^ 32.

Section Lifecycle.
Variable B : Backend.
Variable fuel : nat.

(** The llama.cpp calls that create and describe a model.  A model is
    identified by the path it was loaded from. *)
Record Loader : Type := mkLoader {
  (* path, model parameters |-> whether a model is returned *)
  llama_model_load_from_file : string -> InferenceConfig -> bool;
  (* the context created for the model, None for nullptr *)
  llama_init_from_model : string -> InferenceConfig -> option (context B);
  llama_model_size : string -> Z;
  llama_model_n_embd : string -> Z;
  llama_n_ctx : context B -> Z
}.

Definition set_loaded (b : bool) (e : Engine B) : Engine B :=
  mkEngine B b (ctx_ e) (is_generating_ e) (stop_requested_ e)
    (mutex_ e) (tokens_ e) (current_pos_ e) (n_past_ e) (stats_ e)
    (current_config_ e).

(** The engine object: the fields of [Engine] and [model_path_]. *)
Record Instance : Type := mkInstance {
  core : Engine B;
  model_path_ : string
}.

(** [InferenceEngine()]: no model, no context (the value kept for
    [ctx_] is never read while [loaded] is false). *)
Definition InferenceEngine_new (null_context : context B) : Instance :=
  mkInstance
    (mkEngine B false null_context false false false [] 0 0
       (mkStats 0 0 0) default_config)
    EmptyString.

(** [while (is_generating_) sleep_for(10ms);] as seen by the calling
    thread alone: nothing it does inside the loop changes the flag. *)
Fixpoint wait_while_generating (bound : nat) (e : Engine B)
  : Outcome (Engine B) :=
  if is_generating_ e then
    match bound with
    | O => Stuck OutOfFuel
    | S bound' => wait_while_generating bound' e
    end
  else Returns e.

Definition unloadModel (e : Engine B) : Outcome (Engine B) :=
  let e := set_stop_requested B true e in
  e <- wait_while_generating fuel e ;;
  '(_, e') <- lock_guard B e (fun e =>
    (* freeSampler, llama_free, llama_model_free *)
    let e := set_loaded false e in
    let e := set_tokens B [] e in
    let e := set_current_pos B 0 e in
    let e := set_n_past B 0 e in
    Returns (tt, set_stop_requested B false e)) ;;
  Returns e'.

Definition loadModel (L : Loader) (x : Instance) (model_path : string)
           (config : InferenceConfig) : Outcome (bool * Instance) :=
  '(r, e') <- lock_guard B (core x) (fun e =>
    e <- (if loaded e then unloadModel e else Returns e) ;;
    if negb (llama_model_load_from_file L model_path config)
    then Returns ((false, model_path_ x), e)
    else
      match llama_init_from_model L model_path config with
      | None => Returns ((false, model_path_ x), e)
      | Some c =>
          let e := set_loaded true (set_ctx B c e) in
          let e := initSampler B config e in
          let e := set_config B config e in
          Returns ((true, model_path), e)
      end) ;;
  Returns (fst r, mkInstance e' (snd r)).

Definition getModelMemoryUsage (L : Loader) (x : Instance) : Z :=
  if negb (loaded (core x)) then 0
  else wrap_size (llama_model_size L (model_path_ x)).

(** [llama_n_ctx(ctx_) * llama_model_n_embd(model_) * sizeof(float) * 2]:
    the first product is formed in [uint32_t]. *)
Definition getContextMemoryUsage (L : Loader) (x : Instance) : Z :=
  if negb (loaded (core x)) then 0
  else
    size_mul
      (size_mul
         (wrap_u32 (wrap_u32 (llama_n_ctx L (ctx_ (core x)))
                    * wrap_u32 (llama_model_n_embd L (model_path_ x))))
         4)
      2.

Definition resetStats (e : Engine B) : Engine B :=
  set_stats B (mkStats 0 0 0) e.

(** A [TokenCallback]: what it answers may depend on everything it was
    called with before, so it is a decision on the calls made so far.
    The calls are kept as (token, is_final), oldest first. *)
Definition TokenCallback : Type :=
  list (string * bool) -> string -> bool -> bool.

(** [while (is_generating_ && !stop_requested_)] of
    [generateWithCallback]; [calls] are the invocations so far. *)
Fixpoint generate_loop (bound : nat) (callback : option TokenCallback)
         (e : Engine B) (calls : list (string * bool))
  : Outcome (Engine B * list (string * bool)) :=
  if is_generating_ e && negb (stop_requested_ e) then
    match bound with
    | O => Stuck OutOfFuel
    | S bound' =>
        '(token, e) <- getNextToken B fuel e ;;
        if empty token && negb (is_generating_ e) then
          match callback with
          | Some _ => Returns (e, calls ++ [(EmptyString, true)])
          | None => Returns (e, calls)
          end
        else
          match callback with
          | Some cb =>
              let should_continue := cb calls token false in
              let calls := calls ++ [(token, false)] in
              if negb should_continue
              then Returns (stopGeneration B e, calls)
              else generate_loop bound' callback e calls
          | None => generate_loop bound' callback e calls
          end
    end
  else Returns (e, calls).

Definition generateWithCallback (e : Engine B) (prompt : string)
           (config : InferenceConfig) (callback : option TokenCallback)
  : Outcome (bool * Engine B * list (string * bool)) :=
  '(ok, e) <- startInference B fuel e prompt config ;;
  if negb ok then Returns (false, e, [])
  else
    '(e, calls) <- generate_loop fuel callback e [] ;;
    let e := set_is_generating B false e in
    let e := set_stats B
               (mkStats (prompt_tokens (stats_ e)
                         + generated_tokens (stats_ e))
                        (prompt_tokens (stats_ e))
                        (generated_tokens (stats_ e))) e in
    Returns (true, e, calls).

(** The non-final invocations among [calls]. *)
Definition token_calls (calls : list (string * bool))
  : list (string * bool) :=
  filter (fun c => negb (snd c)) calls.

(** The state a start operation leaves on success, field by field,
    relative to the engine [e] it was called on. *)
Definition started (e e' : Engine B) (config : InferenceConfig)
           (history : list llama_token) (committed : Z) (prompt_size : Z)
  : Prop :=
  loaded e' = true /\
  mutex_ e' = false /\
  is_generating_ e' = true /\
  stop_requested_ e' = false /\
  tokens_ e' = history /\
  n_past_ e' = committed /\
  current_pos_ e' = wrap_int (size history) /\
  stats_ e' = mkStats (total_tokens (stats_ e)) prompt_size 0 /\
  current_config_ e' = config.

End Lifecycle.

Arguments core {B} i.
Arguments model_path_ {B} i.

End Lifecycle.

(* ================================================================== *)
(** ** platform_channel.cpp: model loading behind the memory gate *)

Module PlatformChannel.
Import Machine InferenceEngine Lifecycle.

Section Platform.
Variable B : Backend.
Variable fuel : nat.
Variable L : Loader B.
(** The value [ctx_] holds in a new engine object. *)
Variable null_context : context B.

(** [g_engine] and the [MemoryManager] singleton. *)
Record Platform : Type := mkPlatform {
  g_engine : option (Instance B);
  memMgr : MemoryManager.State
}.

Definition getEngine (p : Platform) : Instance B * Platform :=
  match g_engine p with
  | Some x => (x, p)
  | None =>
      let x := InferenceEngine_new B null_context in
      (x, mkPlatform (Some x) (memMgr p))
  end.

(** [hardware_threads] is [std::thread::hardware_concurrency()]. *)
Definition createMobileConfig (hardware_threads : Z) : InferenceConfig :=
  mkConfig 256 32 256 (Z.max 2 (hardware_threads - 1)) true false 40 64 0.

Definition estimated_mem : Z := 600 * 1024 * 1024.

(** [host] is /proc/meminfo when the gate reads it, [host1] and [host2]
    when the two registrations evaluate the pressure. *)
Definition loadModel (host host1 host2 : MemoryManager.MemInfo)
           (hardware_threads : Z) (p : Platform) (modelPath : string)
  : Outcome (bool * Platform * list MemoryManager.Event) :=
  let '(engine, p) := getEngine p in
  let config := createMobileConfig hardware_threads in
  if negb (MemoryManager.canAllocate host estimated_mem)
  then Returns (false, p, [])
  else
    '(success, engine) <- Lifecycle.loadModel B fuel L engine modelPath config ;;
    if success then
      let '(m1, ev1) :=
        MemoryManager.registerModelMemory host1
          (getModelMemoryUsage B L engine) (memMgr p) in
      let '(m2, ev2) :=
        MemoryManager.registerContextMemory host2
          (getContextMemoryUsage B L engine) m1 in
      Returns (true, mkPlatform (Some engine) m2, ev1 ++ ev2)
    else Returns (false, mkPlatform (Some engine) (memMgr p), []).

Definition unloadModel (p : Platform) : Outcome Platform :=
  match g_engine p with
  | Some x =>
      let '(m1, _) :=
        MemoryManager.unregisterModelMemory
          (getModelMemoryUsage B L x) (memMgr p) in
      let '(m2, _) :=
        MemoryManager.unregisterContextMemory
          (getContextMemoryUsage B L x) m1 in
      e <- Lifecycle.unloadModel B fuel (core x) ;;
      Returns (mkPlatform (Some (mkInstance B e (model_path_ x))) m2)
  | None => Returns p
  end.

Definition isModelLoaded (p : Platform) : bool :=
  match g_engine p with
  | Some x => isModelLoaded B (core x)
  | None => false
  end.

End Platform.

Arguments g_engine {B} p.
Arguments memMgr {B} p.

End PlatformChannel.

(* ================================================================== *)
(** ** More engines and backends to run the code on *)

Module MoreFixtures.
Import Machine InferenceEngine Lifecycle Fixtures.

(** A conversation of seventy tokens over [plain], all committed, in a
    window of 256. *)
Definition seventy_committed : Engine plain :=
  mkEngine plain true 70 false false false (repeat 5 70) 70 70
    (mkStats 0 70 0)
    (mkConfig 256 32 256 4 true false 40 64 0).

(** A session over [B] in its generating phase. *)
Definition generating_on (B : Backend) (c : context B)
           (config : InferenceConfig) (tokens : list llama_token)
           (generated : Z) : Engine B :=
  mkEngine B true c true false false tokens (size tokens) (size tokens)
    (mkStats 0 (size tokens) generated) config.

(** A backend that keeps every batch it is asked to decode. *)
Definition recorder : Backend :=
  mkBackend (list llama_batch)
    byte_tokenizer
    (fun t => t =? 2)
    (fun t => (1, String (ascii_of_nat (Z.to_nat t)) EmptyString))
    (fun c b => (0, c ++ [b]))
    (fun _ => 97)
    (fun c _ => c)
    (fun _ => true)
    (fun _ => [])
    (fun c _ _ _ => (true, c))
    (fun c _ _ _ _ => c)
    (fun _ c => c).

Definition entries_of (b : llama_batch) : list BatchEntry :=
  match b with
  | batch_get_one _ => []
  | batch_init entries => entries
  end.

(** A loader whose answers are fixed by two flags. *)
Definition toy_loader (B : Backend) (c : context B)
           (model_ok context_ok : bool) : Loader B :=
  mkLoader B
    (fun _ _ => model_ok)
    (fun _ _ => if context_ok then Some c else None)
    (fun _ => 400 * 1024 * 1024)
    (fun _ => 2048)
    (fun _ => 256).

(** A callback that asks to stop at its third invocation. *)
Definition stop_at_third : TokenCallback :=
  fun calls _ _ => (List.length calls <? 2)%nat.

Definition keep_going : TokenCallback := fun _ _ _ => true.

End MoreFixtures.

(* ================================================================== *)
(** ** kv_cache.cpp *)

Module KVCache.
Import Machine.

(** [KVCacheConfig] without its float [defrag_threshold]. *)
Record KVCacheConfig : Type := mkKVConfig {
  n_ctx : Z;
  n_batch : Z;
  use_cache : bool
}.

(** [KVCacheStats] without its float [usage_ratio]. *)
Record KVCacheStats : Type := mkKVStats {
  total_cells : Z;
  used_cells : Z;
  max_seq_len : Z;
  memory_bytes : Z
}.

(** The object's fields; [ctx_] records whether the pointer is set. *)
Record KVCache : Type := mkCache {
  ctx_ : bool;
  config_ : KVCacheConfig;
  initialized_ : bool
}.

Definition KVCache_new : KVCache :=
  mkCache false (mkKVConfig 4096 512 true) false.

Section Cache.
Variable B : InferenceEngine.Backend.

(** The state of the [llama_context] a cache points to. *)
Definition llama_context : Type := InferenceEngine.context B.

(** The llama.cpp calls of this file that the engine does not use. *)
Record MemoryCalls : Type := mkMemoryCalls {
  (* seq_id_src, seq_id_dst, p0, p1 *)
  llama_memory_seq_cp :
    llama_context -> Z -> Z -> Z -> Z -> llama_context;
  llama_memory_seq_keep : llama_context -> Z -> llama_context;
  llama_memory_seq_pos_max : llama_context -> Z -> Z;
  llama_n_ctx : llama_context -> Z
}.

Variable M : MemoryCalls.

(** [!initialized_ || ctx_ == nullptr] *)
Definition unusable (k : KVCache) : bool :=
  negb (initialized_ k) || negb (ctx_ k).

(** [initialize(ctx, config)]; [ctx] says whether the argument is a
    non-null pointer. *)
Definition initialize (k : KVCache) (ctx : bool) (config : KVCacheConfig)
  : bool * KVCache :=
  if negb ctx then (false, k)
  else (true, mkCache true config true).

(** In the operations below [c] is the llama context the cache points
    to; the result carries the context after the call. *)
Definition clear (k : KVCache) (c : llama_context) : llama_context :=
  if unusable k then c
  else if InferenceEngine.llama_get_memory B c
       then InferenceEngine.llama_memory_clear B c
       else c.

Definition shutdown (k : KVCache) (c : llama_context)
  : KVCache * llama_context :=
  if initialized_ k
  then (mkCache false (config_ k) false, clear k c)
  else (k, c).

Definition removeTokens (k : KVCache) (c : llama_context)
           (start_pos end_pos : Z)
  : bool * llama_context :=
  if unusable k then (false, c)
  else if negb (InferenceEngine.llama_get_memory B c) then (false, c)
  else InferenceEngine.llama_memory_seq_rm B c (-1) start_pos end_pos.

Definition shiftTokens (k : KVCache) (c : llama_context)
           (start_pos delta : Z)
  : bool * llama_context :=
  if unusable k then (false, c)
  else if negb (InferenceEngine.llama_get_memory B c) then (false, c)
  else (true, InferenceEngine.llama_memory_seq_add B c (-1) start_pos (-1)
                delta).

Definition sequenceCopy (k : KVCache) (c : llama_context)
           (src_seq dst_seq start_pos end_pos : Z)
  : bool * llama_context :=
  if unusable k then (false, c)
  else if negb (InferenceEngine.llama_get_memory B c) then (false, c)
  else (true, llama_memory_seq_cp M c src_seq dst_seq start_pos end_pos).

Definition sequenceRemove (k : KVCache) (c : llama_context)
           (seq_id start_pos end_pos : Z) : bool * llama_context :=
  if unusable k then (false, c)
  else if negb (InferenceEngine.llama_get_memory B c) then (false, c)
  else InferenceEngine.llama_memory_seq_rm B c seq_id start_pos end_pos.

Definition sequenceKeep (k : KVCache) (c : llama_context) (seq_id : Z)
  : llama_context :=
  if unusable k then c
  else if negb (InferenceEngine.llama_get_memory B c) then c
  else llama_memory_seq_keep M c seq_id.

Definition getUsedCells (k : KVCache) (c : llama_context) : Z :=
  if unusable k then 0
  else if negb (InferenceEngine.llama_get_memory B c) then 0
  else
    let max_pos := llama_memory_seq_pos_max M c 0 in
    if max_pos >? 0 then wrap_size max_pos else 0.

Definition getTotalCells (k : KVCache) (c : llama_context) : Z :=
  if unusable k then 0
  else wrap_size (llama_n_ctx M c).

Definition getStats (k : KVCache) (c : llama_context) : KVCacheStats :=
  if unusable k then mkKVStats 0 0 0 0
  else
    let used := getUsedCells k c in
    mkKVStats (getTotalCells k c) used 0 (size_mul used 4096).

End Cache.

(** [estimateMemory]: every factor is converted to [size_t] and the
    product is formed from the left. *)
Definition estimateMemory (n_ctx n_embd n_layer n_head : Z) : Z :=
  let kv_size :=
    size_mul
      (size_mul
         (size_mul (size_mul 2 (wrap_size n_layer)) (wrap_size n_ctx))
         (wrap_size n_embd))
      4 in
  let overhead := kv_size / 10 in
  size_add kv_size overhead.

End KVCache.

(* ================================================================== *)
(** ** Facts about the machine integers *)

Module MachineFacts.
Import Machine.

Lemma wrap_size_range (z : Z) : is_size (wrap_size z).
Proof. unfold is_size, wrap_size, SIZE_MOD. apply Z.mod_pos_bound. lia. Qed.

Lemma wrap_size_small (z : Z) : is_size z -> wrap_size z = z.
Proof. unfold is_size, wrap_size. intros H. now apply Z.mod_small. Qed.

Lemma wrap_int_small (z : Z) : INT_MIN <= z <= INT_MAX -> wrap_int z = z.
Proof.
  unfold INT_MIN, INT_MAX, wrap_int. intros H.
  rewrite Z.mod_small; lia.
Qed.

Lemma wrap_int_lower (z : Z) : INT_MIN <= wrap_int z.
Proof.
  unfold INT_MIN, wrap_int.
  pose proof (Z.mod_pos_bound (z + 2 ^ 31) (2 ^ 32)). lia.
Qed.

Lemma wrap_int_le (z : Z) : INT_MIN <= z -> wrap_int z <= z.
Proof.
  unfold INT_MIN, wrap_int. intros H.
  pose proof (Z.mod_le (z + 2 ^ 31) (2 ^ 32)). lia.
Qed.

Lemma wrap_int_wrap_size (z : Z) : wrap_int (wrap_size z) = wrap_int z.
Proof.
  unfold wrap_int, wrap_size, SIZE_MOD.
  f_equal.
  rewrite (Z.add_mod (z mod 2 ^ 64) (2 ^ 31) (2 ^ 32)) by lia.
  rewrite (Z.add_mod z (2 ^ 31) (2 ^ 32)) by lia.
  f_equal. f_equal.
  change (2 ^ 64) with (2 ^ 32 * 2 ^ 32).
  rewrite Z.rem_mul_r by lia.
  rewrite Z.add_mod by lia.
  rewrite (Z.mul_comm (2 ^ 32)), Z.mod_mul by lia.
  rewrite Z.add_0_r. now rewrite !Z.mod_mod by lia.
Qed.

Lemma int_add_size_eq (i n : Z) : int_add_size i n = wrap_int (i + n).
Proof.
  unfold int_add_size, size_add.
  rewrite wrap_int_wrap_size.
  unfold wrap_size at 1.
  rewrite <- (wrap_int_wrap_size (i mod SIZE_MOD + n)).
  rewrite <- (wrap_int_wrap_size (i + n)).
  f_equal. unfold wrap_size, SIZE_MOD.
  rewrite Z.add_mod_idemp_l by lia. reflexivity.
Qed.

End MachineFacts.

(* ================================================================== *)
(** ** Facts about memory_manager.cpp *)

Module MemoryManagerFacts.
Import Machine MachineFacts MemoryManager.

Lemma readMemInfo_range (host : MemInfo) (field : string) :
  is_size (readMemInfo host field).
Proof.
  unfold readMemInfo. destruct (host field).
  - apply wrap_size_range.
  - unfold is_size, SIZE_MOD. lia.
Qed.

Lemma getAvailableMemory_range (host : MemInfo) :
  is_size (getAvailableMemory host).
Proof.
  unfold getAvailableMemory.
  destruct (0 <? readMemInfo host "MemAvailable:").
  - apply readMemInfo_range.
  - apply wrap_size_range.
Qed.

Lemma host_available_kb_reads (kb : Z) :
  0 < kb -> kb * 1024 < SIZE_MOD ->
  getAvailableMemory (host_available_kb kb) = kb * 1024.
Proof.
  intros Hpos Hlt.
  unfold getAvailableMemory, readMemInfo, host_available_kb. simpl.
  unfold size_mul.
  assert (Hkb : wrap_size kb = kb).
  { apply wrap_size_small. unfold is_size. unfold SIZE_MOD in *. lia. }
  rewrite Hkb.
  rewrite (wrap_size_small (kb * 1024)) by (unfold is_size; lia).
  destruct (0 <? kb * 1024) eqn:E; [reflexivity|].
  apply Z.ltb_ge in E. lia.
Qed.

(** Inside the range where [bytes + margin] is representable the two
    tests of [canAllocate] are the two inequalities over the integers. *)
Lemma canAllocate_exact (host : MemInfo) (bytes : Z) :
  is_size bytes ->
  bytes + ALLOCATION_SAFETY_MARGIN <= SIZE_MAX ->
  (canAllocate host bytes = true <->
   bytes + ALLOCATION_SAFETY_MARGIN <= getAvailableMemory host /\
   MIN_FREE_AFTER_ALLOC <= getAvailableMemory host - bytes).
Proof.
  intros Hb Hno.
  pose proof (getAvailableMemory_range host) as Ha.
  unfold canAllocate, size_add, size_sub.
  set (a := getAvailableMemory host) in *.
  unfold is_size, SIZE_MAX in *.
  assert (Hm : 0 < ALLOCATION_SAFETY_MARGIN) by (unfold ALLOCATION_SAFETY_MARGIN; lia).
  rewrite (wrap_size_small (bytes + ALLOCATION_SAFETY_MARGIN))
    by (unfold is_size; lia).
  destruct (a <? bytes + ALLOCATION_SAFETY_MARGIN) eqn:E1.
  - apply Z.ltb_lt in E1. split; [discriminate | lia].
  - apply Z.ltb_ge in E1.
    rewrite (wrap_size_small (a - bytes)) by (unfold is_size; lia).
    destruct (a - bytes <? MIN_FREE_AFTER_ALLOC) eqn:E2.
    + apply Z.ltb_lt in E2. split; [discriminate | lia].
    + apply Z.ltb_ge in E2. split; [lia | reflexivity].
Qed.

(** [canAllocate] is the conjunction of its two tests. *)
Lemma canAllocate_both_checks (host : MemInfo) (bytes : Z) :
  canAllocate host bytes =
  primary_check (getAvailableMemory host) bytes
  && secondary_check (getAvailableMemory host) bytes.
Proof.
  unfold canAllocate, primary_check, secondary_check.
  destruct (_ <? size_add _ _); simpl; [reflexivity|].
  destruct (size_sub _ _ <? _); reflexivity.
Qed.

(** Scenario C of the design document. *)
Lemma canAllocate_scenario_C :
  canAllocate (host_available_kb (600 * 1024)) (700 * MB) = false /\
  canAllocate (host_available_kb (1200 * 1024)) (700 * MB) = true.
Proof. split; vm_compute; reflexivity. Qed.

(** Where no sum wraps, a refused request stays refused when it grows. *)
Lemma canAllocate_antitone_in_range (host : MemInfo) (X Y : Z) :
  is_size X -> X <= Y ->
  Y + ALLOCATION_SAFETY_MARGIN <= SIZE_MAX ->
  canAllocate host X = false -> canAllocate host Y = false.
Proof.
  intros HX HXY HY Hfalse.
  assert (HsY : is_size Y).
  { unfold is_size, SIZE_MAX, ALLOCATION_SAFETY_MARGIN in *. lia. }
  destruct (canAllocate host Y) eqn:E; [|reflexivity].
  apply canAllocate_exact in E; [|assumption|assumption].
  assert (Ht : canAllocate host X = true).
  { apply canAllocate_exact; [assumption| lia |lia]. }
  congruence.
Qed.

(** C5, wrap-around in [canAllocate]: at [bytes = SIZE_MAX] the sum [bytes + margin]
    wraps around to a small number, so both tests pass and the request
    is admitted, although the one gigabyte of available memory is less
    than [bytes] plus the 100 MB margin and less than [bytes] plus the
    500 MB that should stay free. *)
Theorem canAllocate_admits_SIZE_MAX :
  let host := host_available_kb (1024 * 1024) in
  getAvailableMemory host = 1024 * MB /\
  is_size SIZE_MAX /\
  canAllocate host SIZE_MAX = true /\
  getAvailableMemory host < SIZE_MAX + ALLOCATION_SAFETY_MARGIN /\
  getAvailableMemory host - SIZE_MAX < MIN_FREE_AFTER_ALLOC.
Proof.
  cbv zeta. unfold is_size.
  repeat split; try (vm_compute; congruence); vm_compute; reflexivity.
Qed.

(** C6, wrap-around in [canAllocate]: with one gigabyte available a request of one
    gigabyte is refused, and the larger request [SIZE_MAX] is admitted:
    the gate is not antitone once [bytes + margin] wraps around. *)
Theorem canAllocate_not_antitone_on_wrap :
  let host := host_available_kb (1024 * 1024) in
  let X := 1024 * MB in
  let Y := SIZE_MAX in
  is_size X /\ is_size Y /\ X <= Y /\
  canAllocate host X = false /\ canAllocate host Y = true.
Proof.
  cbv zeta. unfold is_size.
  repeat split; try (vm_compute; congruence); vm_compute; reflexivity.
Qed.


(** The exact ladder of [getMemoryPressure]. *)
Lemma getMemoryPressure_cases (host : MemInfo) :
  let a := getAvailableMemory host in
  (a < MEMORY_CRITICAL_THRESHOLD /\ getMemoryPressure host = Critical) \/
  (MEMORY_CRITICAL_THRESHOLD <= a < MEMORY_HIGH_THRESHOLD /\
   getMemoryPressure host = High) \/
  (MEMORY_HIGH_THRESHOLD <= a < MEMORY_MEDIUM_THRESHOLD /\
   getMemoryPressure host = Medium) \/
  (MEMORY_MEDIUM_THRESHOLD <= a /\ getMemoryPressure host = Low).
Proof.
  cbv zeta. unfold getMemoryPressure.
  destruct (Z.ltb_spec (getAvailableMemory host) MEMORY_CRITICAL_THRESHOLD);
    [left; split; [assumption|reflexivity]|].
  destruct (Z.ltb_spec (getAvailableMemory host) MEMORY_HIGH_THRESHOLD);
    [right; left; split; [lia|reflexivity]|].
  destruct (Z.ltb_spec (getAvailableMemory host) MEMORY_MEDIUM_THRESHOLD);
    [right; right; left; split; [lia|reflexivity]|].
  right; right; right. split; [assumption|reflexivity].
Qed.

(** C7: the pressure level follows the ladder.  Below 64 MB it is
    Critical, from 64 MB to below 128 MB High, from 128 MB to below
    256 MB Medium, and from 512 MB on Low (the code reports Low from
    256 MB on already); the thresholds are strictly increasing and the
    level never rises when available memory grows. *)
Theorem getMemoryPressure_ladder :
  (forall host,
     let a := getAvailableMemory host in
     (a < 64 * MB -> getMemoryPressure host = Critical) /\
     (64 * MB <= a < 128 * MB -> getMemoryPressure host = High) /\
     (128 * MB <= a < 256 * MB -> getMemoryPressure host = Medium) /\
     (512 * MB <= a -> getMemoryPressure host = Low) /\
     (getMemoryPressure host = Low <-> 256 * MB <= a)) /\
  (MEMORY_CRITICAL_THRESHOLD < MEMORY_HIGH_THRESHOLD /\
   MEMORY_HIGH_THRESHOLD < MEMORY_MEDIUM_THRESHOLD /\
   MEMORY_MEDIUM_THRESHOLD < MEMORY_LOW_THRESHOLD) /\
  (forall h1 h2,
     getAvailableMemory h1 <= getAvailableMemory h2 ->
     severity (getMemoryPressure h2) <= severity (getMemoryPressure h1)).
Proof.
  split; [|split].
  - intros host a. subst a.
    pose proof (getMemoryPressure_cases host) as H. cbv zeta in H.
    unfold MEMORY_CRITICAL_THRESHOLD, MEMORY_HIGH_THRESHOLD,
      MEMORY_MEDIUM_THRESHOLD, MB in *.
    destruct H as [[Ha Hp]|[[Ha Hp]|[[Ha Hp]|[Ha Hp]]]]; rewrite Hp;
      repeat split; intros; try reflexivity; try lia; try discriminate.
  - unfold MEMORY_CRITICAL_THRESHOLD, MEMORY_HIGH_THRESHOLD,
      MEMORY_MEDIUM_THRESHOLD, MEMORY_LOW_THRESHOLD. lia.
  - intros h1 h2 Hle.
    pose proof (getMemoryPressure_cases h1) as H1.
    pose proof (getMemoryPressure_cases h2) as H2. cbv zeta in H1, H2.
    unfold MEMORY_CRITICAL_THRESHOLD, MEMORY_HIGH_THRESHOLD,
      MEMORY_MEDIUM_THRESHOLD in *.
    destruct H1 as [[Ha Hp]|[[Ha Hp]|[[Ha Hp]|[Ha Hp]]]]; rewrite Hp;
      destruct H2 as [[Hb Hq]|[[Hb Hq]|[[Hb Hq]|[Hb Hq]]]]; rewrite Hq;
      simpl; lia.
Qed.

Lemma getMemoryPressure_ladder_witness :
  getMemoryPressure (host_available_kb (32 * 1024)) = Critical /\
  getMemoryPressure (host_available_kb (64 * 1024)) = High /\
  getMemoryPressure (host_available_kb (128 * 1024)) = Medium /\
  getMemoryPressure (host_available_kb (512 * 1024)) = Low.
Proof.
  destruct getMemoryPressure_ladder as [H _].
  split; [|split; [|split]].
  - apply (H (host_available_kb (32 * 1024))). vm_compute. reflexivity.
  - apply (H (host_available_kb (64 * 1024))).
    split; vm_compute; [discriminate | reflexivity].
  - apply (H (host_available_kb (128 * 1024))).
    split; vm_compute; [discriminate | reflexivity].
  - apply (H (host_available_kb (512 * 1024))). vm_compute. discriminate.
Defined.

Lemma round_up_loop_continue (bound : nat) (r c : Z) :
  r < c -> r < 32768 ->
  round_up_loop (S bound) r c = round_up_loop bound (size_mul r 2) c.
Proof.
  intros H1 H2. simpl.
  rewrite (proj2 (Z.ltb_lt r c) H1), (proj2 (Z.ltb_lt r 32768) H2).
  reflexivity.
Qed.

Lemma round_up_loop_exit (bound : nat) (r c : Z) :
  c <= r \/ 32768 <= r -> round_up_loop bound r c = Some r.
Proof.
  intros H. destruct bound; simpl.
  - destruct (Z.ltb_spec r c); destruct (Z.ltb_spec r 32768);
      simpl; try reflexivity; lia.
  - destruct (Z.ltb_spec r c); destruct (Z.ltb_spec r 32768);
      simpl; try reflexivity; lia.
Qed.

Ltac run_round_up_loop :=
  repeat (rewrite round_up_loop_continue by lia;
          match goal with
          | |- context [size_mul ?r 2] =>
              let v := eval vm_compute in (size_mul r 2) in
              change (size_mul r 2) with v
          end);
  rewrite round_up_loop_exit by lia.

(** The doubling loop followed by the halving step yields the largest
    power of two below or at the clamped value. *)
Lemma rounding_is_floor_pow2 (c : Z) :
  512 <= c <= 32768 ->
  match round_up_loop 64 512 c with
  | Some result => Some (if result >? c then result / 2 else result)
  | None => None
  end = Some (2 ^ Z.log2 c).
Proof.
  intros Hc.
  assert (Hcase :
            c = 512 \/ 512 < c <= 1024 \/ 1024 < c <= 2048 \/
            2048 < c <= 4096 \/ 4096 < c <= 8192 \/
            8192 < c <= 16384 \/ 16384 < c <= 32768) by lia.
  destruct Hcase as [H|[H|[H|[H|[H|[H|H]]]]]].
  - subst c. vm_compute. reflexivity.
  - run_round_up_loop.
    destruct (Z.gtb_spec 1024 c).
    + rewrite (Z.log2_unique c 9) by (simpl; lia). reflexivity.
    + rewrite (Z.log2_unique c 10) by (simpl; lia). reflexivity.
  - run_round_up_loop.
    destruct (Z.gtb_spec 2048 c).
    + rewrite (Z.log2_unique c 10) by (simpl; lia). reflexivity.
    + rewrite (Z.log2_unique c 11) by (simpl; lia). reflexivity.
  - run_round_up_loop.
    destruct (Z.gtb_spec 4096 c).
    + rewrite (Z.log2_unique c 11) by (simpl; lia). reflexivity.
    + rewrite (Z.log2_unique c 12) by (simpl; lia). reflexivity.
  - run_round_up_loop.
    destruct (Z.gtb_spec 8192 c).
    + rewrite (Z.log2_unique c 12) by (simpl; lia). reflexivity.
    + rewrite (Z.log2_unique c 13) by (simpl; lia). reflexivity.
  - run_round_up_loop.
    destruct (Z.gtb_spec 16384 c).
    + rewrite (Z.log2_unique c 13) by (simpl; lia). reflexivity.
    + rewrite (Z.log2_unique c 14) by (simpl; lia). reflexivity.
  - run_round_up_loop.
    destruct (Z.gtb_spec 32768 c).
    + rewrite (Z.log2_unique c 14) by (simpl; lia). reflexivity.
    + rewrite (Z.log2_unique c 15) by (simpl; lia). reflexivity.
Qed.

Lemma spec_clamped_range (a : Z) : 512 <= spec_clamped a <= 32768.
Proof. unfold spec_clamped. lia. Qed.

(** C8: the recommended context size is computed (the loop always
    exits) and equals the design document's formula: usable memory over
    the per-token estimate, clamped to [512, 32768], rounded down to a
    power of two; the result never exceeds the clamped value and is the
    largest such power. *)
Theorem getRecommendedContextSize_floor_pow2 :
  forall host,
    let a := getAvailableMemory host in
    getRecommendedContextSize host =
      Some (spec_recommendedWindowCapacity a) /\
    spec_recommendedWindowCapacity a = 2 ^ Z.log2 (spec_clamped a) /\
    spec_recommendedWindowCapacity a <= spec_clamped a /\
    spec_clamped a < 2 * spec_recommendedWindowCapacity a.
Proof.
  intros host a.
  pose proof (getAvailableMemory_range host) as Ha. fold a in Ha.
  pose proof (spec_clamped_range a) as Hc.
  assert (Heq : spec_recommendedWindowCapacity a
                = 2 ^ Z.log2 (spec_clamped a)) by reflexivity.
  split; [|split; [exact Heq|]].
  - unfold getRecommendedContextSize. fold a.
    assert (Hu : (if a >? ALLOCATION_SAFETY_MARGIN
                  then size_sub a ALLOCATION_SAFETY_MARGIN else 0)
                 = Z.max 0 (a - ALLOCATION_SAFETY_MARGIN)).
    { unfold is_size in Ha.
      destruct (Z.gtb_spec a ALLOCATION_SAFETY_MARGIN).
      - unfold size_sub. rewrite wrap_size_small; [lia|].
        unfold is_size, ALLOCATION_SAFETY_MARGIN in *. lia.
      - lia. }
    rewrite Hu. cbv zeta.
    change (Z.min (Z.max (Z.max 0 (a - ALLOCATION_SAFETY_MARGIN)
                          / BYTES_PER_TOKEN) 512) 32768)
      with (spec_clamped a).
    rewrite Heq. apply rounding_is_floor_pow2. exact Hc.
  - rewrite Heq.
    pose proof (Z.log2_spec (spec_clamped a)) as Hl.
    replace (2 * 2 ^ Z.log2 (spec_clamped a))
      with (2 ^ Z.succ (Z.log2 (spec_clamped a))).
    + lia.
    + rewrite Z.pow_succ_r; [reflexivity | apply Z.log2_nonneg].
Qed.

Lemma unregister_amount (m bytes : Z) :
  is_size m -> is_size bytes ->
  (if bytes >? m then 0 else size_sub m bytes) = Z.max 0 (m - bytes).
Proof.
  unfold is_size. intros Hm Hb.
  destruct (Z.gtb_spec bytes m); [lia|].
  unfold size_sub. rewrite wrap_size_small; [lia|].
  unfold is_size. lia.
Qed.

(** C10: unregistering lowers the matching total, clamped at zero,
    leaves the other total and the callback alone, and has no outside
    effect: the pressure level is not evaluated and no callback runs.
    Registering evaluates the pressure once through
    [checkMemoryPressure], which invokes the callback exactly when one
    is registered and the level is not Low. *)
Theorem unregister_is_silent_register_checks :
  forall host bytes st,
    is_size bytes ->
    is_size (model_memory_ st) ->
    is_size (context_memory_ st) ->
    (let (st', evs) := unregisterModelMemory bytes st in
     evs = [] /\
     model_memory_ st' = Z.max 0 (model_memory_ st - bytes) /\
     model_memory_ st' <= model_memory_ st /\
     context_memory_ st' = context_memory_ st /\
     pressure_callback_ st' = pressure_callback_ st) /\
    (let (st', evs) := unregisterContextMemory bytes st in
     evs = [] /\
     context_memory_ st' = Z.max 0 (context_memory_ st - bytes) /\
     context_memory_ st' <= context_memory_ st /\
     model_memory_ st' = model_memory_ st /\
     pressure_callback_ st' = pressure_callback_ st) /\
    (let (st', evs) := registerModelMemory host bytes st in
     model_memory_ st' = size_add (model_memory_ st) bytes /\
     evs = checkMemoryPressure host st') /\
    (let (st', evs) := registerContextMemory host bytes st in
     context_memory_ st' = size_add (context_memory_ st) bytes /\
     evs = checkMemoryPressure host st') /\
    (let evs := checkMemoryPressure host st in
     In EvPressureEvaluated evs /\
     (List.length (callback_events evs) <= 1)%nat /\
     forall callback level,
       In (EvCallback callback level) evs <->
       (pressure_callback_ st = Some callback /\
        level = getMemoryPressure host /\ level <> Low)).
Proof.
  intros host bytes st Hb Hm Hc.
  pose proof (unregister_amount _ _ Hm Hb) as Hum.
  pose proof (unregister_amount _ _ Hc Hb) as Huc.
  unfold is_size in Hb, Hm, Hc.
  split; [|split; [|split; [|split]]].
  - unfold unregisterModelMemory.
    destruct (bytes >? model_memory_ st); simpl;
      (split; [reflexivity|]); (split; [lia|]); (split; [lia|]);
      split; reflexivity.
  - unfold unregisterContextMemory.
    destruct (bytes >? context_memory_ st); simpl;
      (split; [reflexivity|]); (split; [lia|]); (split; [lia|]);
      split; reflexivity.
  - unfold registerModelMemory. split; reflexivity.
  - unfold registerContextMemory. split; reflexivity.
  - cbv zeta. split; [left; reflexivity|]. split.
    + unfold checkMemoryPressure. simpl.
      destruct (pressure_callback_ st); simpl; [|lia].
      destruct (MemoryPressure_eqb (getMemoryPressure host) Low);
        simpl; lia.
    + intros callback level. unfold checkMemoryPressure. split.
      * intros [Hin|Hin]; [discriminate|].
        destruct (pressure_callback_ st); [|contradiction].
        destruct (getMemoryPressure host); simpl in Hin;
          [contradiction| | |]; destruct Hin as [Hin|[]];
          injection Hin as <- <-; (split; [reflexivity|]);
          (split; [reflexivity|discriminate]).
      * intros [Hcb [Hl Hn]]. right. rewrite Hcb. subst level.
        destruct (getMemoryPressure host); simpl; auto; congruence.
Qed.

Lemma unregister_is_silent_register_checks_witness :
  let st := mkState (300 * MB) (40 * MB) (Some 7%nat) in
  snd (unregisterModelMemory (500 * MB) st) = [] /\
  model_memory_ (fst (unregisterModelMemory (500 * MB) st)) = 0 /\
  snd (registerModelMemory (host_available_kb (100 * 1024)) (500 * MB) st)
    = [EvPressureEvaluated; EvCallback 7%nat High].
Proof.
  cbv zeta.
  pose proof (unregister_is_silent_register_checks
                (host_available_kb (100 * 1024)) (500 * MB)
                (mkState (300 * MB) (40 * MB) (Some 7%nat))) as H.
  assert (H1 : is_size (500 * MB)) by (unfold is_size; vm_compute; split; congruence).
  assert (H2 : is_size (300 * MB)) by (unfold is_size; vm_compute; split; congruence).
  assert (H3 : is_size (40 * MB)) by (unfold is_size; vm_compute; split; congruence).
  specialize (H H1 H2 H3).
  destruct H as [Hum [_ [Hrm _]]].
  destruct (unregisterModelMemory (500 * MB)
              (mkState (300 * MB) (40 * MB) (Some 7%nat))) as [st1 ev1] eqn:E1.
  destruct Hum as [Hev [Hmm _]].
  split; [exact Hev|]. split; [simpl; rewrite Hmm; vm_compute; reflexivity|].
  destruct (registerModelMemory (host_available_kb (100 * 1024)) (500 * MB)
              (mkState (300 * MB) (40 * MB) (Some 7%nat))) as [st2 ev2] eqn:E2.
  destruct Hrm as [_ Hevs]. simpl. rewrite Hevs.
  injection E2 as <- _. vm_compute. reflexivity.
Defined.

End MemoryManagerFacts.

(* ================================================================== *)
(** ** Facts about inference_engine.cpp *)

Module InferenceEngineFacts.
Import Machine MachineFacts InferenceEngine Fixtures.

Lemma size_nonneg (v : list llama_token) : 0 <= size v.
Proof. unfold size. lia. Qed.

Lemma size_app (v w : list llama_token) : size (v ++ w) = size v + size w.
Proof. unfold size. rewrite length_app. lia. Qed.

Lemma vector_resize_returns (n : Z) (v : list llama_token) :
  0 <= n ->
  exists v', vector_resize n v = Returns v' /\ size v' = n.
Proof.
  intros Hn. unfold vector_resize.
  destruct (Z.ltb_spec n 0); [lia|].
  eexists. split; [reflexivity|].
  unfold size. rewrite length_app, length_firstn, repeat_length. lia.
Qed.

Lemma erase_front_size (keep : Z) (v : list llama_token) :
  0 <= keep <= size v -> size (erase_front keep v) = keep.
Proof.
  unfold erase_front, size. intros H. rewrite length_skipn. lia.
Qed.

Lemma erase_front_split (keep : Z) (v : list llama_token) :
  v = firstn (Z.to_nat (size v - keep)) v ++ erase_front keep v.
Proof. unfold erase_front, size. now rewrite firstn_skipn. Qed.

Section WithBackend.
Variable B : Backend.
Variable fuel : nat.

Lemma lock_guard_returns {A : Type} (e : Engine B)
      (body : Engine B -> Outcome (A * Engine B)) (a : A) (e' : Engine B) :
  lock_guard B e body = Returns (a, e') ->
  mutex_ e = false /\
  exists e1, body (set_mutex B true e) = Returns (a, e1) /\
             e' = set_mutex B false e1.
Proof.
  unfold lock_guard. destruct (mutex_ e); [discriminate|].
  destruct (body (set_mutex B true e)) as [[a1 e1]|f]; simpl;
    [|discriminate].
  intros H. injection H as <- <-. split; [reflexivity|].
  exists e1. split; reflexivity.
Qed.

(** What [shiftContext] does once it has decided to shift. *)
Lemma shiftContext_shifts (e : Engine B) (keep : Z) :
  keep < n_past_ e ->
  mutex_ e = false ->
  loaded e = true ->
  exists e',
    shiftContext B e keep = Returns e' /\
    n_past_ e' = keep /\
    tokens_ e' = (if size (tokens_ e) >? wrap_size keep
                  then erase_front keep (tokens_ e) else tokens_ e) /\
    ctx_ e' = (if llama_get_memory B (ctx_ e)
               then llama_memory_seq_add B
                      (snd (llama_memory_seq_rm B (ctx_ e) 0 0
                              (n_past_ e - keep)))
                      0 (n_past_ e - keep) (n_past_ e)
                      (- (n_past_ e - keep))
               else ctx_ e) /\
    mutex_ e' = false /\
    loaded e' = true /\
    is_generating_ e' = is_generating_ e /\
    stop_requested_ e' = stop_requested_ e /\
    stats_ e' = stats_ e /\
    current_config_ e' = current_config_ e.
Proof.
  intros Hlt Hm Hl. unfold shiftContext, lock_guard.
  destruct (Z.leb_spec (n_past_ e) keep); [lia|].
  rewrite Hm. simpl. rewrite Hl. simpl.
  destruct (llama_get_memory B (ctx_ e)).
  - destruct (llama_memory_seq_rm B (ctx_ e) 0 0 (n_past_ e - keep))
      as [ok c1].
    simpl. destruct (size (tokens_ e) >? wrap_size keep); simpl;
      eexists; (split; [reflexivity|]); simpl; repeat split; assumption.
  - simpl. destruct (size (tokens_ e) >? wrap_size keep); simpl;
      eexists; (split; [reflexivity|]); simpl; repeat split; assumption.
Qed.

Lemma shiftContext_noop (e : Engine B) (keep : Z) :
  n_past_ e <= keep -> shiftContext B e keep = Returns e.
Proof.
  intros H. unfold shiftContext.
  destruct (Z.leb_spec (n_past_ e) keep); [reflexivity|lia].
Qed.

(** A shift requested while [mutex_] is held, as from inside
    [startInferenceIncremental], locks it a second time. *)
Lemma shiftContext_relock (e : Engine B) (keep : Z) :
  keep < n_past_ e ->
  mutex_ e = true ->
  shiftContext B e keep = Stuck SelfDeadlock.
Proof.
  intros Hlt Hm. unfold shiftContext, lock_guard.
  destruct (Z.leb_spec (n_past_ e) keep); [lia|].
  rewrite Hm. reflexivity.
Qed.

Lemma shiftContext_truncates (e : Engine B) (keep : Z) :
  0 <= keep <= INT_MAX ->
  keep < n_past_ e ->
  n_past_ e <= size (tokens_ e) ->
  mutex_ e = false ->
  loaded e = true ->
  exists e',
    shiftContext B e keep = Returns e' /\
    n_past_ e' = keep /\
    tokens_ e' = erase_front keep (tokens_ e) /\
    size (tokens_ e') = keep.
Proof.
  intros Hk Hlt Hinv Hm Hl.
  destruct (shiftContext_shifts e keep Hlt Hm Hl)
    as [e' [Hrun [Hn [Ht _]]]].
  assert (Hw : wrap_size keep = keep).
  { apply wrap_size_small. unfold is_size, SIZE_MOD, INT_MAX in *. lia. }
  rewrite Hw in Ht.
  destruct (Z.gtb_spec (size (tokens_ e)) keep); [|lia].
  exists e'. repeat split; try assumption.
  rewrite Ht. apply erase_front_size. lia.
Qed.


(** The outcome of [tokenizePrompt] as a function of the backend's
    answers to the first call and to the retry. *)
Lemma tokenizePrompt_outcome (prompt : string) (tokens : list llama_token) :
  let cap := wrap_int (Z.of_nat (String.length prompt) + 32) in
  let n1 := fst (llama_tokenize B prompt cap) in
  let n2 := fst (llama_tokenize B prompt (- n1)) in
  0 <= cap ->
  exists v,
    tokenizePrompt B prompt tokens =
      Returns (if n1 <? 0 then negb (n2 <? 0) else true,
               v,
               if n1 <? 0 then [cap; - n1] else [cap]) /\
    (0 <= n1 -> size v = n1) /\
    (n1 < 0 -> 0 <= n2 -> size v = n2).
Proof.
  cbv zeta. intros Hcap. unfold tokenizePrompt.
  destruct (vector_resize_returns _ tokens Hcap) as [v0 [E0 _]].
  rewrite E0. simpl.
  destruct (llama_tokenize B prompt
              (wrap_int (Z.of_nat (String.length prompt) + 32)))
    as [n1 out1]. simpl.
  destruct (Z.ltb_spec n1 0) as [Hn1|Hn1].
  - assert (Hneg : 0 <= - n1) by lia.
    destruct (vector_resize_returns _ (write_buffer out1 v0) Hneg)
      as [v1 [E1 _]].
    rewrite E1. simpl.
    destruct (llama_tokenize B prompt (- n1)) as [n2 out2]. simpl.
    destruct (Z.ltb_spec n2 0) as [Hn2|Hn2]; simpl.
    + eexists. split; [reflexivity|]. split; intros; lia.
    + destruct (vector_resize_returns _ (write_buffer out2 v1) Hn2)
        as [v2 [E2 S2]].
      rewrite E2. simpl. exists v2.
      split; [reflexivity|]. split; intros; [lia|assumption].
  - simpl. destruct (Z.ltb_spec n1 0) as [Hn1'|_]; [lia|].
    destruct (vector_resize_returns _ (write_buffer out1 v0) Hn1)
      as [v1 [E1 S1]].
    rewrite E1. simpl. exists v1.
    split; [reflexivity|]. split; intros; [assumption|lia].
Qed.

Lemma startInference_tokenize_failure (e : Engine B) (prompt : string)
      (config : InferenceConfig) :
  loaded e = true ->
  mutex_ e = false ->
  (forall tokens, exists v calls,
      tokenizePrompt B prompt tokens = Returns (false, v, calls)) ->
  exists e',
    startInference B fuel e prompt config = Returns (false, e') /\
    is_generating_ e' = false.
Proof.
  intros Hl Hm Htok. unfold startInference, isModelLoaded.
  rewrite Hl. simpl. unfold lock_guard.
  destruct (is_generating_ e) eqn:Hg; simpl; rewrite Hm; simpl;
    destruct (Htok []) as [v' [calls' E]]; rewrite E; simpl;
    eexists; (split; [reflexivity|]); simpl; try reflexivity;
    assumption.
Qed.

Lemma startInferenceIncremental_tokenize_failure (e : Engine B)
      (prompt : string) (config : InferenceConfig) :
  loaded e = true ->
  mutex_ e = false ->
  (forall tokens, exists v calls,
      tokenizePrompt B prompt tokens = Returns (false, v, calls)) ->
  exists e',
    startInferenceIncremental B fuel e prompt config
      = Returns (false, e') /\
    is_generating_ e' = false.
Proof.
  intros Hl Hm Htok. unfold startInferenceIncremental, isModelLoaded.
  rewrite Hl. simpl. unfold lock_guard.
  destruct (is_generating_ e) eqn:Hg; simpl; rewrite Hm; simpl;
    destruct (Htok []) as [v' [calls' E]]; rewrite E; simpl;
    eexists; (split; [reflexivity|]); simpl; try reflexivity;
    assumption.
Qed.


(** *** The committed count stays within history *)

Lemma evaluateTokens_state (e e' : Engine B) (tokens : list llama_token)
      (n_past n_tokens : Z) (ok : bool) :
  evaluateTokens B fuel e tokens n_past n_tokens = Returns (ok, e') ->
  exists c', e' = set_ctx B c' e.
Proof.
  unfold evaluateTokens. destruct (n_tokens =? 1).
  - destruct (llama_decode B (ctx_ e) (batch_get_one (nth 0 tokens 0)))
      as [rc c'].
    destruct (negb (rc =? 0)); intros H; injection H as _ <-;
      exists c'; reflexivity.
  - destruct (evaluate_batches B fuel (ctx_ e) tokens
                (batch_size (current_config_ e)) n_past n_tokens 0)
      as [[ok' c']|f]; simpl; [|discriminate].
    intros H; injection H as _ <-. exists c'; reflexivity.
Qed.

Lemma erase_front_size_ge (keep : Z) (v : list llama_token) :
  keep <= size v -> keep <= size (erase_front keep v).
Proof. unfold erase_front, size. rewrite length_skipn. lia. Qed.

Lemma shiftContext_stuck_unloaded (e : Engine B) (keep : Z) :
  keep < n_past_ e -> loaded e = false ->
  forall e', shiftContext B e keep <> Returns e'.
Proof.
  intros Hlt Hl e'. unfold shiftContext, lock_guard.
  destruct (Z.leb_spec (n_past_ e) keep); [lia|].
  destruct (mutex_ e); simpl; [discriminate|].
  rewrite Hl. simpl. discriminate.
Qed.

Lemma shiftContext_within_history (e e' : Engine B) (keep : Z) :
  INT_MIN <= keep ->
  committed_within_history B e ->
  shiftContext B e keep = Returns e' ->
  committed_within_history B e'.
Proof.
  intros Hk [Hlo Hhi] Hrun.
  destruct (Z.le_gt_cases (n_past_ e) keep) as [Hle|Hgt].
  - rewrite (shiftContext_noop e keep Hle) in Hrun.
    injection Hrun as <-. split; assumption.
  - destruct (loaded e) eqn:Hl;
      [|exfalso; exact (shiftContext_stuck_unloaded e keep Hgt Hl e' Hrun)].
    destruct (mutex_ e) eqn:Hm.
    + unfold shiftContext, lock_guard in Hrun.
      destruct (Z.leb_spec (n_past_ e) keep); [lia|].
      rewrite Hm in Hrun. discriminate.
    + destruct (shiftContext_shifts e keep Hgt Hm Hl)
        as [e'' [Hrun' [Hn [Ht _]]]].
      rewrite Hrun' in Hrun. injection Hrun as <-.
      unfold committed_within_history. rewrite Hn, Ht.
      split; [assumption|].
      destruct (size (tokens_ e) >? wrap_size keep).
      * apply erase_front_size_ge. lia.
      * lia.
Qed.

Ltac within_history :=
  unfold committed_within_history in *; simpl in *;
  rewrite ?size_app in *; unfold size in *; simpl in *;
  try lia.

Lemma getNextToken_within_history (e e' : Engine B) (text : string) :
  committed_within_history B e ->
  getNextToken B fuel e = Returns (text, e') ->
  committed_within_history B e'.
Proof.
  intros Hinv H. unfold getNextToken in H.
  destruct (negb (is_generating_ e) || stop_requested_ e).
  { injection H as _ <-. within_history. }
  apply lock_guard_returns in H. destruct H as [_ [e1 [Hb ->]]].
  destruct (n_past_ (set_mutex B true e)
            >=? context_length (current_config_ (set_mutex B true e)) - 1).
  { injection Hb as _ <-. within_history. }
  destruct (generated_tokens (stats_ (set_mutex B true e))
            >=? max_tokens (current_config_ (set_mutex B true e))).
  { injection Hb as _ <-. within_history. }
  destruct (negb (loaded (set_mutex B true e))); [discriminate|].
  unfold sampleNextToken in Hb.
  destruct (llama_vocab_is_eog B
              (llama_sampler_sample B (ctx_ (set_mutex B true e)))).
  { injection Hb as _ <-. within_history. }
  match type of Hb with
  | bind ?m _ = _ => destruct m as [[ok e2]|f] eqn:Ev
  end; simpl in Hb; [|discriminate].
  apply evaluateTokens_state in Ev. destruct Ev as [c' ->].
  destruct ok; simpl in Hb; injection Hb as _ <-; within_history.
Qed.

Lemma getNextTokens_loop_within_history (remaining : nat) :
  forall (e e' : Engine B) (acc result : list string),
    committed_within_history B e ->
    getNextTokens_loop B fuel remaining e acc = Returns (result, e') ->
    committed_within_history B e'.
Proof.
  induction remaining as [|k IH]; intros e e' acc result Hinv H.
  - simpl in H. injection H as _ <-. exact Hinv.
  - simpl in H.
    destruct (is_generating_ e && negb (stop_requested_ e)).
    + match type of H with
      | bind ?m _ = _ => destruct m as [e1|f] eqn:Hs
      end; simpl in H; [|discriminate].
      assert (Hinv1 : committed_within_history B e1).
      { destruct (n_past_ e >=? context_length (current_config_ e) - 16).
        - apply (shiftContext_within_history e e1 64); try assumption.
          unfold INT_MIN. lia.
        - injection Hs as <-. exact Hinv. }
      destruct (getNextToken B fuel e1) as [[token e2]|f] eqn:Hg;
        simpl in H; [|discriminate].
      pose proof (getNextToken_within_history e1 e2 token Hinv1 Hg)
        as Hinv2.
      destruct (empty token && negb (is_generating_ e2)).
      * injection H as _ <-. exact Hinv2.
      * exact (IH e2 e' _ result Hinv2 H).
    + injection H as _ <-. exact Hinv.
Qed.

Lemma startInference_within_history (e e' : Engine B) (prompt : string)
      (config : InferenceConfig) (ok : bool) :
  committed_within_history B e ->
  startInference B fuel e prompt config = Returns (ok, e') ->
  committed_within_history B e'.
Proof.
  intros Hinv H. unfold startInference in H.
  destruct (negb (isModelLoaded B e)).
  { injection H as _ <-. exact Hinv. }
  apply lock_guard_returns in H. destruct H as [_ [e1 [Hb ->]]].
  match type of Hb with
  | bind ?m _ = _ => destruct m as [[[ok1 toks] calls]|f] eqn:Ht
  end; simpl in Hb; [|discriminate].
  destruct ok1; simpl in Hb.
  - match type of Hb with
    | bind ?m _ = _ => destruct m as [[ok2 e2]|f] eqn:Ev
    end; simpl in Hb; [|discriminate].
    apply evaluateTokens_state in Ev. destruct Ev as [c' ->].
    pose proof (size_nonneg toks) as Hs.
    assert (Hw : wrap_int (size toks) <= size toks)
      by (apply wrap_int_le; unfold INT_MIN; lia).
    pose proof (wrap_int_lower (size toks)) as Hw'.
    destruct ok2; simpl in Hb; injection Hb as _ <-;
      unfold committed_within_history; simpl;
      unfold clear_memory;
      destruct (llama_get_memory B _); simpl;
      unfold INT_MIN in *; lia.
  - injection Hb as _ <-.
    pose proof (size_nonneg toks) as Hs.
    unfold committed_within_history; simpl. unfold INT_MIN. lia.
Qed.

Lemma startInferenceIncremental_within_history (e e' : Engine B)
      (prompt : string) (config : InferenceConfig) (ok : bool) :
  committed_within_history B e ->
  startInferenceIncremental B fuel e prompt config = Returns (ok, e') ->
  committed_within_history B e'.
Proof.
  intros Hinv H. unfold startInferenceIncremental in H.
  destruct (negb (isModelLoaded B e)).
  { injection H as _ <-. exact Hinv. }
  apply lock_guard_returns in H. destruct H as [_ [e1 [Hb ->]]].
  match type of Hb with
  | bind ?m _ = _ => destruct m as [[[ok1 toks] calls]|f] eqn:Ht
  end; simpl in Hb; [|discriminate].
  destruct ok1; simpl in Hb.
  - match type of Hb with
    | bind ?m _ = _ => destruct m as [e2|f] eqn:Hs
    end; simpl in Hb; [|discriminate].
    assert (Hinv2 : committed_within_history B e2).
    { match type of Hs with
      | (if ?c then _ else _) = _ => destruct c
      end.
      - apply (shiftContext_within_history _ e2 64) in Hs;
          [exact Hs | unfold INT_MIN; lia |].
        destruct (is_generating_ e); within_history.
      - injection Hs as <-.
        destruct (is_generating_ e); within_history. }
    match type of Hb with
    | bind ?m _ = _ => destruct m as [[ok2 e3]|f] eqn:Ev
    end; simpl in Hb; [|discriminate].
    apply evaluateTokens_state in Ev. destruct Ev as [c' ->].
    destruct Hinv2 as [Hlo Hhi].
    pose proof (size_nonneg toks) as Hsz.
    destruct ok2; simpl in Hb; injection Hb as _ <-.
    + unfold committed_within_history; simpl.
      rewrite int_add_size_eq, size_app.
      pose proof (wrap_int_lower (n_past_ e2 + size toks)).
      pose proof (wrap_int_le (n_past_ e2 + size toks)).
      lia.
    + unfold committed_within_history; simpl. lia.
  - injection Hb as _ <-.
    destruct (is_generating_ e); within_history.
Qed.

Lemma clearCache_within_history (e e' : Engine B) :
  clearCache B e = Returns e' -> committed_within_history B e'.
Proof.
  unfold clearCache. intros H.
  match type of H with
  | bind ?m _ = _ => destruct m as [[u e1]|f] eqn:Hg
  end; simpl in H; [|discriminate].
  injection H as <-.
  apply lock_guard_returns in Hg. destruct Hg as [_ [e2 [Hb ->]]].
  destruct (negb (loaded (set_mutex B true e))); [discriminate|].
  injection Hb as Hb. subst e2.
  unfold committed_within_history, INT_MIN, clear_memory, size.
  destruct (llama_get_memory B (ctx_ (set_mutex B true e))); simpl; lia.
Qed.


(** *** Generation under a backend that accepts every batch *)

Lemma evaluate_batches_succeeds (tokens : list llama_token)
      (bsz n_past n_tokens : Z) :
  (forall c b, fst (llama_decode B c b) = 0) ->
  1 <= bsz ->
  forall (bound : nat) (c : context B) (i : Z),
    n_tokens - i <= Z.of_nat bound ->
    exists c',
      evaluate_batches B bound c tokens bsz n_past n_tokens i
        = Returns (true, c').
Proof.
  intros Hdec Hb. induction bound as [|k IH]; intros c i Hfuel.
  - simpl. destruct (Z.ltb_spec i n_tokens); [lia|].
    exists c. reflexivity.
  - simpl. destruct (Z.ltb_spec i n_tokens).
    + pose proof (Hdec c (batch_init
                            (fill_batch tokens n_past n_tokens i
                               (Z.min bsz (n_tokens - i))))) as Hrc.
      destruct (llama_decode B c _) as [rc c1]. simpl in Hrc. subst rc.
      simpl. apply IH. lia.
    + exists c. reflexivity.
Qed.

Lemma evaluateTokens_succeeds (e : Engine B) (tokens : list llama_token)
      (n_past n_tokens : Z) :
  (forall c b, fst (llama_decode B c b) = 0) ->
  1 <= batch_size (current_config_ e) ->
  n_tokens <= Z.of_nat fuel ->
  exists c',
    evaluateTokens B fuel e tokens n_past n_tokens
      = Returns (true, set_ctx B c' e).
Proof.
  intros Hdec Hb Hfuel. unfold evaluateTokens.
  destruct (n_tokens =? 1).
  - pose proof (Hdec (ctx_ e) (batch_get_one (nth 0 tokens 0))) as Hrc.
    destruct (llama_decode B (ctx_ e) _) as [rc c1]. simpl in Hrc.
    subst rc. simpl. exists c1. reflexivity.
  - destruct (evaluate_batches_succeeds tokens
                (batch_size (current_config_ e)) n_past n_tokens
                Hdec Hb fuel (ctx_ e) 0) as [c' E]; [lia|].
    rewrite E. simpl. exists c'. reflexivity.
Qed.

Lemma clear_memory_state (e : Engine B) :
  exists c, clear_memory B e = set_ctx B c e.
Proof.
  unfold clear_memory. destruct (llama_get_memory B (ctx_ e)).
  - eexists. reflexivity.
  - exists (ctx_ e). destruct e. reflexivity.
Qed.

Lemma startInference_enters_generation (e : Engine B) (prompt : string)
      (config : InferenceConfig) (n : Z) :
  loaded e = true ->
  mutex_ e = false ->
  0 <= wrap_int (Z.of_nat (String.length prompt) + 32) ->
  fst (llama_tokenize B prompt
         (wrap_int (Z.of_nat (String.length prompt) + 32))) = n ->
  0 <= n <= INT_MAX ->
  n <= Z.of_nat fuel ->
  1 <= batch_size config ->
  (forall c b, fst (llama_decode B c b) = 0) ->
  exists e0,
    startInference B fuel e prompt config = Returns (true, e0) /\
    generating_at B config n 0 e0.
Proof.
  intros Hl Hm Hcap Hn Hrange Hfuel Hb Hdec.
  unfold startInference, isModelLoaded. rewrite Hl. simpl.
  set (e1 := if is_generating_ e
             then set_is_generating B false (set_stop_requested B true e)
             else e).
  assert (Hm1 : mutex_ e1 = false)
    by (subst e1; destruct (is_generating_ e); exact Hm).
  assert (Hl1 : loaded e1 = true)
    by (subst e1; destruct (is_generating_ e); exact Hl).
  unfold lock_guard. rewrite Hm1. simpl.
  destruct (tokenizePrompt_outcome prompt [] Hcap) as [v [E [Hsz _]]].
  rewrite Hn in E, Hsz.
  destruct (Z.ltb_spec n 0) as [Hneg|_]; [lia|].
  rewrite E. simpl.
  match goal with
  | |- context [clear_memory B ?x] =>
      destruct (clear_memory_state x) as [c0 Hc0]; rewrite Hc0
  end.
  simpl.
  specialize (Hsz (proj1 Hrange)).
  assert (Hw : wrap_int (size v) = n).
  { rewrite Hsz. apply wrap_int_small. unfold INT_MIN, INT_MAX in *. lia. }
  rewrite Hw.
  match goal with
  | |- context [evaluateTokens B fuel ?e2 ?t ?p ?k] =>
      destruct (evaluateTokens_succeeds e2 t p k Hdec Hb Hfuel)
        as [c' Ev]
  end.
  rewrite Ev. simpl.
  eexists. split; [reflexivity|].
  unfold generating_at. simpl.
  repeat split; try assumption; try reflexivity.
Qed.

Lemma getNextToken_at_limit (e : Engine B) :
  mutex_ e = false ->
  context_length (current_config_ e) - 1 <= n_past_ e \/
  max_tokens (current_config_ e) <= generated_tokens (stats_ e) ->
  getNextToken B fuel e
    = Returns (EmptyString, set_is_generating B false e).
Proof.
  intros Hm Hlim. unfold getNextToken, lock_guard.
  destruct (negb (is_generating_ e) || stop_requested_ e); [reflexivity|].
  rewrite Hm. simpl.
  destruct e as [l c g s m t cp np st cf]. simpl in *. subst m.
  destruct (Z.geb_spec np (context_length cf - 1)); simpl;
    [reflexivity|].
  destruct (Z.geb_spec (generated_tokens st) (max_tokens cf)); simpl;
    [reflexivity|].
  lia.
Qed.

Lemma getNextToken_step (config : InferenceConfig) (n g : Z)
      (e : Engine B) :
  generating_at B config n g e ->
  n < context_length config - 1 ->
  g < max_tokens config ->
  (forall c b, fst (llama_decode B c b) = 0) ->
  (forall c, llama_vocab_is_eog B (llama_sampler_sample B c) = false) ->
  exists text e',
    getNextToken B fuel e = Returns (text, e') /\
    generating_at B config (n + 1) (g + 1) e' /\
    tokens_ e' = tokens_ e ++ [llama_sampler_sample B (ctx_ e)].
Proof.
  intros [Hl [Hm [Hg [Hs [Hc [Hn [Ht Hgen]]]]]]] Hroom Hleft Hdec Heog.
  unfold getNextToken, lock_guard. rewrite Hg, Hs, Hm. simpl.
  rewrite Hc, Hn, Hgen, Hl.
  destruct (Z.geb_spec n (context_length config - 1)); [lia|].
  destruct (Z.geb_spec g (max_tokens config)); [lia|].
  simpl. rewrite Heog.
  unfold evaluateTokens. simpl.
  match goal with
  | |- context [llama_decode B ?c ?b] =>
      pose proof (Hdec c b) as Hrc; destruct (llama_decode B c b)
        as [rc c1]
  end.
  simpl in Hrc. subst rc. simpl.
  eexists. eexists. split; [reflexivity|].
  unfold generating_at. simpl. rewrite size_app.
  unfold size at 2. simpl.
  repeat split; try assumption; try reflexivity; lia.
Qed.

Lemma getNextTokens_loop_runs (config : InferenceConfig) :
  (forall c b, fst (llama_decode B c b) = 0) ->
  (forall c, llama_vocab_is_eog B (llama_sampler_sample B c) = false) ->
  forall (k : nat) (e : Engine B) (acc : list string) (n g : Z),
    generating_at B config n g e ->
    n + Z.of_nat k <= context_length config - 16 ->
    g + Z.of_nat k <= max_tokens config ->
    exists texts e',
      List.length texts = k /\
      generating_at B config (n + Z.of_nat k) (g + Z.of_nat k) e' /\
      forall m,
        getNextTokens_loop B fuel (k + m) e acc
          = getNextTokens_loop B fuel m e' (acc ++ texts).
Proof.
  intros Hdec Heog. induction k as [|k IH]; intros e acc n g He Hn Hg.
  - exists [], e. split; [reflexivity|]. split.
    + replace (n + Z.of_nat 0) with n by lia.
      replace (g + Z.of_nat 0) with g by lia. exact He.
    + intros m. rewrite app_nil_r. reflexivity.
  - destruct (getNextToken_step config n g e He) as
        [text [e1 [Hrun [He1 _]]]]; try assumption; try lia.
    destruct (IH e1 (acc ++ [text]) (n + 1) (g + 1) He1)
      as [texts [e' [Hlen [He' Hloop]]]]; try lia.
    exists (text :: texts), e'. split; [simpl; lia|]. split.
    + replace (n + Z.of_nat (S k)) with (n + 1 + Z.of_nat k) by lia.
      replace (g + Z.of_nat (S k)) with (g + 1 + Z.of_nat k) by lia.
      exact He'.
    + intros m.
      replace (acc ++ text :: texts) with ((acc ++ [text]) ++ texts)
        by (rewrite <- app_assoc; reflexivity).
      rewrite <- Hloop.
      destruct He as [Hl [Hm [Hgn [Hs [Hc [Hnp _]]]]]].
      destruct He1 as [_ [_ [Hgn1 _]]].
      change (S k + m)%nat with (S (k + m)).
      cbn [getNextTokens_loop].
      rewrite Hgn, Hs, Hc, Hnp. simpl.
      destruct (Z.geb_spec n (context_length config - 16)); [lia|].
      simpl. rewrite Hrun. simpl. rewrite Hgn1.
      rewrite andb_false_r. reflexivity.
Qed.

End WithBackend.

(** C2, counterexample: with a negative [keep] the committed
    count is above [keep], the call shifts, and history keeps its three
    tokens: its length is not [keep]. *)
Lemma shiftContext_negative_keep :
  let e := three_committed in
  let keep := -1 in
  keep < n_past_ e /\
  exists e',
    shiftContext plain e keep = Returns e' /\
    n_past_ e' = -1 /\
    tokens_ e' = [5; 6; 7] /\
    size (tokens_ e') <> keep.
Proof.
  cbv zeta. split; [reflexivity|].
  eexists. split; [vm_compute; reflexivity|].
  simpl. repeat split. vm_compute. discriminate.
Qed.

(** C2, for non-negative [keep]: for a [keep] that is a non-negative [int],
    [shiftContext] is a no-op when the committed count is at most
    [keep]; otherwise (committed count within history, mutex free, model
    loaded) it returns with history cut to exactly its last [keep]
    tokens and the committed count equal to [keep]; the tokens dropped
    from the front include the oldest [committed_before - keep]. *)
Theorem shiftContext_keeps_last :
  forall (B : Backend) (e : Engine B) (keep : Z),
    0 <= keep <= INT_MAX ->
    (n_past_ e <= keep -> shiftContext B e keep = Returns e) /\
    (keep < n_past_ e ->
     n_past_ e <= size (tokens_ e) ->
     mutex_ e = false ->
     loaded e = true ->
     exists e' dropped,
       shiftContext B e keep = Returns e' /\
       size (tokens_ e') = keep /\
       n_past_ e' = keep /\
       tokens_ e = dropped ++ tokens_ e' /\
       n_past_ e - keep <= size dropped).
Proof.
  intros B e keep Hk. split.
  - apply shiftContext_noop.
  - intros Hlt Hinv Hm Hl.
    destruct (shiftContext_truncates B e keep Hk Hlt Hinv Hm Hl)
      as [e' [Hrun [Hn [Ht Hs]]]].
    exists e', (firstn (Z.to_nat (size (tokens_ e) - keep)) (tokens_ e)).
    repeat split; try assumption.
    + rewrite Ht. apply erase_front_split.
    + unfold size. rewrite length_firstn. unfold size in Hinv. lia.
Qed.

Lemma shiftContext_keeps_last_witness :
  exists e' dropped,
    shiftContext plain three_committed 1 = Returns e' /\
    size (tokens_ e') = 1 /\
    n_past_ e' = 1 /\
    tokens_ three_committed = dropped ++ tokens_ e' /\
    n_past_ three_committed - 1 <= size dropped.
Proof.
  assert (Hk : 0 <= 1 <= INT_MAX) by (unfold INT_MAX; lia).
  apply (proj2 (shiftContext_keeps_last plain three_committed 1 Hk)).
  - simpl. lia.
  - vm_compute. discriminate.
  - reflexivity.
  - reflexivity.
Defined.

(** C3, counterexample: on a backend whose [llama_memory_seq_rm]
    signals false, [shiftContext] still cuts history and lowers the
    committed count. *)
Lemma shiftContext_ignores_refusal_example :
  let B := toy byte_tokenizer true false in
  let e := three_committed_on B 3 in
  fst (llama_memory_seq_rm B (ctx_ e) 0 0 (n_past_ e - 1)) = false /\
  exists e',
    shiftContext B e 1 = Returns e' /\
    tokens_ e' = [7] /\ n_past_ e' = 1 /\
    ~ (tokens_ e' = tokens_ e /\ n_past_ e' = n_past_ e).
Proof.
  cbv zeta. split; [reflexivity|].
  eexists. split; [vm_compute; reflexivity|].
  simpl. repeat split. intros [H _]. discriminate.
Qed.

(** C3, as the code has it: [shiftContext] does not look at the backend's answer
    and has no status to return.  When the backend signals false for
    the removal, the call still renumbers the backend's positions,
    sets the committed count to [keep] and cuts history to its last
    [keep] tokens. *)
Theorem shiftContext_ignores_refusal :
  forall (B : Backend) (e : Engine B) (keep : Z),
    0 <= keep <= INT_MAX ->
    keep < n_past_ e ->
    n_past_ e <= size (tokens_ e) ->
    mutex_ e = false ->
    loaded e = true ->
    llama_get_memory B (ctx_ e) = true ->
    fst (llama_memory_seq_rm B (ctx_ e) 0 0 (n_past_ e - keep)) = false ->
    exists e',
      shiftContext B e keep = Returns e' /\
      n_past_ e' = keep /\
      tokens_ e' = erase_front keep (tokens_ e) /\
      size (tokens_ e') = keep /\
      ctx_ e' = llama_memory_seq_add B
                  (snd (llama_memory_seq_rm B (ctx_ e) 0 0
                          (n_past_ e - keep)))
                  0 (n_past_ e - keep) (n_past_ e) (- (n_past_ e - keep)).
Proof.
  intros B e keep Hk Hlt Hinv Hm Hl Hmem _.
  destruct (shiftContext_shifts B e keep Hlt Hm Hl)
    as [e' [Hrun [Hn [Ht [Hc _]]]]].
  rewrite Hmem in Hc.
  assert (Hw : wrap_size keep = keep).
  { apply wrap_size_small. unfold is_size, SIZE_MOD, INT_MAX in *. lia. }
  rewrite Hw in Ht.
  destruct (Z.gtb_spec (size (tokens_ e)) keep); [|lia].
  exists e'. repeat split; try assumption.
  rewrite Ht. apply erase_front_size. lia.
Qed.

Lemma shiftContext_ignores_refusal_witness :
  let B := toy byte_tokenizer true false in
  exists e',
    shiftContext B (three_committed_on B 3) 1 = Returns e' /\
    n_past_ e' = 1 /\
    tokens_ e' = erase_front 1 [5; 6; 7] /\
    size (tokens_ e') = 1 /\
    ctx_ e' = 3.
Proof.
  cbv zeta.
  apply (shiftContext_ignores_refusal (toy byte_tokenizer true false)
           (three_committed_on (toy byte_tokenizer true false) 3) 1).
  - unfold INT_MAX. lia.
  - simpl. lia.
  - vm_compute. discriminate.
  - reflexivity.
  - reflexivity.
  - reflexivity.
  - reflexivity.
Defined.

(** C9: [tokenizePrompt] calls the tokenizer with a buffer of
    [length + 32] slots.  If that call reports a negative count the
    tokenizer is called exactly once more, with the size it reported; if
    the retry is negative too, [tokenizePrompt] returns false and
    [startInference] / [startInferenceIncremental] return false without
    entering generation; if either attempt succeeds, the vector holds
    exactly the number of tokens produced. *)
Theorem tokenizePrompt_retries_once :
  forall (B : Backend) (prompt : string) (tokens : list llama_token),
    let cap := wrap_int (Z.of_nat (String.length prompt) + 32) in
    let n1 := fst (llama_tokenize B prompt cap) in
    let n2 := fst (llama_tokenize B prompt (- n1)) in
    0 <= cap ->
    (0 <= n1 ->
     exists v,
       tokenizePrompt B prompt tokens = Returns (true, v, [cap]) /\
       size v = n1) /\
    (n1 < 0 -> 0 <= n2 ->
     exists v,
       tokenizePrompt B prompt tokens = Returns (true, v, [cap; - n1]) /\
       size v = n2) /\
    (n1 < 0 -> n2 < 0 ->
     (exists v,
        tokenizePrompt B prompt tokens = Returns (false, v, [cap; - n1])) /\
     forall (fuel : nat) (e : Engine B) (config : InferenceConfig),
       loaded e = true -> mutex_ e = false ->
       (exists e',
          startInference B fuel e prompt config = Returns (false, e') /\
          is_generating_ e' = false) /\
       (exists e',
          startInferenceIncremental B fuel e prompt config
            = Returns (false, e') /\
          is_generating_ e' = false)).
Proof.
  intros B prompt tokens cap n1 n2 Hcap.
  assert (Hall : forall tokens, exists v,
             tokenizePrompt B prompt tokens =
               Returns (if n1 <? 0 then negb (n2 <? 0) else true, v,
                        if n1 <? 0 then [cap; - n1] else [cap]) /\
             (0 <= n1 -> size v = n1) /\
             (n1 < 0 -> 0 <= n2 -> size v = n2)).
  { intros t. exact (tokenizePrompt_outcome B prompt t Hcap). }
  split; [|split].
  - intros H1. destruct (Hall tokens) as [v [E [S1 _]]].
    destruct (Z.ltb_spec n1 0); [lia|].
    exists v. split; [exact E | exact (S1 H1)].
  - intros H1 H2. destruct (Hall tokens) as [v [E [_ S2]]].
    destruct (Z.ltb_spec n1 0); [|lia].
    destruct (Z.ltb_spec n2 0); [lia|].
    exists v. split; [exact E | exact (S2 H1 H2)].
  - intros H1 H2.
    assert (Hfail : forall t, exists v calls,
               tokenizePrompt B prompt t = Returns (false, v, calls)).
    { intros t. destruct (Hall t) as [v [E _]].
      destruct (Z.ltb_spec n1 0); [|lia].
      destruct (Z.ltb_spec n2 0); [|lia].
      exists v, [cap; - n1]. exact E. }
    split.
    + destruct (Hall tokens) as [v [E _]].
      destruct (Z.ltb_spec n1 0); [|lia].
      destruct (Z.ltb_spec n2 0); [|lia].
      exists v. exact E.
    + intros fuel e config Hl Hm. split.
      * exact (startInference_tokenize_failure B fuel e prompt config
                 Hl Hm Hfail).
      * exact (startInferenceIncremental_tokenize_failure B fuel e prompt
                 config Hl Hm Hfail).
Qed.

Lemma tokenizePrompt_retries_once_witness :
  (exists v,
     tokenizePrompt plain "hello" [] = Returns (true, v, [37]) /\
     size v = 6) /\
  (exists v,
     tokenizePrompt (toy wide_tokenizer true true) "hi" []
       = Returns (true, v, [34; 81]) /\
     size v = 81) /\
  (exists v,
     tokenizePrompt (toy greedy_tokenizer true true) "hi" []
       = Returns (false, v, [34; 35])) /\
  (exists e',
     startInference (toy greedy_tokenizer true true) 8
       (engine_after_load (toy greedy_tokenizer true true) 0 default_config)
       "hi" default_config = Returns (false, e') /\
     is_generating_ e' = false).
Proof.
  split; [|split; [|split]].
  - apply (tokenizePrompt_retries_once plain "hello" []).
    + vm_compute. discriminate.
    + vm_compute. discriminate.
  - apply (tokenizePrompt_retries_once (toy wide_tokenizer true true)
             "hi" []).
    + vm_compute. discriminate.
    + vm_compute. reflexivity.
    + vm_compute. discriminate.
  - apply (tokenizePrompt_retries_once (toy greedy_tokenizer true true)
             "hi" []).
    + vm_compute. discriminate.
    + vm_compute. reflexivity.
    + vm_compute. reflexivity.
  - apply (tokenizePrompt_retries_once (toy greedy_tokenizer true true)
             "hi" []).
    + vm_compute. discriminate.
    + vm_compute. reflexivity.
    + vm_compute. reflexivity.
    + reflexivity.
    + reflexivity.
Defined.


(** C1, counterexample to the upper bound: a fresh engine satisfies the invariant;
    after [startInference] with a window of 8 tokens and a prompt of 12
    tokens, history holds 12 tokens, whether the backend accepts the
    prompt (the call returns true) or rejects it (the call returns
    false). *)
Lemma window_capacity_not_enforced :
  let rejecting := toy byte_tokenizer false true in
  window_invariant plain (engine_after_load plain 0 small_window) /\
  (exists e',
     startInference plain 16 (engine_after_load plain 0 small_window)
       "hello world" small_window = Returns (true, e') /\
     size (tokens_ e') = 12 /\
     context_length (current_config_ e') = 8 /\
     ~ window_invariant plain e') /\
  (exists e',
     startInference rejecting 16
       (engine_after_load rejecting 0 small_window)
       "hello world" small_window = Returns (false, e') /\
     size (tokens_ e') = 12 /\
     context_length (current_config_ e') = 8 /\
     ~ window_invariant rejecting e').
Proof.
  cbv zeta. split; [|split].
  - unfold window_invariant. simpl. unfold size. simpl. lia.
  - eexists. split; [vm_compute; reflexivity|].
    split; [reflexivity|]. split; [reflexivity|].
    unfold window_invariant. simpl. unfold size. simpl. lia.
  - eexists. split; [vm_compute; reflexivity|].
    split; [reflexivity|]. split; [reflexivity|].
    unfold window_invariant. simpl. unfold size. simpl. lia.
Qed.

(** C1, the half that holds: the committed count never exceeds the length of
    history.  This holds for a freshly loaded engine and is kept by
    every public operation that returns, whatever the backend answers
    and whether the operation reports success or failure.  (No
    operation compares the length of history with the window
    capacity.) *)
Theorem committed_within_history_preserved :
  forall (B : Backend) (fuel : nat),
    (forall c config,
       committed_within_history B (engine_after_load B c config)) /\
    (forall (call : Call) (e e' : Engine B),
       int_argument call ->
       committed_within_history B e ->
       run B fuel call e = Returns e' ->
       committed_within_history B e').
Proof.
  intros B fuel. split.
  - intros c config. unfold committed_within_history, INT_MIN, size.
    simpl. lia.
  - intros call e e' Harg Hinv Hrun.
    destruct call as [prompt config|prompt config| |count|keep|];
      simpl in Hrun.
    + destruct (startInference B fuel e prompt config)
        as [[ok e1]|f] eqn:E; simpl in Hrun; [|discriminate].
      injection Hrun as <-.
      exact (startInference_within_history B fuel e e1 prompt config ok
               Hinv E).
    + destruct (startInferenceIncremental B fuel e prompt config)
        as [[ok e1]|f] eqn:E; simpl in Hrun; [|discriminate].
      injection Hrun as <-.
      exact (startInferenceIncremental_within_history B fuel e e1 prompt
               config ok Hinv E).
    + destruct (getNextToken B fuel e) as [[text e1]|f] eqn:E;
        simpl in Hrun; [|discriminate].
      injection Hrun as <-.
      exact (getNextToken_within_history B fuel e e1 text Hinv E).
    + destruct (getNextTokens B fuel e count) as [[texts e1]|f] eqn:E;
        simpl in Hrun; [|discriminate].
      injection Hrun as <-.
      unfold getNextTokens in E.
      destruct (count <? 0); [discriminate|].
      exact (getNextTokens_loop_within_history B fuel _ e e1 [] texts
               Hinv E).
    + simpl in Harg.
      exact (shiftContext_within_history B e e' keep (proj1 Harg)
               Hinv Hrun).
    + exact (clearCache_within_history B e e' Hrun).
Qed.

Lemma committed_within_history_preserved_witness :
  exists e',
    run plain 8 (CallShiftContext 1) three_committed = Returns e' /\
    committed_within_history plain e'.
Proof.
  eexists. split; [vm_compute; reflexivity|].
  apply (proj2 (committed_within_history_preserved plain 8)
           (CallShiftContext 1) three_committed).
  - simpl. unfold INT_MIN, INT_MAX. lia.
  - unfold committed_within_history, INT_MIN, size. simpl. lia.
  - vm_compute. reflexivity.
Defined.

(** C4: a synchronous step that finds the committed count at
    [context_length - 1] or beyond, or the generated count at
    [max_tokens] or beyond, returns the empty string and leaves
    generation (is_generating_ becomes false; nothing else changes).
    Scenario A: with a window of 2048, a prompt of 10 tokens and at most
    5 output tokens, on a backend that accepts every batch and never
    samples an end-of-generation token, the session starts with 10
    tokens committed; five pulls yield five tokens and generation is
    still on; any larger pull yields exactly five tokens, ends with 15
    tokens committed and generation off. *)
Theorem generation_limits_scenario_A :
  (forall (B : Backend) (fuel : nat) (e : Engine B),
     mutex_ e = false ->
     context_length (current_config_ e) - 1 <= n_past_ e \/
     max_tokens (current_config_ e) <= generated_tokens (stats_ e) ->
     getNextToken B fuel e
       = Returns (EmptyString, set_is_generating B false e)) /\
  (forall (B : Backend) (fuel : nat) (e : Engine B) (prompt : string)
          (config : InferenceConfig),
     loaded e = true ->
     mutex_ e = false ->
     context_length config = 2048 ->
     max_tokens config = 5 ->
     1 <= batch_size config ->
     (10 <= fuel)%nat ->
     0 <= wrap_int (Z.of_nat (String.length prompt) + 32) ->
     fst (llama_tokenize B prompt
            (wrap_int (Z.of_nat (String.length prompt) + 32))) = 10 ->
     (forall c b, fst (llama_decode B c b) = 0) ->
     (forall c, llama_vocab_is_eog B (llama_sampler_sample B c) = false) ->
     exists e0,
       startInference B fuel e prompt config = Returns (true, e0) /\
       n_past_ e0 = 10 /\
       size (tokens_ e0) = 10 /\
       is_generating_ e0 = true /\
       (exists texts e5,
          getNextTokens B fuel e0 5 = Returns (texts, e5) /\
          List.length texts = 5%nat /\
          n_past_ e5 = 15 /\
          is_generating_ e5 = true) /\
       (forall count,
          5 < count ->
          exists texts e',
            getNextTokens B fuel e0 count = Returns (texts, e') /\
            List.length texts = 5%nat /\
            n_past_ e' = 15 /\
            size (tokens_ e') = 15 /\
            generated_tokens (stats_ e') = 5 /\
            is_generating_ e' = false)).
Proof.
  split.
  - intros B fuel e. apply getNextToken_at_limit.
  - intros B fuel e prompt config Hl Hm Hctx Hmax Hb Hfuel Hcap Htok
           Hdec Heog.
    destruct (startInference_enters_generation B fuel e prompt config 10
                Hl Hm Hcap Htok) as [e0 [Hstart He0]];
      try assumption; try (unfold INT_MAX; lia).
    exists e0. split; [exact Hstart|].
    pose proof He0 as [_ [_ [Hg0 [_ [_ [Hn0 [Ht0 _]]]]]]].
    split; [exact Hn0|]. split; [exact Ht0|]. split; [exact Hg0|].
    destruct (getNextTokens_loop_runs B fuel config Hdec Heog 5 e0 []
                10 0 He0) as [texts [e5 [Hlen [He5 Hloop]]]];
      try (rewrite ?Hctx, ?Hmax; simpl; lia).
    simpl in He5.
    pose proof He5 as [Hl5 [Hm5 [Hg5 [Hs5 [Hc5 [Hn5 [Ht5 Hgen5]]]]]]].
    split.
    + exists texts, e5. split.
      * unfold getNextTokens.
        change (5 <? 0) with false. cbv iota.
        change (Z.to_nat 5) with (5 + 0)%nat.
        rewrite Hloop. reflexivity.
      * repeat split; assumption.
    + intros count Hcount.
      exists texts, (set_is_generating B false e5).
      split.
      * unfold getNextTokens.
        destruct (Z.ltb_spec count 0); [lia|].
        replace (Z.to_nat count) with (5 + S (Z.to_nat count - 6))%nat
          by lia.
        rewrite Hloop. cbn [getNextTokens_loop].
        rewrite Hg5, Hs5, Hc5, Hn5, Hctx. simpl.
        rewrite (getNextToken_at_limit B fuel e5 Hm5);
          [reflexivity|].
        right. rewrite Hc5, Hmax, Hgen5. lia.
      * simpl. repeat split; assumption.
Qed.

Lemma generation_limits_scenario_A_witness :
  exists e0,
    startInference plain 10 (engine_after_load plain 0 scenario_A_config)
      "123456789" scenario_A_config = Returns (true, e0) /\
    n_past_ e0 = 10 /\
    size (tokens_ e0) = 10 /\
    is_generating_ e0 = true /\
    (exists texts e5,
       getNextTokens plain 10 e0 5 = Returns (texts, e5) /\
       List.length texts = 5%nat /\
       n_past_ e5 = 15 /\
       is_generating_ e5 = true) /\
    (forall count,
       5 < count ->
       exists texts e',
         getNextTokens plain 10 e0 count = Returns (texts, e') /\
         List.length texts = 5%nat /\
         n_past_ e' = 15 /\
         size (tokens_ e') = 15 /\
         generated_tokens (stats_ e') = 5 /\
         is_generating_ e' = false).
Proof.
  apply (proj2 generation_limits_scenario_A plain 10%nat
           (engine_after_load plain 0 scenario_A_config)
           "123456789"%string scenario_A_config).
  - reflexivity.
  - reflexivity.
  - reflexivity.
  - reflexivity.
  - simpl. lia.
  - lia.
  - vm_compute. discriminate.
  - vm_compute. reflexivity.
  - intros c b. reflexivity.
  - intros c. change ((97 + c mod 26 =? 2) = false). apply Z.eqb_neq.
    pose proof (Z.mod_pos_bound c 26). lia.
Defined.

End InferenceEngineFacts.

(* ================================================================== *)
(** ** Sessions: how the operations of the engine compose *)

Module SessionFacts.
Import Machine MachineFacts InferenceEngine Fixtures InferenceEngineFacts.
Import Lifecycle MoreFixtures.

Section WithBackend.
Variable B : Backend.
Variable fuel : nat.

Lemma shiftContext_returns_cases (e e' : Engine B) (keep : Z) :
  shiftContext B e keep = Returns e' ->
  e' = e \/ (keep < n_past_ e /\ mutex_ e = false /\ loaded e = true).
Proof.
  intros Hrun.
  destruct (Z.le_gt_cases (n_past_ e) keep) as [Hle|Hgt].
  - rewrite (shiftContext_noop B e keep Hle) in Hrun.
    injection Hrun as <-. left. reflexivity.
  - right. split; [lia|].
    destruct (loaded e) eqn:Hl;
      [|exfalso; exact (shiftContext_stuck_unloaded B e keep Hgt Hl e' Hrun)].
    destruct (mutex_ e) eqn:Hm; [|split; reflexivity].
    rewrite (shiftContext_relock B e keep) in Hrun by (assumption || lia).
    discriminate.
Qed.

Lemma shiftContext_keeps_flags (e e' : Engine B) (keep : Z) :
  shiftContext B e keep = Returns e' ->
  is_generating_ e' = is_generating_ e /\
  stop_requested_ e' = stop_requested_ e /\
  stats_ e' = stats_ e /\
  current_config_ e' = current_config_ e.
Proof.
  intros Hrun.
  destruct (shiftContext_returns_cases e e' keep Hrun)
    as [->|[Hlt [Hm Hl]]]; [repeat split|].
  destruct (shiftContext_shifts B e keep Hlt Hm Hl)
    as [e'' [Hrun' [_ [_ [_ [_ [_ [Hg [Hs [Hst Hc]]]]]]]]]].
  rewrite Hrun' in Hrun. injection Hrun as <-.
  repeat split; assumption.
Qed.

(** The two ways a step can end: generation is over and nothing was
    generated, or one more token was generated and generation goes on. *)
Lemma getNextToken_cases (e e' : Engine B) (text : string) :
  getNextToken B fuel e = Returns (text, e') ->
  (is_generating_ e' = false /\ text = EmptyString /\
   generated_tokens (stats_ e') = generated_tokens (stats_ e)) \/
  (is_generating_ e = true /\ stop_requested_ e = false /\
   is_generating_ e' = true /\ stop_requested_ e' = false /\
   generated_tokens (stats_ e') = generated_tokens (stats_ e) + 1).
Proof.
  intros H. unfold getNextToken in H.
  destruct (is_generating_ e) eqn:Hg; simpl in H;
    [|injection H as <- <-; left; repeat split].
  destruct (stop_requested_ e) eqn:Hs; simpl in H;
    [injection H as <- <-; left; repeat split|].
  apply lock_guard_returns in H. destruct H as [_ [e1 [Hb ->]]].
  destruct (n_past_ (set_mutex B true e)
            >=? context_length (current_config_ (set_mutex B true e)) - 1).
  { injection Hb as <- <-. left. repeat split. }
  destruct (generated_tokens (stats_ (set_mutex B true e))
            >=? max_tokens (current_config_ (set_mutex B true e))).
  { injection Hb as <- <-. left. repeat split. }
  destruct (negb (loaded (set_mutex B true e))); [discriminate|].
  unfold sampleNextToken in Hb.
  destruct (llama_vocab_is_eog B
              (llama_sampler_sample B (ctx_ (set_mutex B true e)))).
  { injection Hb as <- <-. left. repeat split. }
  match type of Hb with
  | bind ?m _ = _ => destruct m as [[ok e2]|f] eqn:Ev
  end; simpl in Hb; [|discriminate].
  apply evaluateTokens_state in Ev. destruct Ev as [c' ->].
  destruct ok; simpl in Hb; injection Hb as <- <-.
  - right. simpl. repeat split; assumption.
  - left. repeat split.
Qed.

Lemma getNextTokens_loop_counts (remaining : nat) :
  forall (e e' : Engine B) (acc result : list string),
    getNextTokens_loop B fuel remaining e acc = Returns (result, e') ->
    exists new,
      result = acc ++ new /\
      (List.length new <= remaining)%nat /\
      generated_tokens (stats_ e')
        = generated_tokens (stats_ e) + Z.of_nat (List.length new).
Proof.
  induction remaining as [|k IH]; intros e e' acc result H.
  - simpl in H. injection H as <- <-. exists [].
    rewrite app_nil_r. simpl. repeat split; lia.
  - simpl in H.
    destruct (is_generating_ e && negb (stop_requested_ e)).
    + match type of H with
      | bind ?m _ = _ => destruct m as [e1|f] eqn:Hs
      end; simpl in H; [|discriminate].
      assert (Hst : stats_ e1 = stats_ e).
      { destruct (n_past_ e >=? context_length (current_config_ e) - 16).
        - apply shiftContext_keeps_flags in Hs. tauto.
        - injection Hs as <-. reflexivity. }
      destruct (getNextToken B fuel e1) as [[token e2]|f] eqn:Hg;
        simpl in H; [|discriminate].
      destruct (getNextToken_cases e1 e2 token Hg)
        as [[Hoff [Htext Hgen]]|[_ [_ [Hon [_ Hgen]]]]].
      * subst token. rewrite Hoff in H. simpl in H.
        injection H as <- <-. exists [].
        rewrite app_nil_r. simpl. rewrite Hgen, Hst.
        repeat split; lia.
      * rewrite Hon in H. rewrite andb_false_r in H.
        destruct (IH e2 e' _ result H) as [new [Hres [Hlen Hgen']]].
        exists (token :: new). rewrite <- app_assoc in Hres.
        split; [exact Hres|]. simpl. rewrite Hgen', Hgen, Hst.
        split; lia.
    + injection H as <- <-. exists [].
      rewrite app_nil_r. simpl. repeat split; lia.
Qed.

Lemma stopGeneration_twice (e : Engine B) :
  stopGeneration B (stopGeneration B e) = stopGeneration B e.
Proof. destruct e. reflexivity. Qed.

Lemma getNextToken_when_stopped (e : Engine B) :
  getNextToken B fuel (stopGeneration B e)
    = Returns (EmptyString, stopGeneration B e).
Proof. destruct e. reflexivity. Qed.

Lemma startInferenceIncremental_run (e : Engine B) (prompt : string)
      (config : InferenceConfig) (v : list llama_token) (calls : list Z) :
  loaded e = true ->
  mutex_ e = false ->
  tokenizePrompt B prompt [] = Returns (true, v, calls) ->
  wrap_int (size v) <= context_length config - n_past_ e - 32 \/
  n_past_ e <= 64 ->
  (forall c b, fst (llama_decode B c b) = 0) ->
  1 <= batch_size config ->
  wrap_int (size v) <= Z.of_nat fuel ->
  exists e',
    startInferenceIncremental B fuel e prompt config = Returns (true, e') /\
    started B e e' config (tokens_ e ++ v) (wrap_int (n_past_ e + size v))
      (size v).
Proof.
  intros Hl Hm Htok Hfit Hdec Hb Hfuel.
  unfold startInferenceIncremental, isModelLoaded, lock_guard.
  rewrite Hl. simpl.
  destruct (is_generating_ e) eqn:Hg; simpl; rewrite Hm; simpl;
    rewrite Htok; simpl.
  - assert (Hshift :
      (if wrap_int (size v) >? context_length config - n_past_ e - 32
       then shiftContext B
              (initSampler B config
                 (set_config B config
                    (set_stop_requested B false
                       (set_mutex B true
                          (set_is_generating B false
                             (set_stop_requested B true e)))))) 64
       else Returns
              (initSampler B config
                 (set_config B config
                    (set_stop_requested B false
                       (set_mutex B true
                          (set_is_generating B false
                             (set_stop_requested B true e)))))))
      = Returns
          (initSampler B config
             (set_config B config
                (set_stop_requested B false
                   (set_mutex B true
                      (set_is_generating B false
                         (set_stop_requested B true e))))))).
    { destruct (Z.gtb_spec (wrap_int (size v))
                  (context_length config - n_past_ e - 32));
        [|reflexivity].
      apply shiftContext_noop. simpl. lia. }
    rewrite Hshift. simpl.
    match goal with
    | |- context [evaluateTokens B fuel ?e2 ?t ?p ?k] =>
        destruct (evaluateTokens_succeeds B fuel e2 t p k Hdec Hb Hfuel)
          as [c' Ev]
    end.
    rewrite Ev. simpl.
    eexists. split; [reflexivity|].
    unfold started. simpl. rewrite int_add_size_eq.
    repeat split; assumption.
  - assert (Hshift :
      (if wrap_int (size v) >? context_length config - n_past_ e - 32
       then shiftContext B
              (initSampler B config
                 (set_config B config
                    (set_stop_requested B false (set_mutex B true e)))) 64
       else Returns
              (initSampler B config
                 (set_config B config
                    (set_stop_requested B false (set_mutex B true e)))))
      = Returns
          (initSampler B config
             (set_config B config
                (set_stop_requested B false (set_mutex B true e))))).
    { destruct (Z.gtb_spec (wrap_int (size v))
                  (context_length config - n_past_ e - 32));
        [|reflexivity].
      apply shiftContext_noop. simpl. lia. }
    rewrite Hshift. simpl.
    match goal with
    | |- context [evaluateTokens B fuel ?e2 ?t ?p ?k] =>
        destruct (evaluateTokens_succeeds B fuel e2 t p k Hdec Hb Hfuel)
          as [c' Ev]
    end.
    rewrite Ev. simpl.
    eexists. split; [reflexivity|].
    unfold started. simpl. rewrite int_add_size_eq.
    repeat split; assumption.
Qed.

Lemma startInference_run (e : Engine B) (prompt : string)
      (config : InferenceConfig) (v : list llama_token) (calls : list Z) :
  loaded e = true ->
  mutex_ e = false ->
  tokenizePrompt B prompt [] = Returns (true, v, calls) ->
  (forall c b, fst (llama_decode B c b) = 0) ->
  1 <= batch_size config ->
  wrap_int (size v) <= Z.of_nat fuel ->
  exists e',
    startInference B fuel e prompt config = Returns (true, e') /\
    started B e e' config v (wrap_int (size v)) (size v).
Proof.
  intros Hl Hm Htok Hdec Hb Hfuel.
  unfold startInference, isModelLoaded, lock_guard.
  rewrite Hl. simpl.
  destruct (is_generating_ e) eqn:Hg; simpl; rewrite Hm; simpl;
    rewrite Htok; simpl;
    match goal with
    | |- context [clear_memory B ?x] =>
        destruct (clear_memory_state B x) as [c0 Hc0]; rewrite Hc0
    end; simpl;
    match goal with
    | |- context [evaluateTokens B fuel ?e2 ?t ?p ?k] =>
        destruct (evaluateTokens_succeeds B fuel e2 t p k Hdec Hb Hfuel)
          as [c' Ev]
    end;
    rewrite Ev; simpl;
    eexists; (split; [reflexivity|]);
    unfold started; simpl; repeat split; assumption.
Qed.

Lemma clearCache_run (e : Engine B) :
  loaded e = true ->
  mutex_ e = false ->
  exists e1,
    clearCache B e = Returns e1 /\
    loaded e1 = true /\ mutex_ e1 = false /\
    tokens_ e1 = [] /\ n_past_ e1 = 0 /\ current_pos_ e1 = 0 /\
    is_generating_ e1 = is_generating_ e /\
    stop_requested_ e1 = stop_requested_ e /\
    stats_ e1 = stats_ e /\
    current_config_ e1 = current_config_ e.
Proof.
  intros Hl Hm. unfold clearCache, lock_guard. rewrite Hm. simpl.
  rewrite Hl. simpl.
  destruct (clear_memory_state B (set_mutex B true e)) as [c0 Hc0].
  rewrite Hc0. simpl.
  eexists. split; [reflexivity|]. simpl. repeat split; assumption.
Qed.

Lemma started_agree (e0 e0' e2 e3 : Engine B) (config : InferenceConfig)
      (history : list llama_token) (committed prompt_size : Z) :
  total_tokens (stats_ e0) = total_tokens (stats_ e0') ->
  started B e0 e2 config history committed prompt_size ->
  started B e0' e3 config history committed prompt_size ->
  set_ctx B (ctx_ e3) e2 = e3.
Proof.
  intros Ht [A1 [A2 [A3 [A4 [A5 [A6 [A7 [A8 A9]]]]]]]]
         [C1 [C2 [C3 [C4 [C5 [C6 [C7 [C8 C9]]]]]]]].
  destruct e2, e3. simpl in *. subst. rewrite Ht. reflexivity.
Qed.



Lemma token_calls_app (a b : list (string * bool)) :
  token_calls (a ++ b) = token_calls a ++ token_calls b.
Proof. unfold token_calls. apply filter_app. Qed.

Lemma generate_loop_delivers (cb : TokenCallback) (bound : nat) :
  forall (e e' : Engine B) (calls calls' : list (string * bool)),
    generate_loop B fuel bound (Some cb) e calls = Returns (e', calls') ->
    token_calls calls = calls ->
    (calls' = token_calls calls' \/
     calls' = token_calls calls' ++ [(EmptyString, true)]) /\
    Z.of_nat (List.length (token_calls calls'))
    - Z.of_nat (List.length calls)
    = generated_tokens (stats_ e') - generated_tokens (stats_ e).
Proof.
  induction bound as [|k IH]; intros e e' calls calls' H Hcalls.
  - simpl in H.
    destruct (is_generating_ e && negb (stop_requested_ e));
      [discriminate|].
    injection H as <- <-. rewrite Hcalls. split; [left; reflexivity|lia].
  - simpl in H.
    destruct (is_generating_ e && negb (stop_requested_ e)).
    + destruct (getNextToken B fuel e) as [[token e1]|f] eqn:Hg;
        simpl in H; [|discriminate].
      destruct (getNextToken_cases e e1 token Hg)
        as [[Hoff [Htext Hgen]]|[_ [_ [Hon [_ Hgen]]]]].
      * subst token. rewrite Hoff in H. simpl in H.
        injection H as <- <-.
        rewrite token_calls_app, Hcalls. simpl. rewrite app_nil_r.
        split; [right; reflexivity|lia].
      * rewrite Hon in H. rewrite andb_false_r in H.
        assert (Hcalls1 : token_calls (calls ++ [(token, false)])
                          = calls ++ [(token, false)]).
        { rewrite token_calls_app, Hcalls. reflexivity. }
        destruct (cb calls token false); simpl in H.
        -- destruct (IH e1 e' _ calls' H Hcalls1) as [Hshape Hcount].
           split; [exact Hshape|].
           rewrite length_app in Hcount. simpl in Hcount. lia.
        -- injection H as <- <-. rewrite Hcalls1.
           split; [left; reflexivity|].
           rewrite length_app. simpl. lia.
    + injection H as <- <-. rewrite Hcalls. split; [left; reflexivity|lia].
Qed.

Lemma startInference_resets_generated (e e' : Engine B) (prompt : string)
      (config : InferenceConfig) :
  startInference B fuel e prompt config = Returns (true, e') ->
  generated_tokens (stats_ e') = 0.
Proof.
  intros H. unfold startInference in H.
  destruct (negb (isModelLoaded B e)); [discriminate|].
  apply lock_guard_returns in H. destruct H as [_ [e1 [Hb ->]]].
  match type of Hb with
  | bind ?m _ = _ => destruct m as [[[ok1 toks] calls]|f] eqn:Ht
  end; simpl in Hb; [|discriminate].
  destruct ok1; simpl in Hb; [|discriminate].
  match type of Hb with
  | bind ?m _ = _ => destruct m as [[ok2 e2]|f] eqn:Ev
  end; simpl in Hb; [|discriminate].
  apply evaluateTokens_state in Ev. destruct Ev as [c' ->].
  destruct ok2; simpl in Hb; [|discriminate].
  injection Hb as <-. reflexivity.
Qed.

Lemma wait_while_generating_spins (bound : nat) (e : Engine B) :
  is_generating_ e = true ->
  wait_while_generating B bound e = Stuck OutOfFuel.
Proof.
  intros Hg. induction bound as [|k IH]; simpl; rewrite Hg;
    [reflexivity | exact IH].
Qed.

Lemma wait_while_generating_passes (bound : nat) (e : Engine B) :
  is_generating_ e = false ->
  wait_while_generating B bound e = Returns e.
Proof. intros Hg. destruct bound; simpl; rewrite Hg; reflexivity. Qed.

Lemma unloadModel_run (e : Engine B) :
  is_generating_ e = false ->
  mutex_ e = false ->
  unloadModel B fuel e =
    Returns (mkEngine B false (ctx_ e) false false false [] 0 0
               (stats_ e) (current_config_ e)).
Proof.
  intros Hg Hm. unfold unloadModel.
  rewrite wait_while_generating_passes by exact Hg.
  simpl. unfold lock_guard. simpl. rewrite Hm. simpl.
  unfold set_loaded. simpl. rewrite Hg. reflexivity.
Qed.

Lemma unloadModel_never_returns_under_lock (e : Engine B) :
  mutex_ e = true ->
  exists f, unloadModel B fuel e = Stuck f.
Proof.
  intros Hm. unfold unloadModel.
  destruct (is_generating_ e) eqn:Hg.
  - rewrite wait_while_generating_spins by exact Hg.
    exists OutOfFuel. reflexivity.
  - rewrite wait_while_generating_passes by exact Hg.
    simpl. unfold lock_guard. simpl. rewrite Hm.
    exists SelfDeadlock. reflexivity.
Qed.

Lemma loadModel_stuck_when_loaded (L : Loader B) (x : Instance B)
      (model_path : string) (config : InferenceConfig) :
  loaded (core x) = true ->
  exists f, loadModel B fuel L x model_path config = Stuck f.
Proof.
  intros Hl. unfold loadModel, lock_guard.
  destruct (mutex_ (core x)) eqn:Hm.
  - exists SelfDeadlock. reflexivity.
  - simpl. rewrite Hl.
    destruct (unloadModel_never_returns_under_lock
                (set_mutex B true (core x))) as [f Hf]; [reflexivity|].
    rewrite Hf. exists f. reflexivity.
Qed.

Lemma loadModel_run_ok (L : Loader B) (x : Instance B)
      (model_path : string) (config : InferenceConfig) (c : context B) :
  loaded (core x) = false ->
  mutex_ (core x) = false ->
  llama_model_load_from_file B L model_path config = true ->
  llama_init_from_model B L model_path config = Some c ->
  loadModel B fuel L x model_path config =
    Returns
      (true,
       mkInstance B
         (mkEngine B true (sampler_chain_init B config c)
            (is_generating_ (core x)) (stop_requested_ (core x)) false
            (tokens_ (core x)) (current_pos_ (core x)) (n_past_ (core x))
            (stats_ (core x)) config)
         model_path).
Proof.
  intros Hl Hm Hload Hinit.
  unfold loadModel, lock_guard. rewrite Hm. simpl. rewrite Hl. simpl.
  rewrite Hload, Hinit. reflexivity.
Qed.

Lemma generate_loop_within_history (callback : option TokenCallback)
      (bound : nat) :
  forall (e e' : Engine B) (calls calls' : list (string * bool)),
    committed_within_history B e ->
    generate_loop B fuel bound callback e calls = Returns (e', calls') ->
    committed_within_history B e'.
Proof.
  induction bound as [|k IH]; intros e e' calls calls' Hinv H.
  - simpl in H.
    destruct (is_generating_ e && negb (stop_requested_ e));
      [discriminate|].
    injection H as <- _. exact Hinv.
  - simpl in H.
    destruct (is_generating_ e && negb (stop_requested_ e)).
    + destruct (getNextToken B fuel e) as [[token e1]|f] eqn:Hg;
        simpl in H; [|discriminate].
      pose proof (getNextToken_within_history B fuel e e1 token Hinv Hg)
        as Hinv1.
      destruct (empty token && negb (is_generating_ e1)).
      * destruct callback; injection H as <- _; exact Hinv1.
      * destruct callback as [cb|].
        -- destruct (cb calls token false); simpl in H.
           ++ exact (IH e1 e' _ calls' Hinv1 H).
           ++ injection H as <- _. exact Hinv1.
        -- exact (IH e1 e' _ calls' Hinv1 H).
    + injection H as <- _. exact Hinv.
Qed.

Lemma loadModel_keeps_window (L : Loader B) (x x' : Instance B)
      (model_path : string) (config : InferenceConfig) (ok : bool) :
  loadModel B fuel L x model_path config = Returns (ok, x') ->
  tokens_ (core x') = tokens_ (core x) /\
  n_past_ (core x') = n_past_ (core x).
Proof.
  intros H.
  destruct (loaded (core x)) eqn:Hl.
  { destruct (loadModel_stuck_when_loaded L x model_path config Hl)
      as [f Hf]. rewrite Hf in H. discriminate. }
  unfold loadModel, lock_guard in H.
  destruct (mutex_ (core x)) eqn:Hm; [discriminate|].
  simpl in H. rewrite Hl in H. simpl in H.
  destruct (llama_model_load_from_file B L model_path config); simpl in H.
  - destruct (llama_init_from_model B L model_path config); simpl in H;
      injection H as _ <-; split; reflexivity.
  - injection H as _ <-. split; reflexivity.
Qed.

End WithBackend.


(** X1: a batch pull returns at most [count] strings, and the number of
    strings it returns is exactly the growth of the generated-token
    counter, whatever the backend does and whether or not the window
    was shifted on the way. *)
Theorem getNextTokens_counts :
  forall (B : Backend) (fuel : nat) (e e' : Engine B) (count : Z)
         (texts : list string),
    getNextTokens B fuel e count = Returns (texts, e') ->
    Z.of_nat (List.length texts) <= count /\
    generated_tokens (stats_ e')
      = generated_tokens (stats_ e) + Z.of_nat (List.length texts).
Proof.
  intros B fuel e e' count texts H. unfold getNextTokens in H.
  destruct (Z.ltb_spec count 0); [discriminate|].
  destruct (getNextTokens_loop_counts B fuel _ e e' [] texts H)
    as [new [Hres [Hlen Hgen]]].
  simpl in Hres. subst new. split; [lia|exact Hgen].
Qed.

Lemma getNextTokens_counts_witness :
  exists texts e',
    getNextTokens plain 4 (generating_on plain 3 default_config [1; 104; 105] 0) 3
      = Returns (texts, e') /\
    Z.of_nat (List.length texts) <= 3 /\
    generated_tokens (stats_ e') = 0 + Z.of_nat (List.length texts).
Proof.
  eexists. eexists. split; [vm_compute; reflexivity|].
  apply (getNextTokens_counts plain 4
           (generating_on plain 3 default_config [1; 104; 105] 0)).
  vm_compute. reflexivity.
Defined.

(** X2: stopping is idempotent, and once generation is stopped a pull
    of any size returns nothing and leaves the engine, the backend
    context included, exactly as [stopGeneration] left it. *)
Theorem stopGeneration_silences_pulls :
  forall (B : Backend) (fuel : nat) (e : Engine B) (count : Z),
    0 <= count ->
    stopGeneration B (stopGeneration B e) = stopGeneration B e /\
    getNextToken B fuel (stopGeneration B e)
      = Returns (EmptyString, stopGeneration B e) /\
    getNextTokens B fuel (stopGeneration B e) count
      = Returns ([], stopGeneration B e).
Proof.
  intros B fuel e count Hc.
  split; [apply stopGeneration_twice|].
  split; [apply getNextToken_when_stopped|].
  unfold getNextTokens. destruct (Z.ltb_spec count 0); [lia|].
  destruct (Z.to_nat count); destruct e; reflexivity.
Qed.

Lemma stopGeneration_silences_pulls_witness :
  getNextTokens plain 4
    (stopGeneration plain
       (generating_on plain 3 default_config [1; 104; 105] 0)) 4
  = Returns ([], stopGeneration plain
                   (generating_on plain 3 default_config [1; 104; 105] 0)).
Proof.
  apply (stopGeneration_silences_pulls plain 4
           (generating_on plain 3 default_config [1; 104; 105] 0) 4).
  lia.
Defined.

(** X3: when the backend rejects the batch of a freshly sampled token,
    the step returns the empty string and ends generation; the token has
    already been appended to history but is not committed, so history is
    one token longer than the committed count. *)
Theorem getNextToken_rejected_token_stays :
  forall (B : Backend) (fuel : nat) (config : InferenceConfig) (n g : Z)
         (e : Engine B),
    generating_at B config n g e ->
    n < context_length config - 1 ->
    g < max_tokens config ->
    llama_vocab_is_eog B (llama_sampler_sample B (ctx_ e)) = false ->
    fst (llama_decode B
           (llama_sampler_accept B (ctx_ e) (llama_sampler_sample B (ctx_ e)))
           (batch_get_one (llama_sampler_sample B (ctx_ e)))) <> 0 ->
    exists e',
      getNextToken B fuel e = Returns (EmptyString, e') /\
      is_generating_ e' = false /\
      tokens_ e' = tokens_ e ++ [llama_sampler_sample B (ctx_ e)] /\
      n_past_ e' = n /\
      size (tokens_ e') = n_past_ e' + 1 /\
      generated_tokens (stats_ e') = g.
Proof.
  intros B fuel config n g e
         [Hl [Hm [Hg [Hs [Hc [Hn [Ht Hgen]]]]]]] Hroom Hleft Heog Hrej.
  unfold getNextToken, lock_guard. rewrite Hg, Hs, Hm. simpl.
  rewrite Hc, Hn, Hgen, Hl.
  destruct (Z.geb_spec n (context_length config - 1)); [lia|].
  destruct (Z.geb_spec g (max_tokens config)); [lia|].
  simpl. rewrite Heog.
  unfold evaluateTokens. simpl.
  destruct (llama_decode B
              (llama_sampler_accept B (ctx_ e)
                 (llama_sampler_sample B (ctx_ e)))
              (batch_get_one (llama_sampler_sample B (ctx_ e))))
    as [rc c1]. simpl in Hrej.
  destruct (Z.eqb_spec rc 0); [contradiction|]. simpl.
  eexists. split; [reflexivity|]. simpl.
  rewrite size_app. unfold size at 2. simpl.
  repeat split; try assumption; lia.
Qed.

Lemma getNextToken_rejected_token_stays_witness :
  let B := toy byte_tokenizer false true in
  let e := generating_on B 3 default_config [1; 104; 105] 0 in
  exists e',
    getNextToken B 4 e = Returns (EmptyString, e') /\
    is_generating_ e' = false /\
    tokens_ e' = tokens_ e ++ [llama_sampler_sample B (ctx_ e)] /\
    n_past_ e' = 3 /\
    size (tokens_ e') = n_past_ e' + 1 /\
    generated_tokens (stats_ e') = 0.
Proof.
  cbv zeta.
  apply (getNextToken_rejected_token_stays (toy byte_tokenizer false true) 4
           default_config 3 0).
  - unfold generating_at. repeat split.
  - simpl. lia.
  - simpl. lia.
  - reflexivity.
  - simpl. discriminate.
Defined.

(** X4: an incremental start whose increment does not fit in
    [context_length - committed - 32] while more than 64 tokens are
    committed calls [shiftContext] under its own lock on [mutex_];
    [shiftContext] locks the same mutex again, so the call does not
    return. *)
Theorem startInferenceIncremental_relocks_to_shift :
  forall (B : Backend) (fuel : nat) (e : Engine B) (prompt : string)
         (config : InferenceConfig) (v : list llama_token) (calls : list Z),
    loaded e = true ->
    mutex_ e = false ->
    tokenizePrompt B prompt [] = Returns (true, v, calls) ->
    64 < n_past_ e ->
    context_length config - n_past_ e - 32 < wrap_int (size v) ->
    startInferenceIncremental B fuel e prompt config = Stuck SelfDeadlock.
Proof.
  intros B fuel e prompt config v calls Hl Hm Htok Hn Hfit.
  unfold startInferenceIncremental, isModelLoaded, lock_guard.
  rewrite Hl. simpl.
  destruct (is_generating_ e) eqn:Hg; simpl; rewrite Hm; simpl;
    rewrite Htok; simpl;
    (destruct (Z.gtb_spec (wrap_int (size v))
                 (context_length config - n_past_ e - 32)); [|lia]);
    rewrite shiftContext_relock by (simpl; (lia || reflexivity));
    reflexivity.
Qed.

Lemma startInferenceIncremental_relocks_to_shift_witness :
  startInferenceIncremental plain 8 seventy_committed "hi"
    (mkConfig 100 32 256 4 true false 40 64 0) = Stuck SelfDeadlock.
Proof.
  apply (startInferenceIncremental_relocks_to_shift plain 8
           seventy_committed "hi"%string
           (mkConfig 100 32 256 4 true false 40 64 0) [1; 104; 105] [34]).
  - reflexivity.
  - reflexivity.
  - vm_compute. reflexivity.
  - simpl. lia.
  - vm_compute. reflexivity.
Defined.

(** X5: an incremental start that needs no shift (the increment fits,
    or at most 64 tokens are committed), on a backend that accepts the
    increment, appends the increment's tokens to history, advances the
    committed count by their number and enters generation with the
    generated-token counter at zero; the earlier history is kept. *)
Theorem startInferenceIncremental_appends :
  forall (B : Backend) (fuel : nat) (e : Engine B) (prompt : string)
         (config : InferenceConfig) (v : list llama_token) (calls : list Z),
    loaded e = true ->
    mutex_ e = false ->
    tokenizePrompt B prompt [] = Returns (true, v, calls) ->
    wrap_int (size v) <= context_length config - n_past_ e - 32 \/
    n_past_ e <= 64 ->
    (forall c b, fst (llama_decode B c b) = 0) ->
    1 <= batch_size config ->
    wrap_int (size v) <= Z.of_nat fuel ->
    exists e',
      startInferenceIncremental B fuel e prompt config = Returns (true, e') /\
      tokens_ e' = tokens_ e ++ v /\
      n_past_ e' = wrap_int (n_past_ e + size v) /\
      is_generating_ e' = true /\
      stop_requested_ e' = false /\
      generated_tokens (stats_ e') = 0 /\
      prompt_tokens (stats_ e') = size v /\
      current_config_ e' = config.
Proof.
  intros B fuel e prompt config v calls Hl Hm Htok Hfit Hdec Hb Hfuel.
  destruct (startInferenceIncremental_run B fuel e prompt config v calls
              Hl Hm Htok Hfit Hdec Hb Hfuel)
    as [e' [Hrun [_ [_ [Hg [Hs [Ht [Hn [_ [Hst Hc]]]]]]]]]].
  exists e'. rewrite Hst. simpl. repeat split; assumption.
Qed.

Lemma startInferenceIncremental_appends_witness :
  exists e',
    startInferenceIncremental plain 8 three_committed "hi" default_config
      = Returns (true, e') /\
    tokens_ e' = tokens_ three_committed ++ [1; 104; 105] /\
    n_past_ e' = wrap_int (n_past_ three_committed + size [1; 104; 105]) /\
    is_generating_ e' = true /\
    stop_requested_ e' = false /\
    generated_tokens (stats_ e') = 0 /\
    prompt_tokens (stats_ e') = size [1; 104; 105] /\
    current_config_ e' = default_config.
Proof.
  apply (startInferenceIncremental_appends plain 8 three_committed
           "hi"%string default_config [1; 104; 105] [34]).
  - reflexivity.
  - reflexivity.
  - vm_compute. reflexivity.
  - left. vm_compute. discriminate.
  - intros c b. reflexivity.
  - simpl. lia.
  - vm_compute. discriminate.
Defined.

(** X6: clearing the cache and then starting incrementally is a fresh
    start: on a backend that accepts the prompt, [clearCache] followed
    by [startInferenceIncremental] returns (it never needs the shift
    that would lock [mutex_] twice) and leaves the same engine as
    [startInference], up to the state inside the backend. *)
Theorem clearCache_then_incremental_is_fresh_start :
  forall (B : Backend) (fuel : nat) (e : Engine B) (prompt : string)
         (config : InferenceConfig) (v : list llama_token) (calls : list Z),
    loaded e = true ->
    mutex_ e = false ->
    tokenizePrompt B prompt [] = Returns (true, v, calls) ->
    (forall c b, fst (llama_decode B c b) = 0) ->
    1 <= batch_size config ->
    wrap_int (size v) <= Z.of_nat fuel ->
    exists e1 e2 e3,
      clearCache B e = Returns e1 /\
      startInferenceIncremental B fuel e1 prompt config
        = Returns (true, e2) /\
      startInference B fuel e prompt config = Returns (true, e3) /\
      tokens_ e2 = v /\
      n_past_ e2 = wrap_int (size v) /\
      set_ctx B (ctx_ e3) e2 = e3.
Proof.
  intros B fuel e prompt config v calls Hl Hm Htok Hdec Hb Hfuel.
  destruct (clearCache_run B e Hl Hm)
    as [e1 [Hc [Hl1 [Hm1 [Ht1 [Hn1 [_ [_ [_ [Hst1 _]]]]]]]]]].
  destruct (startInferenceIncremental_run B fuel e1 prompt config v calls
              Hl1 Hm1 Htok) as [e2 [Hinc Hs2]];
    try assumption; [right; lia|].
  destruct (startInference_run B fuel e prompt config v calls
              Hl Hm Htok Hdec Hb Hfuel) as [e3 [Hfresh Hs3]].
  rewrite Ht1, Hn1 in Hs2. simpl in Hs2.
  exists e1, e2, e3.
  split; [exact Hc|]. split; [exact Hinc|]. split; [exact Hfresh|].
  pose proof Hs2 as [_ [_ [_ [_ [Ht2 [Hn2 _]]]]]].
  split; [exact Ht2|]. split; [exact Hn2|].
  apply (started_agree B e1 e e2 e3 config v (wrap_int (size v)) (size v));
    [rewrite Hst1; reflexivity | exact Hs2 | exact Hs3].
Qed.

Lemma clearCache_then_incremental_is_fresh_start_witness :
  exists e1 e2 e3,
    clearCache plain seventy_committed = Returns e1 /\
    startInferenceIncremental plain 8 e1 "hi" default_config
      = Returns (true, e2) /\
    startInference plain 8 seventy_committed "hi" default_config
      = Returns (true, e3) /\
    tokens_ e2 = [1; 104; 105] /\
    n_past_ e2 = wrap_int (size [1; 104; 105]) /\
    set_ctx plain (ctx_ e3) e2 = e3.
Proof.
  apply (clearCache_then_incremental_is_fresh_start plain 8
           seventy_committed "hi"%string default_config [1; 104; 105] [34]).
  - reflexivity.
  - reflexivity.
  - vm_compute. reflexivity.
  - intros c b. reflexivity.
  - simpl. lia.
  - vm_compute. discriminate.
Defined.



(** X8: callback-driven generation delivers every generated token to
    the callback exactly once: when the call returns true, the number of
    non-final invocations equals the generated-token counter, the only
    other invocation is at most one final one with the empty string, made
    last, generation is off and the total is prompt plus generated.  When
    the start fails the callback is never invoked.  (The callback does
    not call back into the engine.) *)
Theorem generateWithCallback_delivers_each_token :
  forall (B : Backend) (fuel : nat) (e e' : Engine B) (prompt : string)
         (config : InferenceConfig) (cb : TokenCallback) (ok : bool)
         (calls : list (string * bool)),
    generateWithCallback B fuel e prompt config (Some cb)
      = Returns (ok, e', calls) ->
    (ok = false -> calls = []) /\
    (ok = true ->
     is_generating_ e' = false /\
     total_tokens (stats_ e')
       = prompt_tokens (stats_ e') + generated_tokens (stats_ e') /\
     Z.of_nat (List.length (token_calls calls))
       = generated_tokens (stats_ e') /\
     (calls = token_calls calls \/
      calls = token_calls calls ++ [(EmptyString, true)])).
Proof.
  intros B fuel e e' prompt config cb ok calls H.
  unfold generateWithCallback in H.
  destruct (startInference B fuel e prompt config) as [[ok0 e0]|f] eqn:Hs;
    simpl in H; [|discriminate].
  destruct ok0; simpl in H.
  - destruct (generate_loop B fuel fuel (Some cb) e0 [])
      as [[e1 calls1]|f] eqn:Hl; simpl in H; [|discriminate].
    injection H as <- <- <-.
    split; [discriminate|]. intros _.
    destruct (generate_loop_delivers B fuel cb fuel e0 e1 [] calls1 Hl)
      as [Hshape Hcount]; [reflexivity|].
    rewrite (startInference_resets_generated B fuel e e0 prompt config Hs)
      in Hcount.
    simpl. split; [reflexivity|]. split; [reflexivity|].
    split; [simpl in Hcount; lia | exact Hshape].
  - injection H as <- <- <-. split; [reflexivity|discriminate].
Qed.

Lemma generateWithCallback_delivers_each_token_witness :
  exists e' calls,
    generateWithCallback plain 10
      (engine_after_load plain 0 scenario_A_config) "123456789"
      scenario_A_config (Some stop_at_third) = Returns (true, e', calls) /\
    is_generating_ e' = false /\
    total_tokens (stats_ e')
      = prompt_tokens (stats_ e') + generated_tokens (stats_ e') /\
    Z.of_nat (List.length (token_calls calls))
      = generated_tokens (stats_ e') /\
    (calls = token_calls calls \/
     calls = token_calls calls ++ [(EmptyString, true)]).
Proof.
  eexists. eexists. split; [vm_compute; reflexivity|].
  refine (proj2 (generateWithCallback_delivers_each_token plain 10
                   (engine_after_load plain 0 scenario_A_config) _
                   "123456789"%string scenario_A_config stop_at_third
                   true _ _) eq_refl).
  vm_compute. reflexivity.
Defined.

(** X9: unloading an engine that is not generating returns with no
    model, an empty history, nothing committed and no stop request
    pending; on the unloaded engine both start operations return false
    and change nothing, and a shift is a no-op. *)
Theorem unloadModel_then_start_fails :
  forall (B : Backend) (fuel : nat) (e : Engine B) (prompt : string)
         (config : InferenceConfig),
    is_generating_ e = false ->
    mutex_ e = false ->
    exists e',
      unloadModel B fuel e = Returns e' /\
      loaded e' = false /\
      tokens_ e' = [] /\
      n_past_ e' = 0 /\
      stop_requested_ e' = false /\
      startInference B fuel e' prompt config = Returns (false, e') /\
      startInferenceIncremental B fuel e' prompt config
        = Returns (false, e') /\
      shiftContext B e' 64 = Returns e'.
Proof.
  intros B fuel e prompt config Hg Hm.
  eexists. split; [apply unloadModel_run; assumption|].
  repeat split.
Qed.

Lemma unloadModel_then_start_fails_witness :
  exists e',
    unloadModel plain 8 three_committed = Returns e' /\
    loaded e' = false /\
    tokens_ e' = [] /\
    n_past_ e' = 0 /\
    stop_requested_ e' = false /\
    startInference plain 8 e' "hi" default_config = Returns (false, e') /\
    startInferenceIncremental plain 8 e' "hi" default_config
      = Returns (false, e') /\
    shiftContext plain e' 64 = Returns e'.
Proof.
  apply (unloadModel_then_start_fails plain 8 three_committed).
  - reflexivity.
  - reflexivity.
Defined.

(** X10: [unloadModel] waits for [is_generating_] to drop and does
    nothing in the loop that could drop it: called while a synchronous
    session is generating it never gets past the wait, whatever the
    number of iterations followed.  After [stopGeneration] it returns
    and the model is gone. *)
Theorem unloadModel_waits_for_generation :
  forall (B : Backend) (fuel : nat) (e : Engine B),
    is_generating_ e = true ->
    unloadModel B fuel e = Stuck OutOfFuel /\
    (mutex_ e = false ->
     exists e',
       unloadModel B fuel (stopGeneration B e) = Returns e' /\
       loaded e' = false /\ is_generating_ e' = false).
Proof.
  intros B fuel e Hg. split.
  - unfold unloadModel.
    rewrite wait_while_generating_spins by exact Hg. reflexivity.
  - intros Hm. eexists.
    split; [apply unloadModel_run; [reflexivity|exact Hm]|].
    split; reflexivity.
Qed.

Lemma unloadModel_waits_for_generation_witness :
  let e := generating_on plain 3 default_config [1; 104; 105] 0 in
  unloadModel plain 1000 e = Stuck OutOfFuel /\
  (mutex_ e = false ->
   exists e',
     unloadModel plain 1000 (stopGeneration plain e) = Returns e' /\
     loaded e' = false /\ is_generating_ e' = false).
Proof.
  cbv zeta.
  apply (unloadModel_waits_for_generation plain 1000
           (generating_on plain 3 default_config [1; 104; 105] 0)).
  reflexivity.
Defined.

(** X11: [loadModel] holds [mutex_] while it unloads the model that is
    already there, and [unloadModel] takes the same mutex: loading a
    model into an engine that has one never returns. *)
Theorem loadModel_over_loaded_model_never_returns :
  forall (B : Backend) (fuel : nat) (L : Loader B) (x : Instance B)
         (model_path : string) (config : InferenceConfig),
    loaded (core x) = true ->
    exists f, loadModel B fuel L x model_path config = Stuck f.
Proof.
  intros B fuel L x model_path config Hl.
  unfold loadModel, lock_guard.
  destruct (mutex_ (core x)) eqn:Hm.
  - exists SelfDeadlock. reflexivity.
  - simpl. rewrite Hl.
    destruct (unloadModel_never_returns_under_lock B fuel
                (set_mutex B true (core x))) as [f Hf]; [reflexivity|].
    rewrite Hf. exists f. reflexivity.
Qed.

Lemma loadModel_over_loaded_model_never_returns_witness :
  exists f,
    loadModel plain 8 (toy_loader plain 0 true true)
      (mkInstance plain three_committed "a.gguf") "b.gguf" default_config
    = Stuck f.
Proof.
  apply (loadModel_over_loaded_model_never_returns plain 8
           (toy_loader plain 0 true true)
           (mkInstance plain three_committed "a.gguf")).
  reflexivity.
Defined.



Lemma map_seq_from_zero {A : Type} (f : nat -> A) (len : nat) :
  forall start : nat,
    map f (seq start len) = map (fun j => f (start + j)%nat) (seq 0 len).
Proof.
  intros start. rewrite <- (Nat.add_0_r start) at 1.
  generalize 0%nat as base. revert start.
  induction len as [|len IH]; intros start base; [reflexivity|].
  simpl. f_equal.
  replace (S (start + base)) with (start + S base)%nat by lia.
  apply IH.
Qed.

Lemma fill_batch_split (tokens : list llama_token) (n_past n_tokens i a b : Z) :
  0 <= i -> 0 <= a -> 0 <= b ->
  fill_batch tokens n_past n_tokens i (a + b)
  = fill_batch tokens n_past n_tokens i a
    ++ fill_batch tokens n_past n_tokens (i + a) b.
Proof.
  intros Hi Ha Hb. unfold fill_batch.
  rewrite Z2Nat.inj_add by assumption.
  rewrite seq_app, map_app. f_equal.
  rewrite (map_seq_from_zero _ (Z.to_nat b) (0 + Z.to_nat a)).
  apply map_ext. intros j. simpl.
  replace (i + a + Z.of_nat j) with (i + Z.of_nat (Z.to_nat a + j)) by lia.
  replace (n_past + (i + a) + Z.of_nat j)
    with (n_past + i + Z.of_nat (Z.to_nat a + j)) by lia.
  reflexivity.
Qed.

Lemma fill_batch_nothing (tokens : list llama_token)
      (n_past n_tokens i n_eval : Z) :
  n_eval <= 0 -> fill_batch tokens n_past n_tokens i n_eval = [].
Proof.
  intros H. unfold fill_batch.
  replace (Z.to_nat n_eval) with 0%nat by lia. reflexivity.
Qed.

Lemma fill_batch_length (tokens : list llama_token)
      (n_past n_tokens i n_eval : Z) :
  List.length (fill_batch tokens n_past n_tokens i n_eval) = Z.to_nat n_eval.
Proof. unfold fill_batch. now rewrite length_map, length_seq. Qed.

(** The batches [evaluate_batches] hands to a backend that keeps them. *)
Lemma evaluate_batches_recorded (tokens : list llama_token)
      (bsz n_past n_tokens : Z) :
  1 <= bsz ->
  forall (bound : nat) (c : list llama_batch) (i : Z),
    0 <= i ->
    n_tokens - i <= Z.of_nat bound ->
    exists bs,
      evaluate_batches recorder bound c tokens bsz n_past n_tokens i
        = Returns (true, c ++ bs) /\
      List.concat (map entries_of bs)
        = fill_batch tokens n_past n_tokens i (n_tokens - i) /\
      Forall (fun b => 1 <= Z.of_nat (List.length (entries_of b)) <= bsz) bs.
Proof.
  intros Hb. induction bound as [|k IH]; intros c i Hi Hfuel.
  - simpl. destruct (Z.ltb_spec i n_tokens); [lia|].
    exists []. rewrite app_nil_r. split; [reflexivity|].
    split; [|constructor].
    simpl. symmetry. apply fill_batch_nothing. lia.
  - simpl. destruct (Z.ltb_spec i n_tokens) as [Hlt|Hge].
    + destruct (IH (c ++ [batch_init
                            (fill_batch tokens n_past n_tokens i
                               (Z.min bsz (n_tokens - i)))])
                  (i + bsz)) as [bs [Hrun [Hcat Hall]]]; try lia.
      exists (batch_init (fill_batch tokens n_past n_tokens i
                            (Z.min bsz (n_tokens - i))) :: bs).
      split; [rewrite Hrun, <- app_assoc; reflexivity|].
      split.
      * simpl. rewrite Hcat.
        destruct (Z.le_gt_cases bsz (n_tokens - i)) as [Hfull|Hlast].
        -- rewrite Z.min_l by lia.
           rewrite <- fill_batch_split by lia.
           f_equal. lia.
        -- rewrite Z.min_r by lia.
           rewrite (fill_batch_nothing tokens n_past n_tokens (i + bsz))
             by lia.
           apply app_nil_r.
      * constructor; [|exact Hall].
        simpl. rewrite fill_batch_length. lia.
    + exists []. rewrite app_nil_r. split; [reflexivity|].
      split; [|constructor].
      simpl. symmetry. apply fill_batch_nothing. lia.
Qed.

(** X13: a prompt of [n] tokens (other than a single one) is handed to
    the backend in batches of at least one and at most [batch_size]
    tokens which, put end to end, carry every token of the prompt once
    and in order, the j-th at position [n_past + j], with the output
    requested for the last token only. *)
Theorem evaluateTokens_batches_cover_prompt :
  forall (fuel : nat) (e : Engine recorder) (tokens : list llama_token)
         (n_past n_tokens : Z),
    1 <= batch_size (current_config_ e) ->
    0 <= n_tokens ->
    n_tokens <> 1 ->
    n_tokens <= Z.of_nat fuel ->
    exists bs,
      evaluateTokens recorder fuel e tokens n_past n_tokens
        = Returns (true, set_ctx recorder (ctx_ e ++ bs) e) /\
      List.concat (map entries_of bs)
        = map (fun j : nat =>
                 mkEntry (nth j tokens 0) (n_past + Z.of_nat j)
                         (Z.of_nat j =? n_tokens - 1))
              (seq 0 (Z.to_nat n_tokens)) /\
      Forall (fun b => 1 <= Z.of_nat (List.length (entries_of b))
                       <= batch_size (current_config_ e)) bs.
Proof.
  intros fuel e tokens n_past n_tokens Hb Hn Hone Hfuel.
  destruct (evaluate_batches_recorded tokens (batch_size (current_config_ e))
              n_past n_tokens Hb fuel (ctx_ e) 0) as [bs [Hrun [Hcat Hall]]];
    try lia.
  exists bs. split.
  - unfold evaluateTokens. destruct (Z.eqb_spec n_tokens 1); [contradiction|].
    rewrite Hrun. reflexivity.
  - split; [|exact Hall].
    rewrite Hcat. unfold fill_batch.
    replace (n_tokens - 0) with n_tokens by lia.
    apply map_ext. intros j. simpl.
    rewrite Nat2Z.id. rewrite Z.add_0_r. reflexivity.
Qed.

Lemma evaluateTokens_batches_cover_prompt_witness :
  let e := mkEngine recorder true [] false false false [] 0 0
             (mkStats 0 0 0) (mkConfig 256 2 256 4 true false 40 64 0) in
  exists bs,
    evaluateTokens recorder 8 e [1; 104; 105; 33; 10] 7 5
      = Returns (true, set_ctx recorder (ctx_ e ++ bs) e) /\
    List.concat (map entries_of bs)
      = map (fun j : nat =>
               mkEntry (nth j [1; 104; 105; 33; 10] 0) (7 + Z.of_nat j)
                       (Z.of_nat j =? 5 - 1))
            (seq 0 (Z.to_nat 5)) /\
    Forall (fun b => 1 <= Z.of_nat (List.length (entries_of b))
                     <= batch_size (current_config_ e)) bs.
Proof.
  cbv zeta.
  apply (evaluateTokens_batches_cover_prompt 8
           (mkEngine recorder true [] false false false [] 0 0
              (mkStats 0 0 0) (mkConfig 256 2 256 4 true false 40 64 0))
           [1; 104; 105; 33; 10] 7 5).
  - simpl. lia.
  - lia.
  - lia.
  - simpl. lia.
Defined.

(** X23: the committed count stays within history across the rest of
    the engine's life cycle too: callback-driven generation, whatever
    the callback answers, and unloading and loading a model leave
    [n_past_ <= tokens_.size()] in place whenever they return. *)
Theorem lifecycle_keeps_committed_within_history :
  forall (B : Backend) (fuel : nat) (L : Loader B),
    (forall (e e' : Engine B) (prompt : string) (config : InferenceConfig)
            (callback : option TokenCallback) (ok : bool)
            (calls : list (string * bool)),
       committed_within_history B e ->
       generateWithCallback B fuel e prompt config callback
         = Returns (ok, e', calls) ->
       committed_within_history B e') /\
    (forall (e e' : Engine B),
       unloadModel B fuel e = Returns e' ->
       committed_within_history B e') /\
    (forall (x x' : Instance B) (model_path : string)
            (config : InferenceConfig) (ok : bool),
       committed_within_history B (core x) ->
       loadModel B fuel L x model_path config = Returns (ok, x') ->
       committed_within_history B (core x')).
Proof.
  intros B fuel L. split; [|split].
  - intros e e' prompt config callback ok calls Hinv H.
    unfold generateWithCallback in H.
    destruct (startInference B fuel e prompt config) as [[ok0 e0]|f] eqn:Hs;
      simpl in H; [|discriminate].
    pose proof (startInference_within_history B fuel e e0 prompt config ok0
                  Hinv Hs) as Hinv0.
    destruct ok0; simpl in H.
    + destruct (generate_loop B fuel fuel callback e0 [])
        as [[e1 calls1]|f] eqn:Hl; simpl in H; [|discriminate].
      injection H as _ <- _.
      exact (generate_loop_within_history B fuel callback fuel e0 e1 []
               calls1 Hinv0 Hl).
    + injection H as _ <- _. exact Hinv0.
  - intros e e' H. unfold unloadModel in H.
    destruct (wait_while_generating B fuel (set_stop_requested B true e))
      as [e1|f]; simpl in H; [|discriminate].
    unfold lock_guard in H. destruct (mutex_ e1); [discriminate|].
    simpl in H. injection H as <-.
    unfold committed_within_history, INT_MIN, size. simpl. lia.
  - intros x x' model_path config ok [Hlo Hhi] H.
    destruct (loadModel_keeps_window B fuel L x x' model_path config ok H)
      as [Ht Hn].
    unfold committed_within_history. rewrite Ht, Hn. split; assumption.
Qed.

Lemma lifecycle_keeps_committed_within_history_witness :
  exists e' calls,
    generateWithCallback plain 10
      (engine_after_load plain 0 scenario_A_config) "123456789"
      scenario_A_config (Some keep_going) = Returns (true, e', calls) /\
    committed_within_history plain e'.
Proof.
  eexists. eexists. split; [vm_compute; reflexivity|].
  refine (proj1 (lifecycle_keeps_committed_within_history plain 10
                   (toy_loader plain 0 true true))
            (engine_after_load plain 0 scenario_A_config) _
            "123456789"%string scenario_A_config (Some keep_going) true _
            _ _).
  - unfold committed_within_history, INT_MIN, size. simpl. lia.
  - vm_compute. reflexivity.
Defined.

End SessionFacts.

(* ================================================================== *)
(** ** The memory policy beyond the gate *)

Module MemoryPolicyFacts.
Import Machine MachineFacts MemoryManager MemoryManagerFacts.

Lemma recommended_value (host : MemInfo) :
  getRecommendedContextSize host
  = Some (2 ^ Z.log2 (spec_clamped (getAvailableMemory host))).
Proof.
  pose proof (getAvailableMemory_range host) as Ha.
  unfold getRecommendedContextSize.
  set (a := getAvailableMemory host) in *.
  assert (Hu : (if a >? ALLOCATION_SAFETY_MARGIN
                then size_sub a ALLOCATION_SAFETY_MARGIN else 0)
               = Z.max 0 (a - ALLOCATION_SAFETY_MARGIN)).
  { unfold is_size in Ha.
    destruct (Z.gtb_spec a ALLOCATION_SAFETY_MARGIN).
    - unfold size_sub. rewrite wrap_size_small; [lia|].
      unfold is_size, ALLOCATION_SAFETY_MARGIN in *. lia.
    - lia. }
  rewrite Hu. cbv zeta.
  change (Z.min (Z.max (Z.max 0 (a - ALLOCATION_SAFETY_MARGIN)
                        / BYTES_PER_TOKEN) 512) 32768)
    with (spec_clamped a).
  apply rounding_is_floor_pow2. apply spec_clamped_range.
Qed.

Lemma spec_clamped_monotone (a b : Z) :
  a <= b -> spec_clamped a <= spec_clamped b.
Proof.
  intros H. unfold spec_clamped.
  assert (Hdiv : Z.max 0 (a - ALLOCATION_SAFETY_MARGIN) / BYTES_PER_TOKEN
                 <= Z.max 0 (b - ALLOCATION_SAFETY_MARGIN) / BYTES_PER_TOKEN).
  { apply Z.div_le_mono; [unfold BYTES_PER_TOKEN; lia | lia]. }
  lia.
Qed.

Lemma size_add_wraps_once (a b : Z) :
  is_size a -> is_size b -> SIZE_MAX < a + b ->
  size_add a b = a + b - SIZE_MOD.
Proof.
  unfold is_size, SIZE_MAX, size_add, wrap_size. intros Ha Hb Hover.
  symmetry. apply (Z.mod_unique_pos (a + b) SIZE_MOD 1); lia.
Qed.

(** X14: a host that reports no memory figures is treated as having no
    memory at all: available memory is 0, the pressure is Critical,
    every request is refused, and the recommended context is the
    minimum of 512 tokens. *)
Theorem silent_host_is_most_conservative :
  forall (host : MemInfo),
    (forall field, host field = None) ->
    getAvailableMemory host = 0 /\
    getTotalMemory host = 0 /\
    getMemoryPressure host = Critical /\
    (forall bytes, is_size bytes -> canAllocate host bytes = false) /\
    getRecommendedContextSize host = Some 512.
Proof.
  intros host Hnone.
  assert (Hread : forall field, readMemInfo host field = 0).
  { intros field. unfold readMemInfo. rewrite Hnone. reflexivity. }
  assert (Ha : getAvailableMemory host = 0).
  { unfold getAvailableMemory. rewrite !Hread. reflexivity. }
  split; [exact Ha|].
  split; [apply Hread|].
  split; [unfold getMemoryPressure; rewrite Ha; reflexivity|].
  split.
  - intros bytes Hb. unfold canAllocate. rewrite Ha.
    destruct (Z.ltb_spec 0 (size_add bytes ALLOCATION_SAFETY_MARGIN))
      as [_|Hzero]; [reflexivity|].
    assert (Hm : is_size ALLOCATION_SAFETY_MARGIN)
      by (unfold is_size; vm_compute; split; congruence).
    destruct (Z.le_gt_cases (bytes + ALLOCATION_SAFETY_MARGIN) SIZE_MAX)
      as [Hfit|Hover].
    + unfold size_add in Hzero. rewrite wrap_size_small in Hzero.
      * unfold is_size, ALLOCATION_SAFETY_MARGIN in *. lia.
      * unfold is_size, SIZE_MAX, ALLOCATION_SAFETY_MARGIN in *. lia.
    + rewrite (size_add_wraps_once _ _ Hb Hm) in Hzero by lia.
      assert (Hbytes : bytes = SIZE_MOD - ALLOCATION_SAFETY_MARGIN).
      { unfold is_size, SIZE_MAX in *. lia. }
      subst bytes. vm_compute. reflexivity.
  - rewrite recommended_value, Ha. vm_compute. reflexivity.
Qed.

Lemma silent_host_is_most_conservative_witness :
  canAllocate (fun _ => None) (600 * MB) = false /\
  getRecommendedContextSize (fun _ => None) = Some 512.
Proof.
  destruct (silent_host_is_most_conservative (fun _ => None)
              (fun _ => eq_refl)) as [_ [_ [_ [Hgate Hrec]]]].
  split; [apply Hgate|exact Hrec].
  unfold is_size. vm_compute. split; congruence.
Defined.

(** X15: the recommended context size never shrinks when available
    memory grows, and it always lies between 512 and 32768. *)
Theorem getRecommendedContextSize_monotone :
  forall (h1 h2 : MemInfo),
    getAvailableMemory h1 <= getAvailableMemory h2 ->
    exists r1 r2,
      getRecommendedContextSize h1 = Some r1 /\
      getRecommendedContextSize h2 = Some r2 /\
      512 <= r1 /\ r1 <= r2 /\ r2 <= 32768.
Proof.
  intros h1 h2 Hle.
  exists (2 ^ Z.log2 (spec_clamped (getAvailableMemory h1))),
         (2 ^ Z.log2 (spec_clamped (getAvailableMemory h2))).
  split; [apply recommended_value|]. split; [apply recommended_value|].
  pose proof (spec_clamped_range (getAvailableMemory h1)) as R1.
  pose proof (spec_clamped_range (getAvailableMemory h2)) as R2.
  pose proof (spec_clamped_monotone _ _ Hle) as Hmono.
  split; [|split].
  - change 512 with (2 ^ 9). apply Z.pow_le_mono_r; [lia|].
    change 9 with (Z.log2 512). apply Z.log2_le_mono. lia.
  - apply Z.pow_le_mono_r; [lia|]. apply Z.log2_le_mono. exact Hmono.
  - change 32768 with (2 ^ 15). apply Z.pow_le_mono_r; [lia|].
    change 15 with (Z.log2 32768). apply Z.log2_le_mono. lia.
Qed.

Lemma getRecommendedContextSize_monotone_witness :
  exists r1 r2,
    getRecommendedContextSize (host_available_kb (300 * 1024)) = Some r1 /\
    getRecommendedContextSize (host_available_kb (2048 * 1024)) = Some r2 /\
    512 <= r1 /\ r1 <= r2 /\ r2 <= 32768.
Proof.
  apply getRecommendedContextSize_monotone.
  vm_compute. discriminate.
Defined.

Lemma model_round_trip (host : MemInfo) (bytes : Z) (st : State) :
  is_size bytes ->
  is_size (model_memory_ st) ->
  model_memory_ st + bytes <= SIZE_MAX ->
  fst (unregisterModelMemory bytes
         (fst (registerModelMemory host bytes st))) = st.
Proof.
  intros Hb Hm Hfit. destruct st as [m c cb]. simpl in *.
  unfold is_size, SIZE_MAX in *.
  unfold unregisterModelMemory, registerModelMemory. simpl.
  unfold size_add. rewrite (wrap_size_small (m + bytes))
    by (unfold is_size; lia).
  destruct (Z.gtb_spec bytes (m + bytes)); [lia|]. simpl.
  unfold size_sub. rewrite wrap_size_small by (unfold is_size; lia).
  f_equal. lia.
Qed.

Lemma context_round_trip (host : MemInfo) (bytes : Z) (st : State) :
  is_size bytes ->
  is_size (context_memory_ st) ->
  context_memory_ st + bytes <= SIZE_MAX ->
  fst (unregisterContextMemory bytes
         (fst (registerContextMemory host bytes st))) = st.
Proof.
  intros Hb Hc Hfit. destruct st as [m c cb]. simpl in *.
  unfold is_size, SIZE_MAX in *.
  unfold unregisterContextMemory, registerContextMemory. simpl.
  unfold size_add. rewrite (wrap_size_small (c + bytes))
    by (unfold is_size; lia).
  destruct (Z.gtb_spec bytes (c + bytes)); [lia|]. simpl.
  unfold size_sub. rewrite wrap_size_small by (unfold is_size; lia).
  f_equal. lia.
Qed.

(** X16: registering an amount and unregistering it again restores the
    manager, for the model total and for the context total, as long as
    the running total fits [size_t].  When the sum does not fit, the
    total wraps on registration and the unregistration that follows
    clamps it to zero. *)
Theorem register_unregister_round_trip :
  forall (host : MemInfo) (bytes : Z) (st : State),
    is_size bytes ->
    is_size (model_memory_ st) ->
    is_size (context_memory_ st) ->
    (model_memory_ st + bytes <= SIZE_MAX ->
     fst (unregisterModelMemory bytes
            (fst (registerModelMemory host bytes st))) = st) /\
    (context_memory_ st + bytes <= SIZE_MAX ->
     fst (unregisterContextMemory bytes
            (fst (registerContextMemory host bytes st))) = st) /\
    (SIZE_MAX < model_memory_ st + bytes ->
     model_memory_
       (fst (unregisterModelMemory bytes
               (fst (registerModelMemory host bytes st)))) = 0).
Proof.
  intros host bytes st Hb Hm Hc.
  split; [|split].
  - apply model_round_trip; assumption.
  - apply context_round_trip; assumption.
  - intros Hover. destruct st as [m c cb]. simpl in *.
    unfold unregisterModelMemory, registerModelMemory. simpl.
    rewrite size_add_wraps_once by assumption.
    unfold is_size, SIZE_MAX in *.
    destruct (Z.gtb_spec bytes (m + bytes - SIZE_MOD)); [reflexivity|lia].
Qed.

Lemma register_unregister_round_trip_witness :
  let st := mkState (300 * MB) (40 * MB) (Some 7%nat) in
  fst (unregisterModelMemory (500 * MB)
         (fst (registerModelMemory (host_available_kb (100 * 1024))
                 (500 * MB) st))) = st /\
  model_memory_
    (fst (unregisterModelMemory SIZE_MAX
            (fst (registerModelMemory (host_available_kb (100 * 1024))
                    SIZE_MAX st)))) = 0.
Proof.
  cbv zeta. split.
  - apply (register_unregister_round_trip
             (host_available_kb (100 * 1024)) (500 * MB)
             (mkState (300 * MB) (40 * MB) (Some 7%nat)));
      [ unfold is_size; vm_compute; split; congruence
      | unfold is_size; vm_compute; split; congruence
      | unfold is_size; vm_compute; split; congruence
      | vm_compute; discriminate ].
  - apply (register_unregister_round_trip
             (host_available_kb (100 * 1024)) SIZE_MAX
             (mkState (300 * MB) (40 * MB) (Some 7%nat)));
      [ unfold is_size; vm_compute; split; congruence
      | unfold is_size; vm_compute; split; congruence
      | unfold is_size; vm_compute; split; congruence
      | vm_compute; reflexivity ].
Defined.

(** X17: with the fixed estimate of 600 MB that model loading asks for,
    the gate opens exactly when at least 1100 MB are available: the
    500 MB that must stay free decide, the 100 MB margin never does. *)
Theorem canAllocate_estimated_mem_threshold :
  forall (host : MemInfo),
    canAllocate host PlatformChannel.estimated_mem = true <->
    1100 * MB <= getAvailableMemory host.
Proof.
  intros host.
  change PlatformChannel.estimated_mem with (600 * MB).
  assert (Hsz : is_size (600 * MB))
    by (unfold is_size; vm_compute; split; congruence).
  assert (Hfit : 600 * MB + ALLOCATION_SAFETY_MARGIN <= SIZE_MAX)
    by (vm_compute; discriminate).
  rewrite (canAllocate_exact host (600 * MB) Hsz Hfit).
  unfold ALLOCATION_SAFETY_MARGIN, MIN_FREE_AFTER_ALLOC, MB. lia.
Qed.

Lemma canAllocate_estimated_mem_threshold_witness :
  canAllocate (host_available_kb (1100 * 1024)) PlatformChannel.estimated_mem
    = true.
Proof.
  apply (proj2 (canAllocate_estimated_mem_threshold
                  (host_available_kb (1100 * 1024)))).
  vm_compute. discriminate.
Defined.

End MemoryPolicyFacts.

(* ================================================================== *)
(** ** platform_channel.cpp: loading and unloading through the gate *)

Module PlatformFacts.
Import Machine MachineFacts InferenceEngine Lifecycle Fixtures MoreFixtures.
Import MemoryManagerFacts MemoryPolicyFacts SessionFacts.

Lemma gate_closed (host : MemoryManager.MemInfo) :
  MemoryManager.getAvailableMemory host < 1100 * MemoryManager.MB ->
  MemoryManager.canAllocate host PlatformChannel.estimated_mem = false.
Proof.
  intros Hlow.
  destruct (MemoryManager.canAllocate host PlatformChannel.estimated_mem)
    eqn:E; [|reflexivity].
  apply canAllocate_exact in E.
  - unfold PlatformChannel.estimated_mem,
      MemoryManager.ALLOCATION_SAFETY_MARGIN,
      MemoryManager.MIN_FREE_AFTER_ALLOC, MemoryManager.MB in *. lia.
  - unfold is_size. vm_compute. split; congruence.
  - vm_compute. discriminate.
Qed.

Lemma gate_open (host : MemoryManager.MemInfo) :
  1100 * MemoryManager.MB <= MemoryManager.getAvailableMemory host ->
  MemoryManager.canAllocate host PlatformChannel.estimated_mem = true.
Proof.
  intros Hhigh. apply canAllocate_exact.
  - unfold is_size. vm_compute. split; congruence.
  - vm_compute. discriminate.
  - unfold PlatformChannel.estimated_mem,
      MemoryManager.ALLOCATION_SAFETY_MARGIN,
      MemoryManager.MIN_FREE_AFTER_ALLOC, MemoryManager.MB in *. lia.
Qed.

Lemma usage_is_size (B : Backend) (L : Loader B) (x : Instance B) :
  is_size (getModelMemoryUsage B L x) /\
  is_size (getContextMemoryUsage B L x).
Proof.
  unfold getModelMemoryUsage, getContextMemoryUsage.
  destruct (negb (loaded (core x))).
  - unfold is_size, SIZE_MOD. lia.
  - split; [apply wrap_size_range|]. unfold size_mul. apply wrap_size_range.
Qed.

(** X18: when less than 1100 MB are available, the platform's
    [loadModel] returns false without asking the engine to load
    anything: the memory manager is unchanged, no pressure callback
    runs, and a model that was loaded stays loaded.  The only effect is
    that the engine object is created if it did not exist. *)
Theorem platform_loadModel_refused_when_memory_is_short :
  forall (B : Backend) (fuel : nat) (L : Loader B) (c0 : context B)
         (host host1 host2 : MemoryManager.MemInfo) (hw : Z)
         (p : PlatformChannel.Platform B) (path : string),
    MemoryManager.getAvailableMemory host < 1100 * MemoryManager.MB ->
    exists p',
      PlatformChannel.loadModel B fuel L c0 host host1 host2 hw p path
        = Returns (false, p', []) /\
      PlatformChannel.memMgr p' = PlatformChannel.memMgr p /\
      PlatformChannel.isModelLoaded B p' = PlatformChannel.isModelLoaded B p /\
      PlatformChannel.g_engine p'
        = Some (match PlatformChannel.g_engine p with
                | Some x => x
                | None => InferenceEngine_new B c0
                end).
Proof.
  intros B fuel L c0 host host1 host2 hw p path Hlow.
  unfold PlatformChannel.loadModel, PlatformChannel.getEngine.
  rewrite (gate_closed host Hlow).
  destruct p as [[x|] m]; simpl;
    eexists; (split; [reflexivity|]); simpl; repeat split.
Qed.

Lemma platform_loadModel_refused_when_memory_is_short_witness :
  exists p',
    PlatformChannel.loadModel plain 8 (toy_loader plain 0 true true) 0
      (MemoryManager.host_available_kb (900 * 1024))
      (MemoryManager.host_available_kb (900 * 1024))
      (MemoryManager.host_available_kb (900 * 1024))
      8 (PlatformChannel.mkPlatform plain None MemoryManager.initial)
      "m.gguf"
    = Returns (false, p', []) /\
    PlatformChannel.memMgr p' = MemoryManager.initial /\
    PlatformChannel.isModelLoaded plain p' = false /\
    PlatformChannel.g_engine p' = Some (InferenceEngine_new plain 0).
Proof.
  apply (platform_loadModel_refused_when_memory_is_short plain 8
           (toy_loader plain 0 true true) 0
           (MemoryManager.host_available_kb (900 * 1024))
           (MemoryManager.host_available_kb (900 * 1024))
           (MemoryManager.host_available_kb (900 * 1024))
           8 (PlatformChannel.mkPlatform plain None MemoryManager.initial)
           "m.gguf"%string).
  vm_compute. reflexivity.
Defined.

(** X19: a second [loadModel] through the platform while a model is
    loaded and the gate is open never returns: the engine's [loadModel]
    unloads the old model under the lock that [unloadModel] needs. *)
Theorem platform_loadModel_twice_never_returns :
  forall (B : Backend) (fuel : nat) (L : Loader B) (c0 : context B)
         (host host1 host2 : MemoryManager.MemInfo) (hw : Z)
         (p : PlatformChannel.Platform B) (path : string),
    PlatformChannel.isModelLoaded B p = true ->
    1100 * MemoryManager.MB <= MemoryManager.getAvailableMemory host ->
    exists f,
      PlatformChannel.loadModel B fuel L c0 host host1 host2 hw p path
        = Stuck f.
Proof.
  intros B fuel L c0 host host1 host2 hw p path Hl Hopen.
  unfold PlatformChannel.loadModel, PlatformChannel.getEngine.
  destruct p as [[x|] m]; simpl in *; [|discriminate].
  rewrite (gate_open host Hopen). simpl.
  destruct (loadModel_stuck_when_loaded B fuel L x path
              (PlatformChannel.createMobileConfig hw) Hl) as [f Hf].
  rewrite Hf. exists f. reflexivity.
Qed.

Lemma platform_loadModel_twice_never_returns_witness :
  exists f,
    PlatformChannel.loadModel plain 8 (toy_loader plain 0 true true) 0
      (MemoryManager.host_available_kb (2048 * 1024))
      (MemoryManager.host_available_kb (2048 * 1024))
      (MemoryManager.host_available_kb (2048 * 1024))
      8 (PlatformChannel.mkPlatform plain
           (Some (mkInstance plain three_committed "a.gguf"))
           MemoryManager.initial)
      "b.gguf"
    = Stuck f.
Proof.
  apply (platform_loadModel_twice_never_returns plain 8
           (toy_loader plain 0 true true) 0
           (MemoryManager.host_available_kb (2048 * 1024))
           (MemoryManager.host_available_kb (2048 * 1024))
           (MemoryManager.host_available_kb (2048 * 1024))
           8 (PlatformChannel.mkPlatform plain
                (Some (mkInstance plain three_committed "a.gguf"))
                MemoryManager.initial)
           "b.gguf"%string).
  - reflexivity.
  - vm_compute. discriminate.
Defined.

(** X20: loading a first model through the platform and unloading it
    again leaves the memory manager as it was.  With at least 1100 MB
    available and a backend that loads the model and creates its
    context, [loadModel] returns true and adds the model's size and the
    context's size to the two totals; [unloadModel] takes the same
    amounts off again and leaves the engine without a model, provided
    the totals fit [size_t]. *)
Theorem platform_load_then_unload_restores_manager :
  forall (B : Backend) (fuel : nat) (L : Loader B) (c0 : context B)
         (host host1 host2 : MemoryManager.MemInfo) (hw : Z)
         (p : PlatformChannel.Platform B) (path : string) (c : context B),
    let config := PlatformChannel.createMobileConfig hw in
    let x1 :=
      mkInstance B
        (mkEngine B true (sampler_chain_init B config c) false false false
           [] 0 0 (mkStats 0 0 0) config)
        path in
    PlatformChannel.g_engine p = None ->
    1100 * MemoryManager.MB <= MemoryManager.getAvailableMemory host ->
    llama_model_load_from_file B L path config = true ->
    llama_init_from_model B L path config = Some c ->
    is_size (MemoryManager.model_memory_ (PlatformChannel.memMgr p)) ->
    is_size (MemoryManager.context_memory_ (PlatformChannel.memMgr p)) ->
    MemoryManager.model_memory_ (PlatformChannel.memMgr p)
      + getModelMemoryUsage B L x1 <= SIZE_MAX ->
    MemoryManager.context_memory_ (PlatformChannel.memMgr p)
      + getContextMemoryUsage B L x1 <= SIZE_MAX ->
    exists p1 evs p2,
      PlatformChannel.loadModel B fuel L c0 host host1 host2 hw p path
        = Returns (true, p1, evs) /\
      PlatformChannel.g_engine p1 = Some x1 /\
      MemoryManager.model_memory_ (PlatformChannel.memMgr p1)
        = MemoryManager.model_memory_ (PlatformChannel.memMgr p)
          + getModelMemoryUsage B L x1 /\
      MemoryManager.context_memory_ (PlatformChannel.memMgr p1)
        = MemoryManager.context_memory_ (PlatformChannel.memMgr p)
          + getContextMemoryUsage B L x1 /\
      PlatformChannel.unloadModel B fuel L p1 = Returns p2 /\
      PlatformChannel.memMgr p2 = PlatformChannel.memMgr p /\
      PlatformChannel.isModelLoaded B p2 = false.
Proof.
  intros B fuel L c0 host host1 host2 hw p path c config x1
         Hnone Hopen Hload Hinit Hm Hc Hfm Hfc.
  destruct (usage_is_size B L x1) as [Hum Huc].
  set (um := getModelMemoryUsage B L x1) in *.
  set (uc := getContextMemoryUsage B L x1) in *.
  destruct p as [g [m0 c1 cb]].
  cbn [PlatformChannel.g_engine PlatformChannel.memMgr
       MemoryManager.model_memory_ MemoryManager.context_memory_] in *.
  subst g.
  unfold is_size, SIZE_MAX in *.
  assert (Hengine :
    loadModel B fuel L (InferenceEngine_new B c0) path config
    = Returns (true, x1)).
  { apply (loadModel_run_ok B fuel L (InferenceEngine_new B c0) path
             config c eq_refl eq_refl Hload Hinit). }
  assert (Hrun :
    PlatformChannel.loadModel B fuel L c0 host host1 host2 hw
      (PlatformChannel.mkPlatform B None (MemoryManager.mkState m0 c1 cb))
      path
    = Returns
        (true,
         PlatformChannel.mkPlatform B (Some x1)
           (MemoryManager.mkState (m0 + um) (c1 + uc) cb),
         MemoryManager.checkMemoryPressure host1
           (MemoryManager.mkState (m0 + um) c1 cb)
         ++ MemoryManager.checkMemoryPressure host2
              (MemoryManager.mkState (m0 + um) (c1 + uc) cb))).
  { unfold PlatformChannel.loadModel, PlatformChannel.getEngine.
    cbn [PlatformChannel.g_engine PlatformChannel.memMgr].
    rewrite (gate_open host Hopen). cbn [negb].
    fold config. rewrite Hengine. cbn [bind].
    fold um. fold uc.
    unfold MemoryManager.registerModelMemory,
      MemoryManager.registerContextMemory.
    cbn [MemoryManager.model_memory_ MemoryManager.context_memory_
         MemoryManager.pressure_callback_].
    unfold size_add.
    rewrite (wrap_size_small (m0 + um)) by (unfold is_size; lia).
    rewrite (wrap_size_small (c1 + uc)) by (unfold is_size; lia).
    reflexivity. }
  eexists. eexists. eexists.
  split; [exact Hrun|].
  cbn [PlatformChannel.g_engine PlatformChannel.memMgr
       MemoryManager.model_memory_ MemoryManager.context_memory_].
  split; [reflexivity|]. split; [reflexivity|]. split; [reflexivity|].
  unfold PlatformChannel.unloadModel.
  cbn [PlatformChannel.g_engine PlatformChannel.memMgr].
  fold um. fold uc.
  unfold MemoryManager.unregisterModelMemory.
  cbn [MemoryManager.model_memory_ MemoryManager.context_memory_
       MemoryManager.pressure_callback_].
  destruct (Z.gtb_spec um (m0 + um)); [lia|].
  unfold MemoryManager.unregisterContextMemory.
  cbn [MemoryManager.model_memory_ MemoryManager.context_memory_
       MemoryManager.pressure_callback_].
  destruct (Z.gtb_spec uc (c1 + uc)); [lia|].
  rewrite (unloadModel_run B fuel (core x1)) by reflexivity.
  cbn [bind PlatformChannel.memMgr PlatformChannel.isModelLoaded
       PlatformChannel.g_engine core isModelLoaded loaded].
  unfold size_sub.
  rewrite (wrap_size_small (m0 + um - um)) by (unfold is_size; lia).
  rewrite (wrap_size_small (c1 + uc - uc)) by (unfold is_size; lia).
  split; [reflexivity|].
  split; [cbn [PlatformChannel.memMgr]; f_equal; lia | reflexivity].
Qed.

Lemma platform_load_then_unload_restores_manager_witness :
  exists p1 evs p2,
    PlatformChannel.loadModel plain 8 (toy_loader plain 0 true true) 0
      (MemoryManager.host_available_kb (2048 * 1024))
      (MemoryManager.host_available_kb (2048 * 1024))
      (MemoryManager.host_available_kb (2048 * 1024))
      8 (PlatformChannel.mkPlatform plain None MemoryManager.initial)
      "m.gguf"
    = Returns (true, p1, evs) /\
    PlatformChannel.unloadModel plain 8 (toy_loader plain 0 true true) p1
      = Returns p2 /\
    PlatformChannel.memMgr p2 = MemoryManager.initial /\
    PlatformChannel.isModelLoaded plain p2 = false.
Proof.
  destruct (platform_load_then_unload_restores_manager plain 8
              (toy_loader plain 0 true true) 0
              (MemoryManager.host_available_kb (2048 * 1024))
              (MemoryManager.host_available_kb (2048 * 1024))
              (MemoryManager.host_available_kb (2048 * 1024))
              8 (PlatformChannel.mkPlatform plain None MemoryManager.initial)
              "m.gguf"%string 0)
    as [p1 [evs [p2 [Hload [_ [_ [_ [Hunload [Hmgr Hoff]]]]]]]]].
  - reflexivity.
  - vm_compute. discriminate.
  - reflexivity.
  - reflexivity.
  - unfold is_size. vm_compute. split; congruence.
  - unfold is_size. vm_compute. split; congruence.
  - vm_compute. discriminate.
  - vm_compute. discriminate.
  - exists p1, evs, p2. repeat split; assumption.
Defined.

End PlatformFacts.

(* ================================================================== *)
(** ** Facts about kv_cache.cpp *)

Module KVCacheFacts.
Import Machine MachineFacts KVCache.

Lemma unusable_is_inert (B : InferenceEngine.Backend) (M : MemoryCalls B)
      (k : KVCache) (c : llama_context B) :
  unusable k = true ->
  clear B k c = c /\
  (forall s e, removeTokens B k c s e = (false, c)) /\
  (forall s d, shiftTokens B k c s d = (false, c)) /\
  (forall a b s e, sequenceCopy B M k c a b s e = (false, c)) /\
  (forall q s e, sequenceRemove B k c q s e = (false, c)) /\
  (forall q, sequenceKeep B M k c q = c) /\
  getUsedCells B M k c = 0 /\
  getTotalCells B M k c = 0 /\
  getStats B M k c = mkKVStats 0 0 0 0.
Proof.
  intros Hu.
  unfold clear, removeTokens, shiftTokens, sequenceCopy, sequenceRemove,
    sequenceKeep, getUsedCells, getTotalCells, getStats.
  rewrite Hu. repeat split.
Qed.

(** X21: after [shutdown], whatever state the cache was in, every
    operation is inert: the queries return 0, the commands report
    failure, none of them reaches the backend's context, and a second
    [shutdown] changes nothing (the backend memory is cleared at most
    once).  The same holds after an [initialize] with a null context on
    a new cache, which returns false. *)
Theorem shutdown_makes_cache_inert :
  forall (B : InferenceEngine.Backend) (M : MemoryCalls B)
         (k : KVCache) (c c' : llama_context B) (config : KVCacheConfig),
    let k' := fst (shutdown B k c) in
    initialize KVCache_new false config = (false, KVCache_new) /\
    unusable KVCache_new = true /\
    unusable k' = true /\
    shutdown B k' c' = (k', c') /\
    clear B k' c' = c' /\
    (forall s e, removeTokens B k' c' s e = (false, c')) /\
    (forall s d, shiftTokens B k' c' s d = (false, c')) /\
    (forall a b s e, sequenceCopy B M k' c' a b s e = (false, c')) /\
    (forall q s e, sequenceRemove B k' c' q s e = (false, c')) /\
    (forall q, sequenceKeep B M k' c' q = c') /\
    getUsedCells B M k' c' = 0 /\
    getTotalCells B M k' c' = 0.
Proof.
  intros B M k c c' config k'.
  assert (Hinit : initialized_ k' = false).
  { subst k'. unfold shutdown. destruct (initialized_ k) eqn:E;
      [reflexivity | exact E]. }
  assert (Hu : unusable k' = true).
  { unfold unusable. rewrite Hinit. reflexivity. }
  split; [reflexivity|]. split; [reflexivity|]. split; [exact Hu|].
  split; [unfold shutdown; rewrite Hinit; reflexivity|].
  destruct (unusable_is_inert B M k' c' Hu)
    as [H1 [H2 [H3 [H4 [H5 [H6 [H7 [H8 _]]]]]]]].
  repeat split; assumption.
Qed.

(** X22: for non-negative dimensions whose result fits [size_t],
    [estimateMemory] is eight bytes per layer, position and embedding
    component plus a tenth of that, rounded down; the number of heads
    plays no part. *)
Theorem estimateMemory_value :
  forall (n_ctx n_embd n_layer n_head n_head' : Z),
    0 <= n_ctx <= INT_MAX ->
    0 <= n_embd <= INT_MAX ->
    0 <= n_layer <= INT_MAX ->
    let kv := 8 * n_layer * n_ctx * n_embd in
    kv + kv / 10 <= SIZE_MAX ->
    estimateMemory n_ctx n_embd n_layer n_head = kv + kv / 10 /\
    estimateMemory n_ctx n_embd n_layer n_head'
      = estimateMemory n_ctx n_embd n_layer n_head /\
    kv <= estimateMemory n_ctx n_embd n_layer n_head /\
    10 * estimateMemory n_ctx n_embd n_layer n_head <= 11 * kv.
Proof.
  intros C E Ly H H' HC HE HL kv Hfit.
  assert (Hkv0 : 0 <= kv) by (subst kv; nia).
  assert (Hdiv : 0 <= kv / 10 /\ 10 * (kv / 10) <= kv).
  { split; [apply Z.div_pos; lia|].
    apply Z.mul_div_le. lia. }
  unfold INT_MAX, SIZE_MAX, SIZE_MOD in *.
  assert (E1 : size_mul 2 (wrap_size Ly) = 2 * Ly).
  { rewrite (wrap_size_small Ly) by (unfold is_size, SIZE_MOD; lia).
    unfold size_mul. apply wrap_size_small. unfold is_size, SIZE_MOD. lia. }
  assert (E2 : size_mul (2 * Ly) (wrap_size C) = 2 * Ly * C).
  { rewrite (wrap_size_small C) by (unfold is_size, SIZE_MOD; lia).
    unfold size_mul. apply wrap_size_small. unfold is_size, SIZE_MOD. nia. }
  assert (E3 : size_mul (2 * Ly * C) (wrap_size E) = 2 * Ly * C * E).
  { rewrite (wrap_size_small E) by (unfold is_size, SIZE_MOD; lia).
    unfold size_mul. apply wrap_size_small. unfold is_size, SIZE_MOD.
    subst kv. nia. }
  assert (E4 : size_mul (2 * Ly * C * E) 4 = kv).
  { unfold size_mul. rewrite wrap_size_small.
    - subst kv. lia.
    - unfold is_size, SIZE_MOD. subst kv. nia. }
  assert (Hval : estimateMemory C E Ly H = kv + kv / 10).
  { unfold estimateMemory. rewrite E1, E2, E3, E4. cbv zeta.
    unfold size_add. apply wrap_size_small. unfold is_size, SIZE_MOD. lia. }
  split; [exact Hval|]. split; [reflexivity|].
  rewrite Hval. lia.
Qed.

Lemma estimateMemory_value_witness :
  estimateMemory 256 2048 24 16 = 100663296 + 100663296 / 10.
Proof.
  apply (estimateMemory_value 256 2048 24 16 16).
  - unfold INT_MAX. lia.
  - unfold INT_MAX. lia.
  - unfold INT_MAX. lia.
  - vm_compute. discriminate.
Defined.

End KVCacheFacts.
